(** * rs-coder/agent_loop.py: the ReflexScript agent loop

    A shallow embedding of [agent_loop.py]: code extraction from the model's
    reply, the [reflexc] invocation, the two parsers of compiler output, the
    feedback formatters and the retry loop itself.

    Text model.  A Python [str] is a [string] of 8-bit characters holding the
    UTF-8 encoding of the text.  [str.lower], [str.strip] and the regular
    expression classes [\s], [\d], [\w] act on the ASCII range, where they
    agree with Python; bytes above 127 are carried through unchanged and
    belong to no class. *)

From Stdlib Require Import ZArith Lia List Bool Ascii String DecimalString.
From stdpp Require Import base list sets gmap strings.

Import ListNotations.
Local Open Scope string_scope.
Local Open Scope list_scope.

(** ** Python string primitives *)

Module PyStr.

Definition nl_char : ascii := ascii_of_nat 10.
Definition nl : string := String nl_char EmptyString.

(** [str.isspace] on one ASCII character: TAB, LF, VT, FF, CR, the four
    separators 0x1c-0x1f and the space. *)
Definition isspace (c : ascii) : bool :=
  let n := N_of_ascii c in
  (((9 <=? n) && (n <=? 13)) || ((28 <=? n) && (n <=? 32)))%N.

Definition isdigit (c : ascii) : bool :=
  let n := N_of_ascii c in ((48 <=? n) && (n <=? 57))%N.

Definition isupper (c : ascii) : bool :=
  let n := N_of_ascii c in ((65 <=? n) && (n <=? 90))%N.

Definition islower (c : ascii) : bool :=
  let n := N_of_ascii c in ((97 <=? n) && (n <=? 122))%N.

(** The class [\w]: letters, digits and the underscore. *)
Definition isword (c : ascii) : bool :=
  isupper c || islower c || isdigit c || Ascii.eqb c "_"%char.

Definition lower_char (c : ascii) : ascii :=
  if isupper c then ascii_of_N (N_of_ascii c + 32) else c.

(** [s.lower()] *)
Fixpoint lower (s : string) : string :=
  match s with
  | EmptyString => EmptyString
  | String c s' => String (lower_char c) (lower s')
  end.

(** [s.lstrip()] *)
Fixpoint lstrip (s : string) : string :=
  match s with
  | EmptyString => EmptyString
  | String c s' => if isspace c then lstrip s' else s
  end.

(** [s.rstrip()] *)
Fixpoint rstrip (s : string) : string :=
  match s with
  | EmptyString => EmptyString
  | String c s' =>
      match rstrip s' with
      | EmptyString => if isspace c then EmptyString else String c EmptyString
      | r => String c r
      end
  end.

(** [s.strip()] *)
Definition strip (s : string) : string := rstrip (lstrip s).

(** Truth value of a [str]: non-empty. *)
Definition truthy (s : string) : bool :=
  match s with EmptyString => false | String _ _ => true end.

(** [s.startswith(p)] *)
Fixpoint startswith (p s : string) : bool :=
  match p, s with
  | EmptyString, _ => true
  | String a p', String b s' => Ascii.eqb a b && startswith p' s'
  | String _ _, EmptyString => false
  end.

(** [sub in s] *)
Fixpoint contains (sub s : string) : bool :=
  startswith sub s ||
  match s with
  | EmptyString => false
  | String _ s' => contains sub s'
  end.

(** [s.find(sub)], [None] standing for Python's [-1]. *)
Fixpoint find (sub s : string) : option nat :=
  if startswith sub s then Some 0
  else match s with
       | EmptyString => None
       | String _ s' => option_map S (find sub s')
       end.

(** [s[n:]] *)
Fixpoint drop (n : nat) (s : string) : string :=
  match n, s with
  | O, _ => s
  | S n', String _ s' => drop n' s'
  | S _, EmptyString => EmptyString
  end.

(** [s[:n]] *)
Fixpoint take (n : nat) (s : string) : string :=
  match n, s with
  | S n', String c s' => String c (take n' s')
  | _, _ => EmptyString
  end.

(** [s.split("\n")] *)
Fixpoint split_nl (s : string) : list string :=
  match s with
  | EmptyString => [EmptyString]
  | String c s' =>
      match split_nl s' with
      | cur :: rest =>
          if Ascii.eqb c nl_char then EmptyString :: cur :: rest
          else String c cur :: rest
      | [] => [String c EmptyString]
      end
  end.

(** [s.split(sep, 1)[1]]: what follows the first occurrence of [sep];
    [None] where Python raises [IndexError] (no occurrence). *)
Definition after_first (sep s : string) : option string :=
  match find sep s with
  | Some i => Some (drop (i + String.length sep) s)
  | None => None
  end.

(** [sep.join(parts)] *)
Fixpoint join (sep : string) (parts : list string) : string :=
  match parts with
  | [] => EmptyString
  | [p] => p
  | p :: rest => p ++ sep ++ join sep rest
  end.

(** [c * n] for a one-character string [c]. *)
Fixpoint repeat_char (c : ascii) (n : nat) : string :=
  match n with
  | O => EmptyString
  | S n' => String c (repeat_char c n')
  end.

(** [str(n)] for an [int]. *)
Definition of_Z (z : Z) : string := NilZero.string_of_int (Z.to_int z).
Definition of_nat (n : nat) : string := of_Z (Z.of_nat n).

(** [int(s)] on a string of decimal digits. *)
Definition digit_val (c : ascii) : Z := Z.of_N (N_of_ascii c) - 48.
Fixpoint int_acc (acc : Z) (s : string) : Z :=
  match s with
  | EmptyString => acc
  | String c s' => int_acc (10 * acc + digit_val c) s'
  end.
Definition int (s : string) : Z := int_acc 0 s.

(** [any(pattern in s for pattern in patterns)] *)
Definition any_in (patterns : list string) (s : string) : bool :=
  existsb (fun pattern => contains pattern s) patterns.

End PyStr.

(** ** Error categorisation: [parse_and_categorize_errors] *)

(** The five lists the function builds and returns, in the order of its
    result tuple. *)
Record buckets : Type := Buckets {
  syntax_errors : list string;
  type_errors : list string;
  linker_errors : list string;
  warnings : list string;
  other_messages : list string
}.

Definition informational_patterns : list string :=
  [ "safety analysis results"; "safety properties: verified";
    "estimated wcet"; "estimated stack"; "estimated state";
    "max loop depth"; "max stack depth"; "execution rate";
    "platform:"; "toolchain:"; "compilation complete"; "build successful";
    "phase:"; "checking:"; "processing:" ].

Definition syntax_patterns : list string :=
  [ "error:"; "syntax error"; "parse error"; "expected"; "missing";
    "unexpected token"; "invalid syntax"; "malformed" ].

Definition type_patterns : list string :=
  [ "type error"; "undefined"; "undeclared"; "incompatible types";
    "type mismatch"; "cannot convert"; "semantic error"; "analysis error" ].

Definition linker_patterns : list string :=
  [ "undefined reference"; "ld:"; "cannot find -l"; "unresolved symbol";
    "linker error"; "link error" ].

Definition warning_patterns : list string :=
  [ "warning:"; "deprecated"; "unused" ].

Definition other_patterns : list string :=
  [ "failed"; "error"; "exception"; "abort"; "fatal" ].

(** The body of the [for line in lines] loop. *)
Definition categorize_line (b : buckets) (line : string) : buckets :=
  if negb (PyStr.truthy (PyStr.strip line)) then b
  else
    let line_lower := PyStr.lower line in
    if PyStr.any_in informational_patterns line_lower then
      Buckets (syntax_errors b) (type_errors b) (linker_errors b)
              (warnings b) (other_messages b ++ [line])
    else if PyStr.any_in syntax_patterns line_lower then
      Buckets (syntax_errors b ++ [line]) (type_errors b) (linker_errors b)
              (warnings b) (other_messages b)
    else if PyStr.any_in type_patterns line_lower then
      Buckets (syntax_errors b) (type_errors b ++ [line]) (linker_errors b)
              (warnings b) (other_messages b)
    else if PyStr.any_in linker_patterns line_lower then
      Buckets (syntax_errors b) (type_errors b) (linker_errors b ++ [line])
              (warnings b) (other_messages b)
    else if PyStr.any_in warning_patterns line_lower then
      Buckets (syntax_errors b) (type_errors b) (linker_errors b)
              (warnings b ++ [line]) (other_messages b)
    else if PyStr.any_in other_patterns line_lower
            && negb (PyStr.contains "cannot open file" line_lower) then
      Buckets (syntax_errors b) (type_errors b) (linker_errors b)
              (warnings b) (other_messages b ++ [line])
    else
      Buckets (syntax_errors b) (type_errors b) (linker_errors b)
              (warnings b) (other_messages b ++ [line]).

Definition parse_and_categorize_errors (raw_output : string) : buckets :=
  let lines := PyStr.split_nl raw_output in
  fold_left categorize_line lines (Buckets [] [] [] [] []).

(** ** Regular expressions: the part of Python's [re] the program uses

    A backtracking matcher in continuation-passing style, with Python's
    search order: alternatives of a greedy quantifier are tried longest
    first, those of a lazy one shortest first, and the first complete match
    is the answer. *)

Module Re.

Inductive re : Type :=
| Eps                          (* the empty pattern *)
| Chr (c : ascii)              (* a literal character *)
| Dot                          (* [.]: any character but a newline *)
| DotAll                       (* [.] under [re.DOTALL] *)
| Cls (p : ascii -> bool)      (* a class: [\s], [\d], [\w] *)
| Seq (r1 r2 : re)
| Star (r : re)                (* [r*], greedy *)
| LazyStar (r : re)            (* [r*?] *)
| Group (i : nat) (r : re)     (* the i-th capturing group *)
| Bol                          (* [^] *)
| Eol.                         (* [$] *)

(** [r+] *)
Definition Plus (r : re) : re := Seq r (Star r).

(** A literal string. *)
Fixpoint Lit (s : string) : re :=
  match s with
  | EmptyString => Eps
  | String c s' => Seq (Chr c) (Lit s')
  end.

Definition groups : Type := gmap nat string.

(** A match object: where the match starts and ends in the subject, and
    the text of the groups. *)
Record match_obj : Type := Match {
  m_start : nat;
  m_end : nat;
  m_groups : groups
}.

Definition group (m : match_obj) (i : nat) : string :=
  default EmptyString (m_groups m !! i).

Definition cont : Type := nat -> string -> groups -> option match_obj.

(** One attempt at a quantifier's body: a function of the offset, what is
    left of the subject, the groups, and the continuation. *)
Definition attempt : Type := nat -> string -> groups -> cont -> option match_obj.

(** The rounds of a greedy quantifier: one more round of the body first,
    and the continuation when that fails.  A round must consume a character,
    so [fuel] above the length of [s] is never used up. *)
Fixpoint greedy_rounds (body : attempt) (k : cont) (fuel : nat)
    (pos : nat) (s : string) (caps : groups) : option match_obj :=
  match fuel with
  | O => k pos s caps
  | S fuel' =>
      match body pos s caps
              (fun pos' s' caps' =>
                 if (pos <? pos')%nat
                 then greedy_rounds body k fuel' pos' s' caps'
                 else None) with
      | Some m => Some m
      | None => k pos s caps
      end
  end.

(** The rounds of a lazy quantifier: the continuation first, and one more
    round of the body when that fails. *)
Fixpoint lazy_rounds (body : attempt) (k : cont) (fuel : nat)
    (pos : nat) (s : string) (caps : groups) : option match_obj :=
  match k pos s caps with
  | Some m => Some m
  | None =>
      match fuel with
      | O => None
      | S fuel' =>
          body pos s caps
            (fun pos' s' caps' =>
               if (pos <? pos')%nat
               then lazy_rounds body k fuel' pos' s' caps'
               else None)
      end
  end.

(** [exec r pos s caps k]: match [r] at offset [pos], where [s] is what is
    left of the subject, then hand over to [k]. *)
Fixpoint exec (r : re) (pos : nat) (s : string) (caps : groups) (k : cont)
  : option match_obj :=
  match r with
  | Eps => k pos s caps
  | Chr c =>
      match s with
      | String c' s' => if Ascii.eqb c c' then k (S pos) s' caps else None
      | EmptyString => None
      end
  | Dot =>
      match s with
      | String c' s' =>
          if Ascii.eqb c' PyStr.nl_char then None else k (S pos) s' caps
      | EmptyString => None
      end
  | DotAll =>
      match s with
      | String _ s' => k (S pos) s' caps
      | EmptyString => None
      end
  | Cls p =>
      match s with
      | String c' s' => if p c' then k (S pos) s' caps else None
      | EmptyString => None
      end
  | Seq r1 r2 =>
      exec r1 pos s caps (fun pos' s' caps' => exec r2 pos' s' caps' k)
  | Star r' => greedy_rounds (exec r') k (S (String.length s)) pos s caps
  | LazyStar r' => lazy_rounds (exec r') k (S (String.length s)) pos s caps
  | Group i r' =>
      exec r' pos s caps
        (fun pos' s' caps' =>
           k pos' s' (<[i := PyStr.take (pos' - pos) s]> caps'))
  | Bol => if (pos =? 0)%nat then k pos s caps else None
  | Eol =>
      if String.eqb s EmptyString || String.eqb s PyStr.nl
      then k pos s caps else None
  end.

(** A match of [r] that starts at offset [pos]. *)
Definition match_at (r : re) (pos : nat) (s : string) : option match_obj :=
  exec r pos s ∅ (fun pos' _ caps => Some (Match pos pos' caps)).

(** [re.match(r, s)] *)
Definition rmatch (r : re) (s : string) : option match_obj :=
  match_at r 0 s.

(** [re.search(r, s)]: the leftmost start offset that admits a match. *)
Fixpoint search_from (r : re) (pos : nat) (s : string) : option match_obj :=
  match match_at r pos s with
  | Some m => Some m
  | None =>
      match s with
      | EmptyString => None
      | String _ s' => search_from r (S pos) s'
      end
  end.

Definition search (r : re) (s : string) : option match_obj :=
  search_from r 0 s.

Definition ws : re := Cls PyStr.isspace.
Definition digit : re := Cls PyStr.isdigit.
Definition word : re := Cls PyStr.isword.

End Re.

(** ** Code extraction: [extract_code_from_response] *)

(** What the two fence patterns share after the white space: the newline,
    the captured text [(.*?)] and the closing fence. *)
Definition fence_body : Re.re :=
  Re.Seq (Re.Chr PyStr.nl_char)
    (Re.Seq (Re.Group 1 (Re.LazyStar Re.DotAll)) (Re.Lit "```")).

(** [r'```reflexscript\s*\n(.*?)```'], used under [re.DOTALL] *)
Definition tagged_fence_pattern : Re.re :=
  Re.Seq (Re.Lit "```reflexscript") (Re.Seq (Re.Star Re.ws) fence_body).

(** [r'```\s*\n(.*?)```'], used under [re.DOTALL] *)
Definition generic_fence_pattern : Re.re :=
  Re.Seq (Re.Lit "```") (Re.Seq (Re.Star Re.ws) fence_body).

(** The [for i, char in enumerate(response[start:], start)] loop: [s] is
    what is left of [response[start:]], [i] the index of its first
    character, [end_] the value [end] had before the loop.  The result is
    the value of [end] when the loop is left. *)
Fixpoint scan_braces (s : string) (i : nat) (brace_count : Z)
    (in_code : bool) (end_ : nat) : nat :=
  match s with
  | EmptyString => end_
  | String char s' =>
      if Ascii.eqb char "{" then
        scan_braces s' (S i) (brace_count + 1) true end_
      else if Ascii.eqb char "}" then
        let brace_count := (brace_count - 1)%Z in
        if in_code && (brace_count =? 0)%Z then i + 1
        else scan_braces s' (S i) brace_count in_code end_
      else scan_braces s' (S i) brace_count in_code end_
  end.

(** First strategy: a [```reflexscript] block. *)
Definition extract_tagged (response : string) : option string :=
  match Re.search tagged_fence_pattern response with
  | Some m => Some (PyStr.strip (Re.group m 1))
  | None => None
  end.

(** Second strategy: a generic block that looks like ReflexScript. *)
Definition extract_generic (response : string) : option string :=
  match Re.search generic_fence_pattern response with
  | Some m =>
      let code := PyStr.strip (Re.group m 1) in
      if PyStr.contains "reflex " code then Some code else None
  | None => None
  end.

(** Third strategy: from the [reflex ] keyword to its matching brace. *)
Definition extract_positional (response : string) : option string :=
  if PyStr.contains "reflex " response then
    match PyStr.find "reflex " response with
    | Some start =>
        let end_ := scan_braces (PyStr.drop start response) start 0 false start in
        if (start <? end_)%nat then
          Some (PyStr.strip (PyStr.take (end_ - start) (PyStr.drop start response)))
        else None
    | None => None
    end
  else None.

(** [extract_code_from_response]; the argument is [None] or a [str], the
    result [None] or the code. *)
Definition extract_code_from_response (response : option string)
  : option string :=
  match response with
  | None => None
  | Some response =>
      if negb (PyStr.truthy response) then None
      else
        match extract_tagged response with
        | Some code => Some code
        | None =>
            match extract_generic response with
            | Some code => Some code
            | None => extract_positional response
            end
        end
  end.

(** ** Compiler integration: [run_reflexc] *)

(** What [subprocess.run([reflexc_path, "--check", rfx_path], ...,
    timeout=30)] does: it completes with a return code and two output
    streams, or it raises. *)
Inductive process_result : Type :=
| Completed (returncode : Z) (stdout stderr : string)
| TimeoutExpired
| FileNotFoundError
| OtherException (e : string).

Definition run_reflexc (reflexc_path : string) (result : process_result)
  : bool * string :=
  match result with
  | Completed returncode stdout stderr =>
      let output := stdout +:+ stderr in
      let success := (returncode =? 0)%Z in
      (success, PyStr.strip output)
  | TimeoutExpired => (false, "Error: reflexc timed out")
  | FileNotFoundError => (false, "Error: reflexc not found at " +:+ reflexc_path)
  | OtherException e => (false, "Error running reflexc: " +:+ e)
  end.

(** ** Error parsing: [parse_errors] *)

(** One parsed error, the dictionary [parse_errors] builds. *)
Module Err.
Record t : Type := Make {
  file : string;
  line : Z;
  column : Z;
  type : string;
  message : string;
  suggestion : option string
}.
End Err.

(** The compiled pattern for an error line, FILE:LINE:COLUMN: TYPE: MESSAGE.
    FILE and MESSAGE are [.+], LINE and COLUMN are [\d+], TYPE is one or more
    [\w+] words separated by white space; white space may follow the colons
    before TYPE and MESSAGE, and the pattern is anchored at both ends. *)
Definition error_pattern : Re.re :=
  Re.Seq Re.Bol
    (Re.Seq (Re.Group 1 (Re.Plus Re.Dot))
    (Re.Seq (Re.Chr ":")
    (Re.Seq (Re.Group 2 (Re.Plus Re.digit))
    (Re.Seq (Re.Chr ":")
    (Re.Seq (Re.Group 3 (Re.Plus Re.digit))
    (Re.Seq (Re.Chr ":")
    (Re.Seq (Re.Star Re.ws)
    (Re.Seq (Re.Group 4
               (Re.Seq (Re.Plus Re.word)
                  (Re.Star (Re.Seq (Re.Plus Re.ws) (Re.Plus Re.word)))))
    (Re.Seq (Re.Chr ":")
    (Re.Seq (Re.Star Re.ws)
    (Re.Seq (Re.Group 5 (Re.Plus Re.Dot))
       Re.Eol))))))))))).

(** The state of the loop over the lines: [errors] and [current_error]. *)
Definition parse_state : Type := (list Err.t * option Err.t)%type.

(** The body of the [for line in lines] loop of [parse_errors]. *)
Definition parse_line (st : parse_state) (line : string) : parse_state :=
  let '(errors, current_error) := st in
  match Re.rmatch error_pattern line with
  | Some m =>
      let errors :=
        match current_error with
        | Some e => errors ++ [e]
        | None => errors
        end in
      (errors,
       Some (Err.Make (Re.group m 1) (PyStr.int (Re.group m 2))
               (PyStr.int (Re.group m 3)) (Re.group m 4) (Re.group m 5) None))
  | None =>
      match current_error with
      | Some e =>
          if PyStr.startswith "Suggestion:" (PyStr.strip line) then
            match PyStr.after_first "Suggestion:" line with
            | Some rest =>
                (errors,
                 Some (Err.Make (Err.file e) (Err.line e) (Err.column e)
                         (Err.type e) (Err.message e)
                         (Some (PyStr.strip rest))))
            | None => st
            end
          else if PyStr.truthy (PyStr.strip line)
                  && negb (PyStr.startswith " " line) then
            (errors,
             Some (Err.Make (Err.file e) (Err.line e) (Err.column e)
                     (Err.type e)
                     (Err.message e +:+ " " +:+ PyStr.strip line)
                     (Err.suggestion e)))
          else st
      | None => st
      end
  end.

(** The loop of [parse_errors] and the final append. *)
Definition parse_lines (lines : list string) : list Err.t :=
  let '(errors, current_error) := fold_left parse_line lines ([], None) in
  match current_error with
  | Some e => errors ++ [e]
  | None => errors
  end.

Definition parse_errors (compiler_output : string) : list Err.t :=
  parse_lines (PyStr.split_nl (PyStr.strip compiler_output)).

(** ** Feedback for the conversation: [format_error_feedback_for_history] *)

(** Truth value of a list: non-empty. *)
Definition truthy_list {A : Type} (l : list A) : bool :=
  match l with [] => false | _ :: _ => true end.

(** [e.get('suggestion')] as a condition: present and non-empty. *)
Definition truthy_suggestion (e : Err.t) : option string :=
  match Err.suggestion e with
  | Some s => if PyStr.truthy s then Some s else None
  | None => None
  end.

(** The lines one error contributes in simple mode, the body of
    [for e in errors[:5]]; [lines] is [code.split('\n')]. *)
Definition simple_error_lines (lines : list string) (e : Err.t) : list string :=
  let line_num := Err.line e in
  [ "  Line " +:+ PyStr.of_Z line_num +:+ ": " +:+ Err.message e ]
  ++ match truthy_suggestion e with
     | Some suggestion => [ "    FIX: " +:+ suggestion ]
     | None => []
     end
  ++ (if (0 <? line_num)%Z && (line_num <=? Z.of_nat (length lines))%Z then
        [ "    CODE: " +:+ PyStr.strip (nth (Z.to_nat (line_num - 1)) lines EmptyString) ]
      else []).

(** The [if simple_mode:] branch. *)
Definition format_simple (code : string) (errors : list Err.t) : string :=
  let lines := PyStr.split_nl code in
  let output :=
    [ "COMPILATION ERROR. Fix the code below." +:+ PyStr.nl;
        "ERRORS:" ]
    ++ flat_map (simple_error_lines lines) (take 5 errors)
    ++ (if (5 <? length errors)%nat then
          [ "  ... " +:+ PyStr.of_nat (length errors - 5) +:+ " more errors" ]
        else [])
    ++ [ PyStr.nl +:+ "VALID UNITS: [m] [rad] [s] [ms] [Hz] [mps] [radps] [deg] [degC] [mm] [cm] [kg]";
        "INVALID: [Nm] [rad/s] [m/s] - NO slash in units" +:+ PyStr.nl;
        "YOUR CODE:";
        "```reflexscript" ]
    ++ [ code ]
    ++ [ "```";
        PyStr.nl +:+ "Fix the errors and output the complete corrected code in a ```reflexscript block." ] in
  PyStr.join PyStr.nl output.

(** The four per-category sections of the full report, in the order the
    function emits them. *)
Definition category_sections (b : buckets) : list string :=
  let syntax_errors := syntax_errors b in
  let type_errors := type_errors b in
  let linker_errors := linker_errors b in
  let warnings := warnings b in
    (if truthy_list syntax_errors then
       [ PyStr.nl +:+ "ðŸ”´ SYNTAX ERRORS (" +:+ PyStr.of_nat (length syntax_errors) +:+ " total):" ]
       ++ imap (fun i error => let i := S i in "  " +:+ PyStr.of_nat i +:+ ". " +:+ error)
            (take 10 syntax_errors)
       ++ (if (10 <? length syntax_errors)%nat then
             [ "  ... and " +:+ PyStr.of_nat (length syntax_errors - 10) +:+ " more syntax errors (fix these first to resolve cascading issues)" ]
           else [])
     else [])
    ++
    (if truthy_list type_errors then
       [ PyStr.nl +:+ "ðŸŸ  TYPE/DECLARATION ERRORS (" +:+ PyStr.of_nat (length type_errors) +:+ " total):" ]
       ++ imap (fun i error => let i := S i in "  " +:+ PyStr.of_nat i +:+ ". " +:+ error)
            (take 10 type_errors)
       ++ (if (10 <? length type_errors)%nat then
             [ "  ... and " +:+ PyStr.of_nat (length type_errors - 10) +:+ " more type errors" ]
           else [])
     else [])
    ++
    (if truthy_list linker_errors then
       [ PyStr.nl +:+ "ðŸ”— LINKER ERRORS (" +:+ PyStr.of_nat (length linker_errors) +:+ " total):" ]
       ++ imap (fun i error => let i := S i in "  " +:+ PyStr.of_nat i +:+ ". " +:+ error)
            (take 10 linker_errors)
       ++ (if (10 <? length linker_errors)%nat then
             [ "  ... and " +:+ PyStr.of_nat (length linker_errors - 10) +:+ " more linker errors" ]
           else [])
     else [])
    ++
    (if truthy_list warnings then
       [ PyStr.nl +:+ "âš ï¸ WARNINGS (" +:+ PyStr.of_nat (length warnings) +:+ " total):" ]
       ++ imap (fun i warning => let i := S i in "  " +:+ PyStr.of_nat i +:+ ". " +:+ warning)
            (take 10 warnings)
       ++ (if (10 <? length warnings)%nat then
             [ "  ... and " +:+ PyStr.of_nat (length warnings - 10) +:+ " more warnings" ]
           else [])
     else []).

(** The batch fixing suggestions, emitted when [total_errors > 0]. *)
Definition fixing_suggestions (b : buckets) (total_errors : nat) : list string :=
  if (0 <? total_errors)%nat then
    [ PyStr.nl +:+ "ðŸ’¡ BATCH FIXING SUGGESTIONS (" +:+ PyStr.of_nat total_errors +:+ " errors total):" ]
    ++ (if truthy_list (syntax_errors b) then
          [ "  ðŸ”´ For syntax errors:";
            "    - Fix missing/extra braces, parentheses, semicolons";
            "    - Check for typos in keywords and operators";
            "    - Ensure proper ReflexScript syntax structure" ]
        else [])
    ++ (if truthy_list (type_errors b) then
          [ "  ðŸŸ  For type/declaration errors:";
            "    - Verify all variables are declared with correct types";
            "    - Check unit annotations (e.g., i16[m], u8[Hz])";
            "    - Ensure type compatibility in expressions" ]
        else [])
    ++ [ PyStr.nl +:+ "  ðŸ“ BATCH FIXING STRATEGY:";
      "    1. Address ALL errors of the same type together";
      "    2. Start with syntax errors first (they often cascade)";
      "    3. Then fix type/declaration errors";
      "    4. Finally address linker issues";
      "    5. Re-compile to check if fixes resolved multiple errors" ]
  else [].

(** [error_counts] and the summary built from it. *)
Definition summary (b : buckets) (total_errors : nat) : list string :=
  let error_counts :=
    (if truthy_list (syntax_errors b) then
       [ PyStr.of_nat (length (syntax_errors b)) +:+ " syntax" ] else [])
    ++ (if truthy_list (type_errors b) then
          [ PyStr.of_nat (length (type_errors b)) +:+ " type" ] else [])
    ++ (if truthy_list (linker_errors b) then
          [ PyStr.of_nat (length (linker_errors b)) +:+ " linker" ] else [])
    ++ (if truthy_list (warnings b) then
          [ PyStr.of_nat (length (warnings b)) +:+ " warnings" ] else []) in
  if truthy_list error_counts then
    [ PyStr.nl +:+ "ðŸ“Š SUMMARY: Found " +:+ PyStr.join ", " error_counts +:+ " errors/warnings";
      "ðŸ” FIRST 10 ERRORS OF EACH TYPE SHOWN - Fix these to resolve many cascading issues" ]
    ++ (if (30 <? total_errors)%nat then
          [ "âš ï¸  Many errors detected - focus on syntax errors first as they often cause cascading failures" ]
        else [])
  else [].

(** The full format, for capable models. *)
Definition format_full (code raw_output : string) : string :=
  let b := parse_and_categorize_errors raw_output in
  let total_errors :=
    (length (syntax_errors b) + length (type_errors b)
     + length (linker_errors b))%nat in
  let structured_output :=
    [ "ðŸ“Š COMPILATION OUTPUT ANALYSIS - BATCH ERROR REPORT:";
      PyStr.repeat_char "=" 60 ]
    ++ category_sections b
    ++ fixing_suggestions b total_errors
    ++ summary b total_errors
    ++ [ PyStr.nl +:+ "âŒ ReflexScript compilation FAILED";
      PyStr.nl +:+ "ðŸ“‹ ACTION REQUIRED: Review the compilation errors above and fix the syntax issues before proceeding.";
      PyStr.nl +:+ "### Your Code That Failed:";
      "```reflexscript" ]
    ++ [ code ]
    ++ [ "```";
      PyStr.nl +:+ "Output the FIXED code in a ```reflexscript block." ] in
  PyStr.join PyStr.nl structured_output.

Definition format_error_feedback_for_history (code : string)
    (errors : list Err.t) (raw_output : string) (simple_mode : bool) : string :=
  if simple_mode then format_simple code errors
  else format_full code raw_output.

(** ** Single-shot feedback: [format_error_feedback] *)

(** The body of the deduplication loop: [seen_lines] and [unique_errors]. *)
Definition dedup_step (st : gset Z * list Err.t) (e : Err.t)
  : gset Z * list Err.t :=
  let '(seen_lines, unique_errors) := st in
  if decide (Err.line e ∈ seen_lines) then st
  else ({[ Err.line e ]} ∪ seen_lines, unique_errors ++ [e]).

(** Errors deduplicated by line number, the first error of a line kept. *)
Definition unique_errors (errors : list Err.t) : list Err.t :=
  snd (fold_left dedup_step errors (∅, [])).

(** The first ten unique errors. *)
Definition limited_errors (errors : list Err.t) : list Err.t :=
  take 10 (unique_errors errors).

(** One entry of [error_lines]. *)
Definition error_str (e : Err.t) : string :=
  "- Line " +:+ PyStr.of_Z (Err.line e) +:+ ", Column "
  +:+ PyStr.of_Z (Err.column e) +:+ ": [" +:+ Err.type e +:+ "] "
  +:+ Err.message e
  +:+ match truthy_suggestion e with
      | Some suggestion => PyStr.nl +:+ "  Suggestion: " +:+ suggestion
      | None => EmptyString
      end.

(** What is appended to [errors_text] after the listed errors. *)
Definition remainder_note (errors : list Err.t) : string :=
  if (10 <? length (unique_errors errors))%nat then
    PyStr.nl +:+ "... and "
    +:+ PyStr.of_nat (length (unique_errors errors) - 10)
    +:+ " more errors on other lines"
  else EmptyString.

Definition errors_text (errors : list Err.t) : string :=
  PyStr.join PyStr.nl (map error_str (limited_errors errors))
  +:+ remainder_note errors.

(** The prompt returned; the reference example the function also builds is
    not part of it. *)
Definition format_error_feedback (original_prompt code : string)
    (errors : list Err.t) : string :=
  let errors_text := errors_text errors in
  PyStr.join PyStr.nl
    [ "## TASK: Fix the compilation errors in the code below.";
      EmptyString;
      "## Original Request";
      original_prompt;
      EmptyString;
      "## YOUR CODE (fix this code - do NOT copy the reference example)";
      "```reflexscript";
      code;
      "```";
      EmptyString;
      "## Compiler Errors";
      errors_text;
      EmptyString;
      "## VALID UNITS (only these work)";
      "`[m]` `[rad]` `[s]` `[ms]` `[Hz]` `[mps]` `[radps]` `[deg]` `[degC]` `[degF]` `[mm]` `[cm]` `[km]` `[kg]` `[g]`";
      EmptyString;
      "**INVALID**: `[Nm]` `[rad/s]` `[m/s]` - NO compound units with `/`";
      EmptyString;
      "## Common Fixes";
      "- `i16[Nm]` â†’ `i16` (Nm not valid)";
      "- `i16[rad/s]` â†’ `i16[radps]`";
      "- `target_angle` undefined â†’ add it to `input:` section";
      "- float comparison â†’ use integer scaled values";
      EmptyString;
      "## SAFETY BLOCK SYNTAX (this is often wrong!)";
      "The safety block uses `variable in range` syntax, NOT type declarations:";
      "```";
      "// WRONG - do NOT put types in safety block:";
      "safety { input: { target_angle: i16[rad] } }";
      EmptyString;
      "// CORRECT - use ranges:";
      "safety { input: { target_angle in -314..314 } }";
      "```";
      EmptyString;
      "## Instructions";
      "1. **Fix YOUR CODE above** - do NOT start over or copy examples";
      "2. **Add missing variables** - if `target_angle` is undefined, add `target_angle: i16[rad]` to input section";
      "3. **Fix invalid units** - replace `[Nm]` with no unit, `[rad/s]` with `[radps]`";
      "4. **Output the FIXED version** of YOUR CODE in a ```reflexscript block";
      EmptyString;
      "IMPORTANT: Output a FIXED version of the code above. Do NOT output example code or start from scratch." ].

(** ** The main loop: [agent_loop] *)

Definition SIMPLE_SYSTEM_PROMPT : string :=
  PyStr.join PyStr.nl
    [ "You are a ReflexScript code generator. Generate syntactically correct ReflexScript code.";
      EmptyString;
      "VALID UNITS: [m] [rad] [s] [ms] [Hz] [mps] [radps] [deg] [degC] [mm] [cm] [kg]";
      "INVALID UNITS: [Nm] [rad/s] [m/s] - NO compound units with /";
      EmptyString;
      "TEMPLATE:";
      "```reflexscript";
      "reflex name @(rate(100Hz), wcet(50us), stack(256bytes), bounded) {";
      "    input:  sensor: i16[m]";
      "    output: actuator: bool";
      "    state:  counter: u8 = 0";
      EmptyString;
      "    safety {";
      "        input:  " +:+ "{ sensor in 0..5000 }";
      "        output: { actuator in " +:+ "{true, false}" +:+ " }";
      "    }";
      EmptyString;
      "    loop {";
      "        if (sensor < 300) {";
      "            actuator = false";
      "        } else {";
      "            actuator = true";
      "        }";
      "    }";
      EmptyString;
      "    tests {";
      "        reset_state";
      "        test case1 inputs: " +:+ "{ sensor = 200[m] }" +:+ ", expect: " +:+ "{ actuator = false }";
      "    }";
      "}";
      "```";
      EmptyString;
      "Output code in a ```reflexscript block." ].

(** [range(lo, hi)] *)
Definition range (lo hi : Z) : list Z :=
  map (fun i => (lo + Z.of_nat i)%Z) (seq 0 (Z.to_nat (hi - lo))).

(** *** Compiler detection: [detect_reflexc_path] *)

(** What the function asks of the machine: [platform.machine()], whether a
    path exists and is executable, and the return code and standard output
    of [which reflexc]. *)
Record platform : Type := Platform {
  machine : string;
  exists_and_executable : string -> bool;
  which_reflexc : Z * string
}.

Definition detect_reflexc_path (p : platform) : option string :=
  let arch := PyStr.lower (machine p) in
  let path :=
    if String.eqb arch "aarch64" || String.eqb arch "arm64" then
      "/home/thinkcircuits/Reflexible/Reflexscript/build/reflexc"
    else
      "/home/thinkcircuits/Reflexible/reflexible-platforms/tools/reflexc/bin/reflexc" in
  if exists_and_executable p path then Some path
  else
    let '(returncode, stdout) := which_reflexc p in
    if (returncode =? 0)%Z then Some (PyStr.strip stdout) else None.

(** *** Conversation and trace *)

(** One message, the dictionary with keys [role] and [content]. *)
Record turn : Type := Turn { role : string; content : string }.

(** The calls the loop makes to the outside, in the order it makes them. *)
Inductive event : Type :=
| CallVllm (iteration : Z) (messages : list turn)
| WriteRfxFile (iteration : Z) (code : string)
| RunReflexc (iteration : Z) (code : string).

Definition is_call_vllm (ev : event) : bool :=
  match ev with CallVllm _ _ => true | _ => false end.

Definition is_run_reflexc (ev : event) : bool :=
  match ev with RunReflexc _ _ => true | _ => false end.

Definition event_iteration (ev : event) : Z :=
  match ev with
  | CallVllm i _ | WriteRfxFile i _ | RunReflexc i _ => i
  end.

(** The number of [call_vllm] invocations in a trace. *)
Definition oracle_calls (tr : list event) : nat :=
  length (filter (fun ev => is_call_vllm ev = true) tr).

(** The compiler runs of one iteration, with the code submitted. *)
Definition verifier_runs (iteration : Z) (tr : list event) : list string :=
  flat_map (fun ev =>
              match ev with
              | RunReflexc i code => if (i =? iteration)%Z then [code] else []
              | _ => []
              end) tr.

(** The local variables of [agent_loop] that live across iterations, and
    the trace of outside calls made so far. *)
Record loop_state : Type := LoopState {
  current_code : option string;
  errors : list Err.t;
  compiler_output : string;
  conversation_history : list turn;
  trace : list event
}.

(** How the function is left.  [Success] is the [return 0] after a clean
    compile, [ExhaustedIterations] the [return 1] below the loop, and
    [FatalError] any [return 1] above it. *)
Inductive outcome : Type := Success | ExhaustedIterations | FatalError.

(** How one pass through the loop body ends: at the bottom of the body or
    at a [continue], or with a [return]. *)
Inductive control : Type :=
| NextIteration (st : loop_state)
| Return (code : Z) (st : loop_state).

Section Loop.

(** The outside: the reply [call_vllm] gives at an iteration to the
    messages sent ([None], or an empty string, when it has none), and what
    running [reflexc] on the file does at an iteration. *)
Variable call_vllm : Z -> list turn -> option string.
Variable subprocess_run : Z -> string -> process_result.

Variable system_prompt : string.
Variable user_prompt : string.
Variable reflexc : string.
Variable simple_mode : bool.

(** The conversation sent at the top of an iteration: started afresh
    while there is no code yet, otherwise the history with the feedback on
    the current code appended. *)
Definition build_history (st : loop_state) : list turn :=
  match current_code st with
  | None =>
      [ Turn "system" system_prompt; Turn "user" user_prompt ]
  | Some code =>
      let error_message :=
        format_error_feedback_for_history code (errors st)
          (compiler_output st) simple_mode in
      conversation_history st ++ [ Turn "user" error_message ]
  end.

(** [code = extract_code_from_response(response)] followed by the test
    [if not code]: the code when there is some, and it is not empty. *)
Definition extracted_code (response : string) : option string :=
  match extract_code_from_response (Some response) with
  | Some code => if PyStr.truthy code then Some code else None
  | None => None
  end.

(** The body of [for iteration in range(1, max_iterations + 1)]. *)
Definition loop_body (iteration : Z) (st : loop_state) : control :=
  let conversation_history := build_history st in
  let messages := conversation_history in
  (* Call LLM *)
  let response := call_vllm iteration messages in
  let trace := trace st ++ [ CallVllm iteration messages ] in
  match response with
  | None =>
      (* continue *)
      NextIteration
        (LoopState (current_code st) (errors st) (compiler_output st)
           conversation_history trace)
  | Some response =>
      if negb (PyStr.truthy response) then
        (* continue *)
        NextIteration
          (LoopState (current_code st) (errors st) (compiler_output st)
             conversation_history trace)
      else
        let conversation_history :=
          conversation_history ++ [ Turn "assistant" response ] in
        (* Extract code; on subsequent attempts, keep the old code *)
        let code :=
          match extracted_code response with
          | Some code => Some code
          | None => current_code st
          end in
        match code with
        | None =>
            (* continue *)
            NextIteration
              (LoopState (current_code st) (errors st) (compiler_output st)
                 conversation_history trace)
        | Some code =>
            (* Write to file, compile *)
            let trace :=
              trace ++ [ WriteRfxFile iteration code;
                         RunReflexc iteration code ] in
            let '(success, compiler_output) :=
              run_reflexc reflexc (subprocess_run iteration code) in
            if success then
              Return 0
                (LoopState (Some code) (errors st) compiler_output
                   conversation_history trace)
            else
              NextIteration
                (LoopState (Some code) (parse_errors compiler_output)
                   compiler_output conversation_history trace)
        end
  end.

(** The [for] loop over the remaining iterations, and the [return 1]
    that follows it. *)
Fixpoint for_loop (iterations : list Z) (st : loop_state)
  : Z * outcome * loop_state :=
  match iterations with
  | [] => (1%Z, ExhaustedIterations, st)
  | iteration :: rest =>
      match loop_body iteration st with
      | NextIteration st' => for_loop rest st'
      | Return code st' => (code, Success, st')
      end
  end.

End Loop.

(** What a session finds when it starts: the two prompt files ([None] when
    reading raises), the health of the vLLM server, and the machine the
    compiler is looked up on. *)
Record session : Type := Session {
  system_prompt_file : option string;
  prompt_file : option string;
  vllm_health : bool;
  host_platform : platform
}.

Definition initial_state : loop_state := LoopState None [] EmptyString [] [].

Definition fatal : Z * outcome * loop_state := (1%Z, FatalError, initial_state).

Definition agent_loop
    (call_vllm : Z -> list turn -> option string)
    (subprocess_run : Z -> string -> process_result)
    (env : session) (max_iterations : Z) (simple_mode : bool)
  : Z * outcome * loop_state :=
  (* Load prompts *)
  let system_prompt :=
    if simple_mode then Some SIMPLE_SYSTEM_PROMPT
    else option_map PyStr.strip (system_prompt_file env) in
  match system_prompt with
  | None => fatal
  | Some system_prompt =>
      match option_map PyStr.strip (prompt_file env) with
      | None => fatal
      | Some user_prompt =>
          (* Check vLLM server *)
          if negb (vllm_health env) then fatal
          else
            (* Detect reflexc *)
            match detect_reflexc_path (host_platform env) with
            | None => fatal
            | Some reflexc =>
                if negb (PyStr.truthy reflexc) then fatal
                else
                  for_loop call_vllm subprocess_run system_prompt user_prompt
                    reflexc simple_mode
                    (range 1 (max_iterations + 1)) initial_state
            end
      end
  end.

(** ** Definitions the statements use *)

(** A line the categoriser does not skip. *)
Definition nonblank (line : string) : bool := PyStr.truthy (PyStr.strip line).

(** A line that carries one of the informational markers. *)
Definition informational (line : string) : bool :=
  PyStr.any_in informational_patterns (PyStr.lower line).

(** The names of the five lists. *)
Inductive bucket_name : Type := SyntaxB | TypeB | LinkerB | WarningB | OtherB.

#[global] Instance bucket_name_eq_dec : EqDecision bucket_name.
Proof. solve_decision. Defined.

Definition select (k : bucket_name) (b : buckets) : list string :=
  match k with
  | SyntaxB => syntax_errors b
  | TypeB => type_errors b
  | LinkerB => linker_errors b
  | WarningB => warnings b
  | OtherB => other_messages b
  end.

(** First match wins, as the specification words it: informational lines
    are set aside (with the other messages), then the syntax, type, linker
    and warning markers are tried in this order, and what is left is other. *)
Definition first_match (line : string) : bucket_name :=
  let line_lower := PyStr.lower line in
  if PyStr.any_in informational_patterns line_lower then OtherB
  else if PyStr.any_in syntax_patterns line_lower then SyntaxB
  else if PyStr.any_in type_patterns line_lower then TypeB
  else if PyStr.any_in linker_patterns line_lower then LinkerB
  else if PyStr.any_in warning_patterns line_lower then WarningB
  else OtherB.

(** A numbered entry of a section of the full report. *)
Definition section_entry (i : nat) (line : string) : string :=
  "  " +:+ PyStr.of_nat i +:+ ". " +:+ line.

(** Deduplication by line number as the specification words it: the first
    error of each line is kept, later ones on that line are dropped. *)
Fixpoint first_per_line (errors : list Err.t) : list Err.t :=
  match errors with
  | [] => []
  | e :: rest =>
      e :: filter (fun e' => Err.line e' ≠ Err.line e) (first_per_line rest)
  end.

(** *** Sessions used as examples *)

Definition fenced (code : string) : string :=
  "```reflexscript" +:+ PyStr.nl +:+ code +:+ PyStr.nl +:+ "```".

(** A model that answers with a program on the first iteration and with
    [later] afterwards. *)
Definition reply_once (later : option string) (iteration : Z)
    (messages : list turn) : option string :=
  if (iteration =? 1)%Z then Some (fenced "reflex a {}") else later.

(** A compiler that rejects every program with one error. *)
Definition always_rejects (iteration : Z) (code : string) : process_result :=
  Completed 1 EmptyString "out.rfx:1:1: error: bad".

(** A compiler binary that is no longer there when it is run. *)
Definition binary_gone (iteration : Z) (code : string) : process_result :=
  FileNotFoundError.

(** A machine on which the compiler is found at its expected place. *)
Definition machine_with_reflexc : platform :=
  Platform "x86_64" (fun _ => true) (1%Z, EmptyString).

Definition ready_session : session :=
  Session (Some "system") (Some "task") true machine_with_reflexc.

(** The place where the compiler is expected on a machine, by its
    architecture: the path [detect_reflexc_path] tests first. *)
Definition expected_reflexc_path (p : platform) : string :=
  let arch := PyStr.lower (machine p) in
  if String.eqb arch "aarch64" || String.eqb arch "arm64" then
    "/home/thinkcircuits/Reflexible/Reflexscript/build/reflexc"
  else
    "/home/thinkcircuits/Reflexible/reflexible-platforms/tools/reflexc/bin/reflexc".

(** A machine with its usual tools, on which the compiler is neither at its
    expected place nor on the search path. *)
Definition machine_with_tools_only : platform :=
  Platform "x86_64" (fun path => String.eqb path "/usr/bin/which")
    (1%Z, EmptyString).

Definition session_with_tools_only : session :=
  Session (Some "system") (Some "task") true machine_with_tools_only.

(** *** Continuation lines *)

(** A line that is neither the start of an error nor a suggestion, and is
    not blank. *)
Definition plain_line (line : string) : Prop :=
  Re.rmatch error_pattern line = None
  /\ PyStr.startswith "Suggestion:" (PyStr.strip line) = false
  /\ nonblank line = true.

(** The message after a run of such lines: each line that does not start
    with a space is appended, stripped, after one space. *)
Definition append_continuations (message : string) (lines : list string)
  : string :=
  fold_left
    (fun message line =>
       if PyStr.startswith " " line then message
       else message +:+ " " +:+ PyStr.strip line)
    lines message.

(** A line that is no suggestion and is not blank: after an error line, and
    unless it starts an error itself, a candidate for the message. *)
Definition continuation_line (line : string) : bool :=
  negb (PyStr.startswith "Suggestion:" (PyStr.strip line)) && nonblank line.

(** The suggestion a run of lines leaves, from the one held before: each
    suggestion line replaces it by the stripped text after the marker. *)
Definition block_suggestion (suggestion : option string) (lines : list string)
  : option string :=
  fold_left
    (fun suggestion line =>
       if PyStr.startswith "Suggestion:" (PyStr.strip line) then
         match PyStr.after_first "Suggestion:" line with
         | Some rest => Some (PyStr.strip rest)
         | None => suggestion
         end
       else suggestion)
    lines suggestion.

(** A compiler output with three errors; the second is followed by a
    continuation at the left margin, an indented one, a suggestion and one
    more continuation. *)
Definition output_with_three_errors : string :=
  PyStr.join PyStr.nl
    [ "Compiling out.rfx"; "a.x:1:1: error: one"; "more one";
      "f.x:1:2: error: bad"; "second part"; "  indented";
      "Suggestion: fix it"; "third part"; "z.x:9:9: warning: last" ].

(** A reply with a program in plain text and, after it, a different one in
    a tagged block. *)
Definition reply_with_both : string :=
  "Not reflex b { y } but:" +:+ PyStr.nl +:+ fenced "reflex a { x }"
  +:+ PyStr.nl +:+ "Done.".

(** *** Reading a run *)

(** The state a pass through the loop body leaves. *)
Definition state_of (c : control) : loop_state :=
  match c with
  | NextIteration st => st
  | Return _ st => st
  end.

(** The parts of the result of [agent_loop] and [for_loop]. *)
Definition exit_code (r : Z * outcome * loop_state) : Z := r.1.1.
Definition outcome_of (r : Z * outcome * loop_state) : outcome := r.1.2.
Definition final_state (r : Z * outcome * loop_state) : loop_state := r.2.

(** A model that never answers. *)
Definition silent (iteration : Z) (messages : list turn) : option string :=
  None.

(** *** Reading the matcher *)

(** Every character of [s] satisfies [p]. *)
Fixpoint all_chars (p : ascii -> bool) (s : string) : bool :=
  match s with
  | EmptyString => true
  | String c s' => p c && all_chars p s'
  end.

Definition not_backtick (c : ascii) : bool := negb (Ascii.eqb c "`").

(** What a greedy run over a class comes to: the continuation is tried
    after the longest run of characters of the class first, then after
    shorter and shorter ones. *)
Fixpoint try_longest (p : ascii -> bool) (k : Re.cont) (pos : nat)
    (s : string) (caps : Re.groups) : option Re.match_obj :=
  match s with
  | String c s' =>
      if p c then
        match try_longest p k (S pos) s' caps with
        | Some m => Some m
        | None => k pos s caps
        end
      else k pos s caps
  | EmptyString => k pos s caps
  end.

(** What a lazy run over any character comes to: the continuation is tried
    at once, then one character further, and so on. *)
Fixpoint try_shortest (k : Re.cont) (pos : nat) (s : string)
    (caps : Re.groups) : option Re.match_obj :=
  match k pos s caps with
  | Some m => Some m
  | None =>
      match s with
      | String _ s' => try_shortest k (S pos) s' caps
      | EmptyString => None
      end
  end.

(** The continuation that ends a match begun at [start]. *)
Definition finish (start : nat) : Re.cont :=
  fun pos _ caps => Some (Re.Match start pos caps).


(** ** Further definitions the statements use *)

(** *** Reading the parser *)

(** What an error line fixes for good: file, line, column and type. *)
Definition error_head (e : Err.t) : string * Z * Z * string :=
  (Err.file e, Err.line e, Err.column e, Err.type e).

(** The same four, read off a line that matches the error pattern. *)
Definition line_head (line : string) : option (string * Z * Z * string) :=
  match Re.rmatch error_pattern line with
  | Some m =>
      Some (Re.group m 1, PyStr.int (Re.group m 2), PyStr.int (Re.group m 3),
            Re.group m 4)
  | None => None
  end.

(** The errors a state of the parsing loop stands for: those closed, then
    the one still open. *)
Definition flush (st : parse_state) : list Err.t :=
  match st.2 with
  | Some e => st.1 ++ [e]
  | None => st.1
  end.

(** An error with its suggestion replaced. *)
Definition with_suggestion (e : Err.t) (suggestion : string) : Err.t :=
  Err.Make (Err.file e) (Err.line e) (Err.column e) (Err.type e)
    (Err.message e) (Some suggestion).

(** *** Reading the matcher: groups *)

(** The numbers of the groups a pattern can set. *)
Fixpoint group_ids (r : Re.re) : list nat :=
  match r with
  | Re.Seq r1 r2 => group_ids r1 ++ group_ids r2
  | Re.Star r' | Re.LazyStar r' => group_ids r'
  | Re.Group i r' => i :: group_ids r'
  | _ => []
  end.

(** The groups [caps'] agree with [caps] outside the groups of [r]. *)
Definition frame (r : Re.re) (caps caps' : Re.groups) : Prop :=
  forall i, i ∉ group_ids r -> caps' !! i = caps !! i.

(** The head of the error pattern, up to the third colon, and the rest. *)
Definition error_pattern_rest : Re.re :=
  Re.Seq (Re.Star Re.ws)
    (Re.Seq (Re.Group 4
               (Re.Seq (Re.Plus Re.word)
                  (Re.Star (Re.Seq (Re.Plus Re.ws) (Re.Plus Re.word)))))
    (Re.Seq (Re.Chr ":")
    (Re.Seq (Re.Star Re.ws)
    (Re.Seq (Re.Group 5 (Re.Plus Re.Dot))
       Re.Eol)))).

(** *** Reading the positional scan *)

(** How many times a character occurs in a string. *)
Fixpoint count_char (c : ascii) (s : string) : nat :=
  match s with
  | EmptyString => 0
  | String c' s' => (if Ascii.eqb c' c then 1 else 0) + count_char c s'
  end.

(** Opening braces less closing braces. *)
Definition balance (s : string) : Z :=
  (Z.of_nat (count_char "{" s) - Z.of_nat (count_char "}" s))%Z.

(** *** Reading a trace *)

(** Whether a finished [reflexc] run counts as a clean compile. *)
Definition compiles_cleanly (result : process_result) : bool :=
  match result with
  | Completed returncode _ _ => (returncode =? 0)%Z
  | _ => false
  end.

(** The events of one pass through the loop body: the request to the model
    and then nothing more, or the write and the compiler run of one and the
    same program. *)
Inductive pass_events (iteration : Z) : list event -> Prop :=
| pass_asked (messages : list turn) :
    pass_events iteration [ CallVllm iteration messages ]
| pass_compiled (messages : list turn) (code : string) :
    pass_events iteration
      [ CallVllm iteration messages; WriteRfxFile iteration code;
        RunReflexc iteration code ].

(** A trace made of the passes of the given iterations, in this order. *)
Inductive passes : list Z -> list event -> Prop :=
| passes_nil : passes [] []
| passes_cons (iteration : Z) (iterations : list Z) (evs tr : list event) :
    pass_events iteration evs -> passes iterations tr ->
    passes (iteration :: iterations) (evs ++ tr).

(** The program the output file holds after a trace: the one written
    last. *)
Definition file_content (tr : list event) : option string :=
  last (flat_map (fun ev =>
                    match ev with
                    | WriteRfxFile _ code => [code]
                    | _ => []
                    end) tr).

(** The conversations sent to the model, in order. *)
Definition requests (tr : list event) : list (list turn) :=
  flat_map (fun ev =>
              match ev with
              | CallVllm _ messages => [messages]
              | _ => []
              end) tr.

(** Each conversation of the list starts with the one before it. *)
Inductive grows : list (list turn) -> Prop :=
| grows_nil : grows []
| grows_one (a : list turn) : grows [a]
| grows_cons (a b : list turn) (l : list (list turn)) :
    a `prefix_of` b -> grows (b :: l) -> grows (a :: b :: l).

(** What the loop keeps true between passes: no compiler run so far was
    clean, the output file holds the current code, and a conversation that
    goes with some code starts with the two prompts. *)
Definition between_passes (subprocess_run : Z -> string -> process_result)
    (system_prompt user_prompt : string) (st : loop_state) : Prop :=
  (forall j c, RunReflexc j c ∈ trace st ->
     compiles_cleanly (subprocess_run j c) = false)
  /\ file_content (trace st) = current_code st
  /\ (current_code st ≠ None ->
      exists rest,
        conversation_history st
        = Turn "system" system_prompt :: Turn "user" user_prompt :: rest).

(** The system prompt of a session: the built-in one in simple mode, else
    the stripped content of the file. *)
Definition session_system_prompt (env : session) (simple_mode : bool)
  : option string :=
  if simple_mode then Some SIMPLE_SYSTEM_PROMPT
  else option_map PyStr.strip (system_prompt_file env).

(** A model that answers every time, and never with code. *)
Definition no_code_model (iteration : Z) (messages : list turn)
  : option string :=
  Some "I cannot help.".

(** The compiler run made last in a trace: its iteration and its program. *)
Definition last_run (tr : list event) : option (Z * string) :=
  last (flat_map (fun ev =>
                    match ev with
                    | RunReflexc iteration code => [(iteration, code)]
                    | _ => []
                    end) tr).

(** The diagnostics the loop holds are those of its current code: the
    compiler output is that of the last run, which was on the current code,
    and the errors are parsed from this output; before any run there is no
    code, no output and no error. *)
Definition diagnosed (subprocess_run : Z -> string -> process_result)
    (reflexc : string) (st : loop_state) : Prop :=
  errors st = parse_errors (compiler_output st)
  /\ match last_run (trace st) with
     | Some (iteration, code) =>
         current_code st = Some code
         /\ compiler_output st
            = (run_reflexc reflexc (subprocess_run iteration code)).2
     | None => current_code st = None /\ compiler_output st = EmptyString
     end.

(** * Properties *)

(** ** Strings *)

Lemma startswith_app (p q s : string) :
  PyStr.startswith (p +:+ q) s = true -> PyStr.startswith p s = true.
Proof.
  revert s; induction p as [|a p IH]; intros s H; [reflexivity|].
  destruct s as [|b s]; simpl in *; [discriminate|].
  apply andb_true_iff in H as [Hab H].
  rewrite Hab; simpl; auto.
Qed.

Lemma contains_app (p q s : string) :
  PyStr.contains (p +:+ q) s = true -> PyStr.contains p s = true.
Proof.
  induction s as [|c s IH]; simpl; intros H.
  - apply orb_true_iff in H as [H|H]; [|discriminate].
    apply startswith_app in H. rewrite H; reflexivity.
  - apply orb_true_iff in H as [H|H].
    + apply startswith_app in H. rewrite H; reflexivity.
    + rewrite (IH H). apply orb_true_r.
Qed.

Lemma any_in_true (patterns : list string) (s : string) :
  PyStr.any_in patterns s = true <->
  exists p, p ∈ patterns /\ PyStr.contains p s = true.
Proof.
  unfold PyStr.any_in. rewrite existsb_exists.
  split; intros (p & Hp & Hc); exists p; split; auto;
    by apply list_elem_of_In.
Qed.

(** ** The categoriser *)

Arguments PyStr.any_in : simpl never.
Arguments PyStr.contains : simpl never.

Section Categoriser.

Lemma categorize_line_select (k : bucket_name) (b : buckets) (line : string) :
  select k (categorize_line b line) =
  select k b ++
    (if nonblank line && bool_decide (first_match line = k)
     then [line] else []).
Proof.
  unfold categorize_line, first_match, nonblank.
  destruct (PyStr.truthy (PyStr.strip line)); simpl;
    [|by rewrite app_nil_r].
  repeat
    match goal with
    | |- context [if PyStr.any_in ?ps ?s then _ else _] =>
        destruct (PyStr.any_in ps s)
    | |- context [if ?c && negb ?d then _ else _] =>
        destruct (c && negb d)
    end;
    destruct k; simpl; by rewrite ?app_nil_r.
Qed.

Lemma fold_categorize_select (k : bucket_name) (lines : list string)
    (b : buckets) :
  select k (fold_left categorize_line lines b) =
  select k b ++
    filter (fun l => first_match l = k)
      (filter (fun l => nonblank l = true) lines).
Proof.
  revert b; induction lines as [|line lines IH]; intros b; simpl.
  - by rewrite app_nil_r.
  - rewrite IH, categorize_line_select, <- app_assoc. f_equal.
    destruct (nonblank line) eqn:Hnb; simpl.
    + rewrite (filter_cons_True (fun l => nonblank l = true)) by done.
      destruct (decide (first_match line = k)) as [Hk|Hk].
      * rewrite bool_decide_eq_true_2 by done.
        by rewrite (filter_cons_True (fun l => first_match l = k)).
      * rewrite bool_decide_eq_false_2 by done.
        by rewrite (filter_cons_False (fun l => first_match l = k)).
    + by rewrite (filter_cons_False (fun l => nonblank l = true))
        by (rewrite Hnb; discriminate).
Qed.

Lemma parse_and_categorize_select (k : bucket_name) (raw_output : string) :
  select k (parse_and_categorize_errors raw_output) =
  filter (fun l => first_match l = k)
    (filter (fun l => nonblank l = true) (PyStr.split_nl raw_output)).
Proof.
  unfold parse_and_categorize_errors. rewrite fold_categorize_select.
  by destruct k.
Qed.

Lemma first_match_informational (line : string) :
  informational line = true -> first_match line = OtherB.
Proof. unfold informational, first_match. by intros ->. Qed.

End Categoriser.

Section Partition.

Context {A : Type} (f : A -> bucket_name).

Lemma partition_by_bucket (l : list A) :
  filter (fun x => f x = SyntaxB) l ++ filter (fun x => f x = TypeB) l
  ++ filter (fun x => f x = LinkerB) l ++ filter (fun x => f x = WarningB) l
  ++ filter (fun x => f x = OtherB) l ≡ₚ l.
Proof.
  induction l as [|x l IH]; [reflexivity|].
  rewrite !filter_cons.
  destruct (f x) eqn:Hx; simpl;
    repeat (rewrite decide_True by done) || (rewrite decide_False by done);
    rewrite <- ?Permutation_middle; by rewrite IH.
Qed.

End Partition.

Lemma section_rows (k : bucket_name) (raw_output entry : string) :
  k ≠ OtherB ->
  entry ∈ imap (fun i l => section_entry (S i) l)
            (take 10 (select k (parse_and_categorize_errors raw_output))) ->
  exists i l,
    entry = section_entry i l
    /\ l ∈ filter (fun l => nonblank l = true) (PyStr.split_nl raw_output)
    /\ informational l = false.
Proof.
  intros Hk Hin.
  apply elem_of_lookup_imap_1 in Hin as (i & l & -> & Hl).
  exists (S i), l. split; [reflexivity|].
  apply list_elem_of_lookup_2, subseteq_take in Hl.
  rewrite parse_and_categorize_select in Hl.
  apply list_elem_of_filter in Hl as [Hfm Hl]. split; [done|].
  destruct (informational l) eqn:Hi; [|done].
  apply first_match_informational in Hi. congruence.
Qed.

(** C4.  The categoriser puts every non-blank line of the compiler output in
    exactly one of its five lists, the one that first-match-wins precedence
    names; each list keeps the lines in their order in the output; and a line
    with an informational marker is in none of the four lists the full
    report shows, so no numbered entry of the report's category sections is
    such a line. *)
Theorem categoriser_total_ordered_first_match (raw_output : string) :
  let b := parse_and_categorize_errors raw_output in
  let lines :=
    filter (fun l => nonblank l = true) (PyStr.split_nl raw_output) in
  (forall k, select k b = filter (fun l => first_match l = k) lines)
  /\ (forall l k, l ∈ lines -> (l ∈ select k b <-> k = first_match l))
  /\ (forall k, select k b `sublist_of` PyStr.split_nl raw_output)
  /\ syntax_errors b ++ type_errors b ++ linker_errors b ++ warnings b
     ++ other_messages b ≡ₚ lines
  /\ (forall l, informational l = true ->
        (l ∉ syntax_errors b) /\ (l ∉ type_errors b)
        /\ (l ∉ linker_errors b) /\ (l ∉ warnings b))
  /\ (forall entry, entry ∈ category_sections b ->
        (exists i l,
            entry = section_entry i l /\ l ∈ lines /\ informational l = false)
        \/ PyStr.startswith PyStr.nl entry = true
        \/ PyStr.startswith "  ... and " entry = true).
Proof.
  intros b lines.
  assert (Hsel : forall k,
             select k b = filter (fun l => first_match l = k) lines)
    by (intros k; apply parse_and_categorize_select).
  split; [exact Hsel|]. split; [|split; [|split; [|split]]].
  - intros l k Hl. rewrite Hsel, list_elem_of_filter.
    split; [by intros [-> _] | by intros ->].
  - intros k. rewrite Hsel. etrans; apply sublist_filter; apply _.
  - change (select SyntaxB b ++ select TypeB b ++ select LinkerB b
            ++ select WarningB b ++ select OtherB b ≡ₚ lines).
    rewrite !Hsel. apply partition_by_bucket.
  - intros l Hi. apply first_match_informational in Hi.
    change ((l ∉ select SyntaxB b) /\ (l ∉ select TypeB b)
            /\ (l ∉ select LinkerB b) /\ (l ∉ select WarningB b)).
    rewrite !Hsel, !list_elem_of_filter, Hi.
    repeat split; intros [? _]; discriminate.
  - intros entry. unfold category_sections. rewrite !elem_of_app.
    assert (Hrow : forall k, k ≠ OtherB ->
               entry ∈ imap (fun i l => section_entry (S i) l)
                         (take 10 (select k b)) ->
               exists i l, entry = section_entry i l /\ l ∈ lines
                           /\ informational l = false)
      by (intros k; apply section_rows).
    pose proof (Hrow SyntaxB) as Hs. pose proof (Hrow TypeB) as Ht.
    pose proof (Hrow LinkerB) as Hl. pose proof (Hrow WarningB) as Hw.
    simpl in Hs, Ht, Hl, Hw.
    intros H.
    repeat match type of H with
           | _ \/ _ => destruct H as [H|H]
           end;
      repeat match type of H with
             | context [if ?c then _ else _] => destruct c
             end;
      rewrite ?elem_of_app in H;
      repeat match type of H with
             | _ \/ _ => destruct H as [H|H]
             end;
      try (apply not_elem_of_nil in H; contradiction);
      try (apply list_elem_of_singleton in H; subst entry;
           right; first [ left; reflexivity | right; reflexivity ]);
      left; auto.
Qed.

(** ** What reaches the linker list *)

Lemma first_match_linker (l : string) :
  first_match l = LinkerB ->
  informational l = false
  /\ PyStr.any_in syntax_patterns (PyStr.lower l) = false
  /\ PyStr.any_in type_patterns (PyStr.lower l) = false
  /\ PyStr.any_in linker_patterns (PyStr.lower l) = true.
Proof.
  unfold first_match, informational.
  destruct (PyStr.any_in informational_patterns _); [discriminate|].
  destruct (PyStr.any_in syntax_patterns _); [discriminate|].
  destruct (PyStr.any_in type_patterns _); [discriminate|].
  destruct (PyStr.any_in linker_patterns _); [done|].
  destruct (PyStr.any_in warning_patterns _); discriminate.
Qed.

Lemma no_type_marker_no_undefined_reference (s : string) :
  PyStr.any_in type_patterns s = false ->
  PyStr.contains "undefined reference" s = false.
Proof.
  intros Hty.
  destruct (PyStr.contains "undefined reference" s) eqn:Hur; [|done].
  apply (contains_app "undefined" " reference") in Hur.
  assert (PyStr.any_in type_patterns s = true); [|congruence].
  apply any_in_true. exists "undefined". split; [|done].
  apply list_elem_of_In. simpl. auto.
Qed.

(** C10 (as the code has it).  A line in the linker list never contains
    "undefined reference" in lower case, since a line with "undefined" is a
    type error or is caught earlier; it contains one of "ld:",
    "cannot find -l", "unresolved symbol", "linker error" and "link error",
    and no informational, syntax or type marker. *)
Theorem linker_list_contents (raw_output l : string) :
  l ∈ linker_errors (parse_and_categorize_errors raw_output) ->
  PyStr.contains "undefined reference" (PyStr.lower l) = false
  /\ PyStr.any_in
       [ "ld:"; "cannot find -l"; "unresolved symbol"; "linker error";
         "link error" ] (PyStr.lower l) = true
  /\ informational l = false
  /\ PyStr.any_in syntax_patterns (PyStr.lower l) = false
  /\ PyStr.any_in type_patterns (PyStr.lower l) = false.
Proof.
  intros Hl.
  change (l ∈ select LinkerB (parse_and_categorize_errors raw_output)) in Hl.
  rewrite parse_and_categorize_select in Hl.
  apply list_elem_of_filter in Hl as [Hfm _].
  apply first_match_linker in Hfm as (Hinfo & Hsyn & Hty & Hlink).
  pose proof (no_type_marker_no_undefined_reference _ Hty) as Hur.
  repeat split; try done.
  unfold PyStr.any_in, linker_patterns in Hlink. simpl in Hlink.
  rewrite Hur in Hlink. exact Hlink.
Qed.

Lemma linker_list_contents_witness :
  "unresolved symbol foo"
    ∈ linker_errors (parse_and_categorize_errors "unresolved symbol foo")
  /\ PyStr.contains "undefined reference"
       (PyStr.lower "unresolved symbol foo") = false.
Proof.
  assert (H : "unresolved symbol foo"
                ∈ linker_errors
                    (parse_and_categorize_errors "unresolved symbol foo"))
    by (vm_compute; left).
  split; [exact H|].
  exact (proj1 (linker_list_contents _ _ H)).
Defined.

(** Against C10 as worded: the line "unresolved symbol foo" reaches the
    linker list, and it matches none of "ld:", "cannot find -l",
    "linker error" and "link error". *)
Lemma linker_list_unresolved_symbol :
  linker_errors (parse_and_categorize_errors "unresolved symbol foo")
  = [ "unresolved symbol foo" ]
  /\ PyStr.any_in [ "ld:"; "cannot find -l"; "linker error"; "link error" ]
       (PyStr.lower "unresolved symbol foo") = false.
Proof. split; vm_compute; reflexivity. Qed.

(** ** Deduplication in [format_error_feedback] *)

Section Dedup.

Implicit Types (errors : list Err.t) (seen : gset Z) (e : Err.t).

(** The loop with its two accumulators, against the recursive reading. *)
Lemma fold_dedup_step errors seen acc :
  snd (fold_left dedup_step errors (seen, acc)) =
  acc ++ filter (fun e => Err.line e ∉ seen) (first_per_line errors).
Proof.
  revert seen acc; induction errors as [|e errors IH]; intros seen acc.
  - simpl. by rewrite app_nil_r.
  - simpl. destruct (decide (Err.line e ∈ seen)) as [Hin|Hout].
    + rewrite IH. f_equal.
      rewrite (filter_cons_False (fun e => Err.line e ∉ seen)) by tauto.
      rewrite list_filter_filter. apply list_filter_iff.
      intros e'. split; [|tauto]. intros He'. split; [done|]. congruence.
    + rewrite IH, <- app_assoc. f_equal. simpl.
      rewrite (filter_cons_True (fun e => Err.line e ∉ seen)) by done.
      f_equal. rewrite list_filter_filter. apply list_filter_iff.
      intros e'. rewrite elem_of_union, elem_of_singleton. tauto.
Qed.

Lemma unique_errors_first_per_line errors :
  unique_errors errors = first_per_line errors.
Proof.
  unfold unique_errors. rewrite fold_dedup_step. simpl.
  induction (first_per_line errors) as [|e l IH]; [done|].
  rewrite filter_cons_True by set_solver. by f_equal.
Qed.

Lemma first_per_line_sublist errors :
  first_per_line errors `sublist_of` errors.
Proof.
  induction errors as [|e errors IH]; simpl; [constructor|].
  apply sublist_skip. etrans; [apply sublist_filter; apply _|exact IH].
Qed.

Lemma first_per_line_NoDup errors :
  NoDup (Err.line <$> first_per_line errors).
Proof.
  induction errors as [|e errors IH]; simpl; [constructor|].
  apply NoDup_cons. split.
  - intros Hin. apply list_elem_of_fmap in Hin as (e' & Heq & He').
    apply list_elem_of_filter in He' as [Hne _]. congruence.
  - eapply sublist_NoDup; [exact IH|].
    apply fmap_sublist, sublist_filter; apply _.
Qed.

Lemma first_per_line_covers errors e :
  e ∈ errors ->
  exists e', e' ∈ first_per_line errors /\ Err.line e' = Err.line e.
Proof.
  induction errors as [|x errors IH]; simpl; intros Hin.
  - by apply not_elem_of_nil in Hin.
  - apply elem_of_cons in Hin as [->|Hin].
    + exists x. split; [left|done].
    + destruct (IH Hin) as (e' & He' & Hline).
      destruct (decide (Err.line e' = Err.line x)) as [Heq|Hne].
      * exists x. split; [left|congruence].
      * exists e'. split; [|done]. right.
        apply list_elem_of_filter. done.
Qed.

Lemma first_per_line_first errors e :
  e ∈ first_per_line errors ->
  exists pre post,
    errors = pre ++ e :: post
    /\ Forall (fun e' => Err.line e' ≠ Err.line e) pre.
Proof.
  induction errors as [|x errors IH]; simpl; intros Hin.
  - by apply not_elem_of_nil in Hin.
  - apply elem_of_cons in Hin as [->|Hin].
    + exists [], errors. split; [done|constructor].
    + apply list_elem_of_filter in Hin as [Hne Hin].
      destruct (IH Hin) as (pre & post & -> & Hpre).
      exists (x :: pre), post. split; [done|].
      constructor; [congruence|done].
Qed.

End Dedup.

(** C9.  The deduplication of [format_error_feedback] keeps, in input order,
    the first error of every distinct line number and no other; the errors
    listed are the first ten of these, so no two share a line number and
    there are at most ten; and the note with the count of the remainder is
    appended exactly when more than ten line numbers are distinct. *)
Theorem dedup_first_per_line_capped (errors : list Err.t) :
  let unique := unique_errors errors in
  let kept := limited_errors errors in
  unique = first_per_line errors
  /\ unique `sublist_of` errors
  /\ NoDup (Err.line <$> unique)
  /\ (forall e, e ∈ errors ->
        exists e', e' ∈ unique /\ Err.line e' = Err.line e)
  /\ (forall e, e ∈ unique ->
        exists pre post,
          errors = pre ++ e :: post
          /\ Forall (fun e' => Err.line e' ≠ Err.line e) pre)
  /\ kept = take 10 unique
  /\ NoDup (Err.line <$> kept)
  /\ (length kept <= 10)%nat
  /\ errors_text errors
     = PyStr.join PyStr.nl (map error_str kept) +:+ remainder_note errors
  /\ (remainder_note errors ≠ EmptyString <-> (10 < length unique)%nat)
  /\ ((10 < length unique)%nat ->
        remainder_note errors
        = PyStr.nl +:+ "... and " +:+ PyStr.of_nat (length unique - 10)
          +:+ " more errors on other lines").
Proof.
  intros unique kept. subst unique kept. unfold limited_errors.
  rewrite !unique_errors_first_per_line.
  split; [done|].
  split; [apply first_per_line_sublist|].
  split; [apply first_per_line_NoDup|].
  split; [apply first_per_line_covers|].
  split; [apply first_per_line_first|].
  split; [done|].
  split.
  { eapply sublist_NoDup; [apply first_per_line_NoDup|].
    apply fmap_sublist, sublist_take. }
  split; [rewrite length_take; lia|].
  split; [unfold errors_text, limited_errors;
          by rewrite unique_errors_first_per_line|].
  unfold remainder_note. rewrite unique_errors_first_per_line.
  destruct (10 <? length (first_per_line errors))%nat eqn:Hlt.
  - apply Nat.ltb_lt in Hlt. split; [|done]. split; [done|].
    intros _. discriminate.
  - apply Nat.ltb_ge in Hlt. split; [|lia]. split; [done|lia].
Qed.

(** ** The error parser *)

(** C7.  On "file.x:3:5: error: missing semicolon" the parser yields one
    error, at line 3 and column 5, of type "error" and with the message
    "missing semicolon"; the categoriser files this line under the syntax
    errors; and a following line "Suggestion: add ;" sets the suggestion of
    that same error to "add ;". *)
Theorem parse_missing_semicolon :
  parse_errors "file.x:3:5: error: missing semicolon"
  = [ Err.Make "file.x" 3 5 "error" "missing semicolon" None ]
  /\ syntax_errors
       (parse_and_categorize_errors "file.x:3:5: error: missing semicolon")
     = [ "file.x:3:5: error: missing semicolon" ]
  /\ parse_errors
       ("file.x:3:5: error: missing semicolon" +:+ PyStr.nl
        +:+ "Suggestion: add ;")
     = [ Err.Make "file.x" 3 5 "error" "missing semicolon" (Some "add ;") ].
Proof. repeat split; vm_compute; reflexivity. Qed.

Lemma parse_line_plain (errors : list Err.t) (e : Err.t) (line : string) :
  plain_line line ->
  parse_line (errors, Some e) line =
  (errors,
   Some (Err.Make (Err.file e) (Err.line e) (Err.column e) (Err.type e)
           (append_continuations (Err.message e) [line]) (Err.suggestion e))).
Proof.
  intros (Hm & Hs & Hnb). unfold parse_line, nonblank in *.
  rewrite Hm, Hs, Hnb. unfold append_continuations. cbn [fold_left andb].
  destruct (PyStr.startswith " " line); cbn [negb]; [by destruct e|done].
Qed.

Lemma fold_parse_line_plain (lines : list string) (errors : list Err.t)
    (e : Err.t) :
  Forall plain_line lines ->
  fold_left parse_line lines (errors, Some e) =
  (errors,
   Some (Err.Make (Err.file e) (Err.line e) (Err.column e) (Err.type e)
           (append_continuations (Err.message e) lines) (Err.suggestion e))).
Proof.
  intros Hall. revert e.
  induction Hall as [|line lines Hline _ IH]; intros e; cbn [fold_left].
  - by destruct e.
  - rewrite (parse_line_plain _ _ _ Hline), IH. reflexivity.
Qed.

Lemma parse_lines_flush_closed (lines : list string) :
  parse_lines lines
  = (let st := fold_left parse_line lines ([], None) in
     match st.2 with Some e' => st.1 ++ [e'] | None => st.1 end).
Proof.
  unfold parse_lines.
  by destruct (fold_left parse_line lines ([], None)) as [errors [e|]].
Qed.

Lemma plain_line_continuation (line : string) :
  plain_line line <->
  Re.rmatch error_pattern line = None /\ continuation_line line = true.
Proof.
  unfold plain_line, continuation_line. split.
  - intros (Hm & Hs & Hnb). by rewrite Hs, Hnb.
  - intros (Hm & Hc). apply andb_true_iff in Hc as [Hs Hnb].
    apply negb_true_iff in Hs. done.
Qed.

Lemma continuation_filter_cons (line : string) (lines : list string) :
  filter (fun l => continuation_line l = true) (line :: lines)
  = if continuation_line line
    then line :: filter (fun l => continuation_line l = true) lines
    else filter (fun l => continuation_line l = true) lines.
Proof.
  destruct (continuation_line line) eqn:Hline.
  - by rewrite filter_cons_True.
  - rewrite filter_cons_False; [done|]. rewrite Hline. discriminate.
Qed.

(** What a line that starts no error does to the open error. *)
Lemma parse_line_in_block (errors : list Err.t) (e : Err.t) (line : string) :
  Re.rmatch error_pattern line = None ->
  parse_line (errors, Some e) line =
  (errors,
   Some (Err.Make (Err.file e) (Err.line e) (Err.column e) (Err.type e)
           (append_continuations (Err.message e)
              (filter (fun l => continuation_line l = true) [line]))
           (block_suggestion (Err.suggestion e) [line]))).
Proof.
  intros Hm. rewrite continuation_filter_cons, filter_nil.
  unfold parse_line, continuation_line, nonblank, block_suggestion,
    append_continuations.
  rewrite Hm. cbn [fold_left].
  destruct (PyStr.startswith "Suggestion:" (PyStr.strip line)) eqn:Hs;
    cbn [negb andb fold_left].
  - destruct (PyStr.after_first "Suggestion:" line); [done|by destruct e].
  - destruct (PyStr.truthy (PyStr.strip line)) eqn:Hnb;
      cbn [negb andb fold_left]; [|by destruct e].
    destruct (PyStr.startswith " " line); cbn [negb]; [by destruct e|done].
Qed.

Lemma append_continuations_app (message : string) (l1 l2 : list string) :
  append_continuations message (l1 ++ l2)
  = append_continuations (append_continuations message l1) l2.
Proof. unfold append_continuations. apply fold_left_app. Qed.

Lemma block_suggestion_cons (suggestion : option string) (line : string)
    (lines : list string) :
  block_suggestion suggestion (line :: lines)
  = block_suggestion (block_suggestion suggestion [line]) lines.
Proof. reflexivity. Qed.

(** The same for a run of such lines: the message gains the continuation
    lines of the run, the suggestion is the last one given. *)
Lemma fold_parse_line_block (block : list string) (errors : list Err.t)
    (e : Err.t) :
  Forall (fun l => Re.rmatch error_pattern l = None) block ->
  fold_left parse_line block (errors, Some e) =
  (errors,
   Some (Err.Make (Err.file e) (Err.line e) (Err.column e) (Err.type e)
           (append_continuations (Err.message e)
              (filter (fun l => continuation_line l = true) block))
           (block_suggestion (Err.suggestion e) block))).
Proof.
  intros Hall. revert e.
  induction Hall as [|line block Hline _ IH]; intros e; cbn [fold_left].
  - by destruct e.
  - rewrite (parse_line_in_block _ _ _ Hline), IH.
    cbn [Err.file Err.line Err.column Err.type Err.message Err.suggestion].
    rewrite <- block_suggestion_cons, <- append_continuations_app.
    by rewrite <- filter_app.
Qed.

(** The errors closed so far play no part in what follows. *)
Lemma parse_line_closed (closed errors : list Err.t)
    (current : option Err.t) (line : string) :
  parse_line (closed ++ errors, current) line
  = (closed ++ (parse_line (errors, current) line).1,
     (parse_line (errors, current) line).2).
Proof.
  unfold parse_line.
  destruct (Re.rmatch error_pattern line) as [m|].
  - destruct current as [e|]; cbn [fst snd]; by rewrite ?app_assoc.
  - destruct current as [e|]; [|done].
    destruct (PyStr.startswith "Suggestion:" (PyStr.strip line)).
    + by destruct (PyStr.after_first "Suggestion:" line).
    + by destruct (PyStr.truthy (PyStr.strip line)
                   && negb (PyStr.startswith " " line)).
Qed.

Lemma fold_parse_line_closed (lines : list string)
    (closed errors : list Err.t) (current : option Err.t) :
  fold_left parse_line lines (closed ++ errors, current)
  = (closed ++ (fold_left parse_line lines (errors, current)).1,
     (fold_left parse_line lines (errors, current)).2).
Proof.
  revert errors current; induction lines as [|line lines IH];
    intros errors current; [done|].
  cbn [fold_left]. rewrite parse_line_closed.
  destruct (parse_line (errors, current) line) as [errors' current'].
  cbn [fst snd]. apply IH.
Qed.

(** What follows an open error, when it is nothing or starts with an error
    line, closes that error and is parsed as if it stood alone. *)
Lemma fold_parse_line_next (post : list string) (errors : list Err.t)
    (e : Err.t) :
  post = []
  \/ (exists next post',
        post = next :: post' /\ is_Some (Re.rmatch error_pattern next)) ->
  (let st := fold_left parse_line post (errors, Some e) in
   match st.2 with Some e' => st.1 ++ [e'] | None => st.1 end)
  = errors ++ [e] ++ parse_lines post.
Proof.
  intros [->|(next & post' & -> & [m Hm])]; [done|].
  unfold parse_lines. cbn [fold_left].
  set (opened := Err.Make (Re.group m 1) (PyStr.int (Re.group m 2))
                   (PyStr.int (Re.group m 3)) (Re.group m 4) (Re.group m 5)
                   None).
  assert (Hclose : parse_line (errors, Some e) next
                   = (errors ++ [e], Some opened))
    by (unfold parse_line; by rewrite Hm).
  assert (Hopen : parse_line ([], None) next = ([], Some opened))
    by (unfold parse_line; by rewrite Hm).
  rewrite Hclose, Hopen.
  pose proof (fold_parse_line_closed post' (errors ++ [e]) [] (Some opened))
    as Hclosed.
  rewrite app_nil_r in Hclosed. rewrite Hclosed.
  destruct (fold_left parse_line post' ([], Some opened)) as [errors' [e'|]];
    cbn [fst snd]; by rewrite <- ?app_assoc.
Qed.

(** Any lines split into those before the first error line among them and
    the rest. *)
Lemma error_block_split (rest : list string) :
  exists block post,
    rest = block ++ post
    /\ Forall (fun l => Re.rmatch error_pattern l = None) block
    /\ (post = []
        \/ (exists next post',
              post = next :: post'
              /\ is_Some (Re.rmatch error_pattern next))).
Proof.
  induction rest as [|l ls (block & post & -> & Hblock & Hpost)].
  - exists [], []. auto.
  - destruct (Re.rmatch error_pattern l) as [m|] eqn:Hl.
    + exists [], (l :: block ++ post). split; [done|]. split; [constructor|].
      right. exists l, (block ++ post). rewrite Hl. eauto.
    + exists (l :: block), post. split; [done|]. split; [|done].
      by constructor.
Qed.

(** C8 (as the code has it).  Wherever a recognised error line stands in the
    output, the lines between it and the next error line (or the end) extend
    the message of its record, and of no other, as follows: those that are
    not blank and are no suggestion are appended, each stripped and after
    one space, in their order, when they do not start with a space; those
    that start with a space leave the message as it is.  The records of the
    lines before and after are what they would be without this error, and
    the lines after any error line split in this way. *)
Theorem continuation_lines_appended (compiler_output first : string)
    (pre block post : list string) (m : Re.match_obj) :
  PyStr.split_nl (PyStr.strip compiler_output) = pre ++ first :: block ++ post ->
  Re.rmatch error_pattern first = Some m ->
  Forall (fun l => Re.rmatch error_pattern l = None) block ->
  post = []
  \/ (exists next post',
        post = next :: post' /\ is_Some (Re.rmatch error_pattern next)) ->
  parse_errors compiler_output =
  parse_lines pre
  ++ [ Err.Make (Re.group m 1) (PyStr.int (Re.group m 2))
         (PyStr.int (Re.group m 3)) (Re.group m 4)
         (append_continuations (Re.group m 5)
            (filter (fun l => continuation_line l = true) block))
         (block_suggestion None block) ]
  ++ parse_lines post
  /\ (Forall plain_line block ->
      filter (fun l => continuation_line l = true) block = block
      /\ block_suggestion None block = None)
  /\ (forall message lines,
        Forall (fun l => PyStr.startswith " " l = true) lines ->
        append_continuations message lines = message)
  /\ (forall message lines l,
        PyStr.startswith " " l = false ->
        append_continuations message (lines ++ [l])
        = append_continuations message lines +:+ " " +:+ PyStr.strip l)
  /\ (forall rest : list string,
        exists block' post',
          rest = block' ++ post'
          /\ Forall (fun l => Re.rmatch error_pattern l = None) block'
          /\ (post' = []
              \/ (exists next post'',
                    post' = next :: post''
                    /\ is_Some (Re.rmatch error_pattern next)))).
Proof.
  intros Hsplit Hfirst Hblock Hpost.
  split; [|split; [|split; [|split; [|exact error_block_split]]]].
  - unfold parse_errors. rewrite Hsplit, parse_lines_flush_closed.
    rewrite fold_left_app. cbn [fold_left].
    destruct (fold_left parse_line pre ([], None)) as [errors current] eqn:Hpre.
    assert (Hopen :
              parse_line (errors, current) first
              = (parse_lines pre,
                 Some (Err.Make (Re.group m 1) (PyStr.int (Re.group m 2))
                         (PyStr.int (Re.group m 3)) (Re.group m 4)
                         (Re.group m 5) None))).
    { unfold parse_line, parse_lines. rewrite Hfirst, Hpre.
      by destruct current. }
    rewrite Hopen, fold_left_app, (fold_parse_line_block _ _ _ Hblock).
    cbn [Err.file Err.line Err.column Err.type Err.message Err.suggestion].
    apply (fold_parse_line_next post _ _ Hpost).
  - intros Hplain. split.
    + clear -Hplain. induction Hplain as [|l ls Hl _ IH]; [done|].
      apply plain_line_continuation in Hl as [_ Hl].
      by rewrite continuation_filter_cons, Hl, IH.
    + clear -Hplain. unfold block_suggestion.
      induction Hplain as [|l ls Hl _ IH]; [done|].
      cbn [fold_left]. destruct Hl as (_ & -> & _). exact IH.
  - intros message lines Hsp. unfold append_continuations.
    revert message. induction Hsp as [|l ls Hl _ IH]; intros message;
      cbn [fold_left]; [done|].
    rewrite Hl. apply IH.
  - intros message lines l Hl. rewrite append_continuations_app.
    unfold append_continuations at 1. cbn [fold_left]. by rewrite Hl.
Qed.

Lemma continuation_lines_appended_witness :
  parse_errors output_with_three_errors
  = [ Err.Make "a.x" 1 1 "error" "one more one" None;
      Err.Make "f.x" 1 2 "error" "bad second part third part"
        (Some "fix it");
      Err.Make "z.x" 9 9 "warning" "last" None ].
Proof.
  destruct (Re.rmatch error_pattern "f.x:1:2: error: bad") as [m|] eqn:Hm;
    [|vm_compute in Hm; discriminate Hm].
  destruct (continuation_lines_appended output_with_three_errors
              "f.x:1:2: error: bad"
              [ "Compiling out.rfx"; "a.x:1:1: error: one"; "more one" ]
              [ "second part"; "  indented"; "Suggestion: fix it";
                "third part" ]
              [ "z.x:9:9: warning: last" ] m)
    as [H _].
  - vm_compute; reflexivity.
  - exact Hm.
  - repeat constructor.
  - right. exists "z.x:9:9: warning: last", []. split; [reflexivity|].
    vm_compute. eauto.
  - rewrite H. vm_compute in Hm. injection Hm as <-.
    vm_compute. reflexivity.
Defined.

(** Against C8 as worded: the line "  at the end of the statement" starts
    with white space, starts no error and is no suggestion, and yet the
    message of the error before it stays "missing semicolon". *)
Lemma indented_continuation_ignored :
  PyStr.startswith " " "  at the end of the statement" = true
  /\ plain_line "  at the end of the statement"
  /\ parse_errors
       ("file.x:3:5: error: missing semicolon" +:+ PyStr.nl
        +:+ "  at the end of the statement")
     = [ Err.Make "file.x" 3 5 "error" "missing semicolon" None ].
Proof. repeat split; vm_compute; reflexivity. Qed.

(** ** The matcher *)

Section Matcher.

Implicit Types (k : Re.cont) (s : string) (caps : Re.groups).

Lemma greedy_rounds_class (p : ascii -> bool) k (fuel pos : nat) s caps :
  (String.length s < fuel)%nat ->
  Re.greedy_rounds (Re.exec (Re.Cls p)) k fuel pos s caps
  = try_longest p k pos s caps.
Proof.
  revert fuel pos; induction s as [|c s IH]; intros fuel pos Hfuel;
    (destruct fuel as [|fuel]; [simpl in Hfuel; lia|]); simpl.
  - reflexivity.
  - destruct (p c); [|reflexivity].
    rewrite (proj2 (Nat.ltb_lt pos (S pos))) by lia.
    rewrite IH by (simpl in Hfuel; lia). reflexivity.
Qed.

Lemma lazy_rounds_any k (fuel pos : nat) s caps :
  (String.length s < fuel)%nat ->
  Re.lazy_rounds (Re.exec Re.DotAll) k fuel pos s caps
  = try_shortest k pos s caps.
Proof.
  revert fuel pos; induction s as [|c s IH]; intros fuel pos Hfuel;
    (destruct fuel as [|fuel]; [simpl in Hfuel; lia|]); simpl.
  - reflexivity.
  - destruct (k pos (String c s) caps); [reflexivity|].
    rewrite (proj2 (Nat.ltb_lt pos (S pos))) by lia.
    apply IH. simpl in Hfuel; lia.
Qed.

Lemma exec_lit (p : string) (pos : nat) s caps k :
  Re.exec (Re.Lit p) pos s caps k
  = if PyStr.startswith p s
    then k (pos + String.length p)%nat (PyStr.drop (String.length p) s) caps
    else None.
Proof.
  revert pos s; induction p as [|a p IH]; intros pos s; simpl.
  - by rewrite Nat.add_0_r.
  - destruct s as [|b s]; [reflexivity|].
    destruct (Ascii.eqb a b); simpl; [|reflexivity].
    rewrite IH. by rewrite Nat.add_succ_r.
Qed.

(** A lazy run that waits for a literal stops at its first occurrence. *)
Lemma try_shortest_find (q : string) (F : nat -> string -> Re.groups -> Re.match_obj)
    k (pos : nat) s caps :
  (forall pos' s' caps',
      k pos' s' caps'
      = if PyStr.startswith q s' then Some (F pos' s' caps') else None) ->
  try_shortest k pos s caps
  = match PyStr.find q s with
    | Some i => Some (F (pos + i)%nat (PyStr.drop i s) caps)
    | None => None
    end.
Proof.
  intros Hk. revert pos; induction s as [|c s IH]; intros pos.
  - cbn [try_shortest PyStr.find]. rewrite Hk.
    destruct (PyStr.startswith q EmptyString);
      [by rewrite Nat.add_0_r|reflexivity].
  - cbn [try_shortest PyStr.find]. rewrite Hk.
    destruct (PyStr.startswith q (String c s)); [by rewrite Nat.add_0_r|].
    rewrite IH. destruct (PyStr.find q s) as [i|]; simpl; [|reflexivity].
    by rewrite Nat.add_succ_r.
Qed.

End Matcher.

(** ** The fence patterns *)

Lemma exec_fence_body (start pos : nat) (s : string) (caps : Re.groups) :
  Re.exec fence_body pos s caps (finish start)
  = match s with
    | String c s2 =>
        if Ascii.eqb PyStr.nl_char c then
          match PyStr.find "```" s2 with
          | Some i =>
              Some (Re.Match start (S pos + i + 3)
                      (<[1%nat := PyStr.take i s2]> caps))
          | None => None
          end
        else None
    | EmptyString => None
    end.
Proof.
  unfold fence_body. cbn [Re.exec].
  destruct s as [|c s2]; [reflexivity|].
  destruct (Ascii.eqb PyStr.nl_char c); [|reflexivity].
  rewrite lazy_rounds_any by lia.
  rewrite (try_shortest_find "```"
             (fun pos' _ caps' =>
                Re.Match start (pos' + 3)
                  (<[1%nat := PyStr.take (pos' - S pos) s2]> caps'))).
  - destruct (PyStr.find "```" s2) as [i|]; [|reflexivity].
    by replace (S pos + i - S pos)%nat with i by lia.
  - intros pos' s' caps'. rewrite exec_lit. reflexivity.
Qed.

Lemma strip_skip_space (c : ascii) (s : string) :
  PyStr.isspace c = true -> PyStr.strip (String c s) = PyStr.strip s.
Proof. intros Hc. unfold PyStr.strip. simpl. by rewrite Hc. Qed.

Lemma take_app_length (s t : string) :
  PyStr.take (String.length s) (s +:+ t) = s.
Proof. induction s as [|c s IH]; simpl; [by destruct t|by rewrite IH]. Qed.

Lemma find_cons_succ (q : string) (c : ascii) (s : string) (n : nat) :
  PyStr.find q (String c s) = Some (S n) -> PyStr.find q s = Some n.
Proof.
  cbn [PyStr.find]. destruct (PyStr.startswith q (String c s)); [discriminate|].
  destruct (PyStr.find q s); simpl; congruence.
Qed.

Lemma group_inserted (start pos i : nat) (text : string) (caps : Re.groups) :
  Re.group (Re.Match start pos (<[i := text]> caps)) i = text.
Proof.
  unfold Re.group, Re.groups in *. cbn [Re.m_groups].
  by rewrite lookup_insert_eq.
Qed.

Lemma newline_is_space : PyStr.isspace PyStr.nl_char = true.
Proof. reflexivity. Qed.

Section FenceTail.

Variables (start : nat) (post : string).

Abbreviation tail_of body := (body +:+ "```" +:+ post).
Abbreviation after_space :=
  (fun pos s caps => Re.exec fence_body pos s caps (finish start)).

(** Inside the text of the fence, a greedy run of white space can only have
    skipped white space: what is captured strips to the same text. *)
Lemma greedy_in_body (body : string) (pos : nat) (caps : Re.groups)
    (m : Re.match_obj) :
  PyStr.find "```" (tail_of body) = Some (String.length body) ->
  try_longest PyStr.isspace after_space pos (tail_of body) caps = Some m ->
  PyStr.strip (Re.group m 1) = PyStr.strip body.
Proof.
  revert pos; induction body as [|c body IH]; intros pos Hfind Hm.
  - exfalso. cbn in Hm. discriminate Hm.
  - change (tail_of (String c body)) with (String c (tail_of body)) in *.
    apply find_cons_succ in Hfind.
    cbn [try_longest] in Hm.
    assert (Hhere : after_space pos (String c (tail_of body)) caps = Some m ->
                    PyStr.strip (Re.group m 1) = PyStr.strip (String c body)).
    { rewrite exec_fence_body.
      destruct (Ascii.eqb_spec PyStr.nl_char c) as [<-|]; [|discriminate].
      rewrite Hfind. intros [= <-].
      rewrite group_inserted, take_app_length.
      symmetry. apply strip_skip_space, newline_is_space. }
    destruct (PyStr.isspace c) eqn:Hc; [|auto].
    destruct (try_longest PyStr.isspace after_space (S pos) (tail_of body) caps)
      as [m'|] eqn:Hm'; [|auto].
    injection Hm as <-. rewrite (IH _ Hfind Hm').
    symmetry. by apply strip_skip_space.
Qed.

(** After the tag: white space, a newline, the text, and the closing
    fence where the text ends. *)
Lemma greedy_after_tag (w body : string) (pos : nat) (caps : Re.groups) :
  all_chars PyStr.isspace w = true ->
  PyStr.find "```" (tail_of body) = Some (String.length body) ->
  exists m,
    try_longest PyStr.isspace after_space pos
      (w +:+ PyStr.nl +:+ tail_of body) caps = Some m
    /\ PyStr.strip (Re.group m 1) = PyStr.strip body.
Proof.
  intros Hw Hfind. revert pos; induction w as [|c w IH]; intros pos.
  - change (EmptyString +:+ PyStr.nl +:+ tail_of body)
      with (String PyStr.nl_char (tail_of body)).
    cbn [try_longest]. rewrite newline_is_space.
    destruct (try_longest PyStr.isspace after_space (S pos) (tail_of body) caps)
      as [m|] eqn:Hm.
    + exists m. split; [done|]. by eapply greedy_in_body.
    + rewrite exec_fence_body, Ascii.eqb_refl, Hfind. eexists.
      split; [reflexivity|].
      by rewrite group_inserted, take_app_length.
  - simpl in Hw. apply andb_true_iff in Hw as [Hc Hw].
    change (String c w +:+ PyStr.nl +:+ tail_of body)
      with (String c (w +:+ PyStr.nl +:+ tail_of body)).
    cbn [try_longest]. rewrite Hc.
    destruct (IH Hw (S pos)) as (m & -> & Hm). by exists m.
Qed.

End FenceTail.

Lemma search_from_here (r : Re.re) (pos : nat) (s : string)
    (m : Re.match_obj) :
  Re.match_at r pos s = Some m -> Re.search_from r pos s = Some m.
Proof. intros H. destruct s; simpl; by rewrite H. Qed.

Section Fences.

(** The opening of a fence: three backticks and, for the tagged one, the
    tag. *)
Variable opening : string.
Hypothesis opening_backtick : PyStr.startswith "`" opening = true.

Abbreviation fence := (Re.Seq (Re.Lit opening) (Re.Seq (Re.Star Re.ws) fence_body)).

Lemma startswith_self (s t : string) : PyStr.startswith s (s +:+ t) = true.
Proof. induction s as [|c s IH]; simpl; [done|]. by rewrite Ascii.eqb_refl. Qed.

Lemma drop_app_length (s t : string) :
  PyStr.drop (String.length s) (s +:+ t) = t.
Proof. induction s as [|c s IH]; simpl; done. Qed.

Lemma fence_match_here (pos : nat) (w body post : string) :
  all_chars PyStr.isspace w = true ->
  PyStr.find "```" (body +:+ "```" +:+ post) = Some (String.length body) ->
  exists m,
    Re.match_at fence pos
      (opening +:+ w +:+ PyStr.nl +:+ body +:+ "```" +:+ post)
    = Some m
    /\ PyStr.strip (Re.group m 1) = PyStr.strip body.
Proof.
  intros Hw Hfind.
  unfold Re.match_at. cbn [Re.exec].
  rewrite exec_lit, startswith_self, drop_app_length.
  unfold Re.ws. rewrite greedy_rounds_class by lia.
  apply (greedy_after_tag pos post w body _ _ Hw Hfind).
Qed.

Lemma fence_search_skips (pre rest : string) (pos : nat) :
  all_chars not_backtick pre = true ->
  Re.search_from fence pos (pre +:+ rest)
  = Re.search_from fence (pos + String.length pre) rest.
Proof.
  revert pos; induction pre as [|c pre IH]; intros pos Hpre.
  - simpl. by rewrite Nat.add_0_r.
  - simpl in Hpre. apply andb_true_iff in Hpre as [Hc Hpre].
    change (String c pre +:+ rest) with (String c (pre +:+ rest)).
    cbn [Re.search_from].
    assert (Hno : Re.match_at fence pos (String c (pre +:+ rest)) = None).
    { unfold Re.match_at. cbn [Re.exec]. rewrite exec_lit.
      pose proof opening_backtick as Ho.
      destruct opening as [|o opening']; [discriminate|].
      cbn [PyStr.startswith] in Ho |- *.
      apply andb_true_iff in Ho as [Ho _].
      apply Ascii.eqb_eq in Ho as <-.
      unfold not_backtick in Hc. rewrite Ascii.eqb_sym.
      by apply negb_true_iff in Hc as ->. }
    rewrite Hno, IH by done. f_equal. simpl. lia.
Qed.

Lemma fence_search_found (pre w body post : string) :
  all_chars not_backtick pre = true ->
  all_chars PyStr.isspace w = true ->
  PyStr.find "```" (body +:+ "```" +:+ post) = Some (String.length body) ->
  exists m,
    Re.search fence
      (pre +:+ opening +:+ w +:+ PyStr.nl +:+ body +:+ "```" +:+ post)
    = Some m
    /\ PyStr.strip (Re.group m 1) = PyStr.strip body.
Proof.
  intros Hpre Hw Hfind. unfold Re.search.
  rewrite fence_search_skips by done.
  destruct (fence_match_here (0 + String.length pre) w body post Hw Hfind)
    as (m & Hm & Hstrip).
  exists m. split; [|done]. by apply search_from_here.
Qed.

(** Without the opening anywhere in the subject there is no match. *)
Lemma fence_search_none (s : string) (pos : nat) :
  PyStr.contains opening s = false ->
  Re.search_from fence pos s = None.
Proof.
  revert pos; induction s as [|c s IH]; intros pos Hno;
    cbn [PyStr.contains] in Hno; apply orb_false_iff in Hno as [Hhere Hrest];
    cbn [Re.search_from]; unfold Re.match_at; cbn [Re.exec];
    rewrite exec_lit, Hhere; [done|].
  by apply IH.
Qed.

End Fences.

(** A reply that holds a tagged fence, with no backtick before it and the
    closing fence where the text ends, yields the stripped text. *)
Lemma tagged_fence_found (pre w body post : string) :
  all_chars not_backtick pre = true ->
  all_chars PyStr.isspace w = true ->
  PyStr.find "```" (body +:+ "```" +:+ post) = Some (String.length body) ->
  extract_tagged
    (pre +:+ "```reflexscript" +:+ w +:+ PyStr.nl +:+ body +:+ "```" +:+ post)
  = Some (PyStr.strip body).
Proof.
  intros Hpre Hw Hfind. unfold extract_tagged.
  destruct (fence_search_found "```reflexscript" eq_refl pre w body post
              Hpre Hw Hfind) as (m & Hm & Hstrip).
  change (Re.Seq _ _) with tagged_fence_pattern in Hm.
  by rewrite Hm, Hstrip.
Qed.

(** A reply without the tag that holds a generic fence, with no backtick
    before it and the closing fence where the text ends: the second strategy
    yields the stripped text when it contains the keyword, and nothing
    otherwise. *)
Lemma generic_fence_found (pre w body post : string) :
  let response :=
    pre +:+ "```" +:+ w +:+ PyStr.nl +:+ body +:+ "```" +:+ post in
  all_chars not_backtick pre = true ->
  all_chars PyStr.isspace w = true ->
  PyStr.find "```" (body +:+ "```" +:+ post) = Some (String.length body) ->
  PyStr.contains "```reflexscript" response = false ->
  extract_tagged response = None
  /\ extract_generic response
     = if PyStr.contains "reflex " (PyStr.strip body)
       then Some (PyStr.strip body) else None.
Proof.
  intros response Hpre Hw Hfind Hnotag. split.
  - unfold extract_tagged, Re.search.
    change tagged_fence_pattern
      with (Re.Seq (Re.Lit "```reflexscript")
              (Re.Seq (Re.Star Re.ws) fence_body)).
    by rewrite fence_search_none.
  - unfold extract_generic.
    destruct (fence_search_found "```" eq_refl pre w body post Hpre Hw Hfind)
      as (m & Hm & Hstrip).
    change (Re.Seq _ _) with generic_fence_pattern in Hm.
    subst response. by rewrite Hm, Hstrip.
Qed.

(** ** Code extraction *)

Lemma extract_code_nonempty (response : string) :
  PyStr.truthy response = true ->
  extract_code_from_response (Some response) =
  match extract_tagged response with
  | Some code => Some code
  | None =>
      match extract_generic response with
      | Some code => Some code
      | None => extract_positional response
      end
  end.
Proof. unfold extract_code_from_response. by intros ->. Qed.

Lemma extract_code_empty :
  extract_code_from_response (Some EmptyString) = None
  /\ extract_tagged EmptyString = None
  /\ extract_generic EmptyString = None
  /\ extract_positional EmptyString = None.
Proof. repeat split; vm_compute; reflexivity. Qed.

Lemma truthy_app_fence (pre rest : string) :
  PyStr.truthy (pre +:+ "```" +:+ rest) = true.
Proof. by destruct pre. Qed.

(** C6.  The three strategies are tried in order and the first success is
    the answer.  A reply that holds a block tagged [reflexscript] yields the
    text of that block, stripped and otherwise as it is, also when the reply
    holds a different program in plain text; a reply in which the tagged
    pattern matches yields its stripped group whatever the other strategies
    would find.  Failing that, a generic block yields its stripped text, and
    only when that text contains "reflex "; failing that, the answer is the
    positional scan's; and when the three fail, or there is no reply, the
    answer is [None]. *)
Theorem extraction_priority (response : string) :
  (forall pre w body post,
     response
     = pre +:+ "```reflexscript" +:+ w +:+ PyStr.nl +:+ body +:+ "```" +:+ post ->
     all_chars not_backtick pre = true ->
     all_chars PyStr.isspace w = true ->
     PyStr.find "```" (body +:+ "```" +:+ post) = Some (String.length body) ->
     extract_code_from_response (Some response) = Some (PyStr.strip body))
  /\ (forall pre w body post,
        response
        = pre +:+ "```" +:+ w +:+ PyStr.nl +:+ body +:+ "```" +:+ post ->
        all_chars not_backtick pre = true ->
        all_chars PyStr.isspace w = true ->
        PyStr.find "```" (body +:+ "```" +:+ post) = Some (String.length body) ->
        PyStr.contains "```reflexscript" response = false ->
        extract_code_from_response (Some response)
        = if PyStr.contains "reflex " (PyStr.strip body)
          then Some (PyStr.strip body)
          else extract_positional response)
  /\ (forall m, Re.search tagged_fence_pattern response = Some m ->
        extract_tagged response = Some (PyStr.strip (Re.group m 1))
        /\ extract_code_from_response (Some response)
           = Some (PyStr.strip (Re.group m 1)))
  /\ (forall code, extract_generic response = Some code ->
        PyStr.contains "reflex " code = true
        /\ exists m, Re.search generic_fence_pattern response = Some m
                     /\ code = PyStr.strip (Re.group m 1))
  /\ (forall code, extract_tagged response = None ->
        extract_generic response = Some code ->
        extract_code_from_response (Some response) = Some code)
  /\ (extract_tagged response = None -> extract_generic response = None ->
      extract_code_from_response (Some response)
      = extract_positional response)
  /\ (extract_tagged response = None -> extract_generic response = None ->
      extract_positional response = None ->
      extract_code_from_response (Some response) = None)
  /\ extract_code_from_response None = None.
Proof.
  destruct extract_code_empty as (He & Het & Heg & Hep).
  assert (Hcases : response = EmptyString \/ PyStr.truthy response = true)
    by (destruct response; auto).
  split; [|split; [|split; [|split; [|split; [|split; [|split]]]]]].
  - intros pre w body post -> Hpre Hw Hfind.
    rewrite extract_code_nonempty by apply truthy_app_fence.
    by rewrite tagged_fence_found.
  - intros pre w body post Heq Hpre Hw Hfind Hnotag.
    rewrite extract_code_nonempty by (rewrite Heq; apply truthy_app_fence).
    rewrite Heq in Hnotag |- *.
    destruct (generic_fence_found pre w body post Hpre Hw Hfind Hnotag)
      as [-> ->].
    by destruct (PyStr.contains "reflex " (PyStr.strip body)).
  - intros m Hm.
    assert (Ht : extract_tagged response = Some (PyStr.strip (Re.group m 1)))
      by (unfold extract_tagged; by rewrite Hm).
    split; [exact Ht|].
    destruct Hcases as [->|Hne]; [congruence|].
    by rewrite (extract_code_nonempty _ Hne), Ht.
  - intros code. unfold extract_generic.
    destruct (Re.search generic_fence_pattern response) as [m|];
      [|discriminate].
    simpl. destruct (PyStr.contains "reflex " _) eqn:Hk; [|discriminate].
    intros [= <-]. split; [exact Hk|]. by exists m.
  - intros code Ht Hg.
    destruct Hcases as [->|Hne]; [congruence|].
    by rewrite (extract_code_nonempty _ Hne), Ht, Hg.
  - intros Ht Hg.
    destruct Hcases as [->|Hne]; [congruence|].
    by rewrite (extract_code_nonempty _ Hne), Ht, Hg.
  - intros Ht Hg Hp.
    destruct Hcases as [->|Hne]; [congruence|].
    by rewrite (extract_code_nonempty _ Hne), Ht, Hg.
  - reflexivity.
Qed.

Lemma extraction_priority_witness :
  extract_positional reply_with_both = Some "reflex b { y }"
  /\ extract_code_from_response (Some reply_with_both)
     = Some "reflex a { x }".
Proof.
  split; [vm_compute; reflexivity|].
  refine (proj1 (extraction_priority reply_with_both)
            ("Not reflex b { y } but:" +:+ PyStr.nl) EmptyString
            ("reflex a { x }" +:+ PyStr.nl) (PyStr.nl +:+ "Done.") _ _ _ _);
    vm_compute; reflexivity.
Defined.

(** ** The loop *)

Section LoopFacts.

Variable call_vllm : Z -> list turn -> option string.
Variable subprocess_run : Z -> string -> process_result.
Variables system_prompt user_prompt reflexc : string.
Variable simple_mode : bool.

Abbreviation body :=
  (loop_body call_vllm subprocess_run system_prompt user_prompt reflexc
     simple_mode).
Abbreviation history := (build_history system_prompt user_prompt simple_mode).
Abbreviation loop :=
  (for_loop call_vllm subprocess_run system_prompt user_prompt reflexc
     simple_mode).

(** One pass through the body asks the model once, before anything else,
    and then either does nothing more or writes the file and runs the
    compiler. *)
Lemma loop_body_trace (iteration : Z) (st : loop_state) :
  exists tail,
    trace (state_of (body iteration st))
    = trace st ++ CallVllm iteration (history st) :: tail
    /\ (tail = []
        \/ exists code,
             tail = [ WriteRfxFile iteration code; RunReflexc iteration code ]).
Proof.
  unfold loop_body.
  destruct (call_vllm iteration (history st)) as [response|];
    [|exists []; simpl; auto].
  destruct (PyStr.truthy response); simpl; [|exists []; simpl; auto].
  destruct (match extracted_code response with
            | Some code => Some code
            | None => current_code st
            end) as [code|]; [|exists []; simpl; auto].
  exists [ WriteRfxFile iteration code; RunReflexc iteration code ].
  destruct (run_reflexc reflexc (subprocess_run iteration code))
    as [[] output]; simpl; rewrite <- app_assoc; eauto.
Qed.

Lemma loop_body_return (iteration : Z) (st st' : loop_state) (code : Z) :
  body iteration st = Return code st' -> code = 0%Z.
Proof.
  unfold loop_body.
  destruct (call_vllm iteration (history st)) as [response|]; [|discriminate].
  destruct (PyStr.truthy response); simpl; [|discriminate].
  destruct (match extracted_code response with
            | Some code => Some code
            | None => current_code st
            end) as [c|]; [|discriminate].
  destruct (run_reflexc reflexc (subprocess_run iteration c)) as [[] output];
    [|discriminate].
  by intros [= <- _].
Qed.

Lemma oracle_calls_app (tr1 tr2 : list event) :
  oracle_calls (tr1 ++ tr2) = (oracle_calls tr1 + oracle_calls tr2)%nat.
Proof. unfold oracle_calls. by rewrite filter_app, length_app. Qed.

Lemma loop_body_calls (iteration : Z) (st : loop_state) :
  oracle_calls (trace (state_of (body iteration st)))
  = S (oracle_calls (trace st))
  /\ (length (trace (state_of (body iteration st)))
      <= length (trace st) + 3)%nat.
Proof.
  destruct (loop_body_trace iteration st) as (tail & -> & Htail).
  rewrite oracle_calls_app, length_app.
  destruct Htail as [->|(code & ->)]; simpl; split;
    unfold oracle_calls; simpl; lia.
Qed.

(** The loop asks the model once per iteration it starts; it stops early
    only at a clean compile. *)
Lemma for_loop_calls (iterations : list Z) (st : loop_state) :
  let r := loop iterations st in
  let calls := oracle_calls (trace (final_state r)) in
  (calls <= oracle_calls (trace st) + length iterations)%nat
  /\ (length (trace (final_state r))
      <= length (trace st) + 3 * length iterations)%nat
  /\ match outcome_of r with
     | Success => exit_code r = 0%Z /\ (oracle_calls (trace st) < calls)%nat
     | ExhaustedIterations =>
         exit_code r = 1%Z
         /\ calls = (oracle_calls (trace st) + length iterations)%nat
     | FatalError => False
     end.
Proof.
  revert st; induction iterations as [|iteration rest IH]; intros st.
  - simpl. unfold final_state, exit_code, outcome_of. simpl.
    repeat split; lia.
  - cbn [for_loop].
    destruct (loop_body_calls iteration st) as [Hcalls Hlen].
    destruct (body iteration st) as [st'|code st'] eqn:Hbody;
      simpl in Hcalls, Hlen.
    + specialize (IH st'). cbv zeta in IH.
      destruct IH as (IH1 & IH2 & IH3).
      rewrite Hcalls in IH1, IH3. cbv zeta. simpl length.
      split; [lia|]. split; [lia|].
      destruct (outcome_of (loop rest st')); [| |done];
        destruct IH3 as [Hexit Hn]; (split; [exact Hexit|lia]).
    + apply loop_body_return in Hbody as ->.
      cbv zeta. unfold final_state, exit_code, outcome_of. simpl.
      split; [lia|]. split; [lia|]. split; [done|lia].
Qed.

End LoopFacts.

Lemma range_length (lo hi : Z) : length (range lo hi) = Z.to_nat (hi - lo).
Proof. unfold range. by rewrite length_map, length_seq. Qed.

(** C1.  With a budget of [max_iterations >= 1], [agent_loop] returns, having
    asked the model at most [max_iterations] times and made at most three
    outside calls per iteration, whatever the model answers (nothing, an
    empty reply, a reply without code) and whatever the compiler does.  It
    returns 0 after a clean compile, 1 after the last iteration (the model
    was then asked exactly [max_iterations] times), or 1 before the first
    iteration (the model was then never asked). *)
Theorem agent_loop_terminates_within_budget
    (call_vllm : Z -> list turn -> option string)
    (subprocess_run : Z -> string -> process_result)
    (env : session) (max_iterations : Z) (simple_mode : bool) :
  (1 <= max_iterations)%Z ->
  let r := agent_loop call_vllm subprocess_run env max_iterations simple_mode in
  let calls := Z.of_nat (oracle_calls (trace (final_state r))) in
  (calls <= max_iterations)%Z
  /\ (Z.of_nat (length (trace (final_state r))) <= 3 * max_iterations)%Z
  /\ match outcome_of r with
     | Success => exit_code r = 0%Z /\ (1 <= calls)%Z
     | ExhaustedIterations => exit_code r = 1%Z /\ calls = max_iterations
     | FatalError => exit_code r = 1%Z /\ calls = 0%Z
     end.
Proof.
  intros HN. unfold agent_loop.
  assert (Hfatal :
            let r := fatal in
            let calls := Z.of_nat (oracle_calls (trace (final_state r))) in
            (calls <= max_iterations)%Z
            /\ (Z.of_nat (length (trace (final_state r)))
                <= 3 * max_iterations)%Z
            /\ match outcome_of r with
               | Success => exit_code r = 0%Z /\ (1 <= calls)%Z
               | ExhaustedIterations =>
                   exit_code r = 1%Z /\ calls = max_iterations
               | FatalError => exit_code r = 1%Z /\ calls = 0%Z
               end)
    by (cbv zeta; unfold fatal, final_state, exit_code, outcome_of;
        simpl; change (oracle_calls []) with 0%nat; repeat split; lia).
  destruct (if simple_mode then _ else _) as [system_prompt|]; [|exact Hfatal].
  destruct (option_map PyStr.strip (prompt_file env)) as [user_prompt|];
    [|exact Hfatal].
  destruct (vllm_health env); [|exact Hfatal]. cbn [negb].
  destruct (detect_reflexc_path (host_platform env)) as [reflexc|];
    [|exact Hfatal].
  destruct (PyStr.truthy reflexc); [|exact Hfatal]. cbn [negb].
  pose proof (for_loop_calls call_vllm subprocess_run system_prompt
                user_prompt reflexc simple_mode
                (range 1 (max_iterations + 1)) initial_state) as H.
  cbv zeta in H. rewrite range_length in H.
  change (oracle_calls (trace initial_state)) with 0%nat in H.
  change (length (trace initial_state)) with 0%nat in H.
  destruct H as (H1 & H2 & H3). cbv zeta.
  split; [lia|]. split; [lia|].
  destruct (outcome_of _); [| |done]; destruct H3 as [Hexit Hn];
    (split; [exact Hexit|lia]).
Qed.

Lemma agent_loop_terminates_within_budget_witness :
  (1 <= 3)%Z
  /\ (Z.of_nat
        (oracle_calls
           (trace (final_state
                     (agent_loop silent always_rejects ready_session 3 false))))
      <= 3)%Z.
Proof.
  assert (H3 : (1 <= 3)%Z) by lia.
  split; [exact H3|].
  exact (proj1 (agent_loop_terminates_within_budget silent always_rejects
                  ready_session 3 false H3)).
Defined.

(** A model that never answers uses up the budget: three iterations, three
    calls, no compiler run. *)
Example silent_model_exhausts_budget :
  let r := agent_loop silent always_rejects ready_session 3 false in
  outcome_of r = ExhaustedIterations
  /\ oracle_calls (trace (final_state r)) = 3%nat
  /\ length (trace (final_state r)) = 3%nat.
Proof. repeat split; vm_compute; reflexivity. Qed.

Lemma verifier_runs_app (iteration : Z) (tr1 tr2 : list event) :
  verifier_runs iteration (tr1 ++ tr2)
  = verifier_runs iteration tr1 ++ verifier_runs iteration tr2.
Proof. unfold verifier_runs. apply flat_map_app. Qed.

(** C2 (as the code has it).  When the reply holds no code and there is
    code from an earlier iteration, that code stays the current code, and it
    is written out and compiled again on this very iteration; the model is
    asked again only if this compile fails, at the next iteration. *)
Theorem failed_extraction_reuses_code
    (call_vllm : Z -> list turn -> option string)
    (subprocess_run : Z -> string -> process_result)
    (system_prompt user_prompt reflexc : string) (simple_mode : bool)
    (iteration : Z) (st : loop_state) (previous response : string) :
  current_code st = Some previous ->
  call_vllm iteration (build_history system_prompt user_prompt simple_mode st)
  = Some response ->
  PyStr.truthy response = true ->
  extracted_code response = None ->
  let messages := build_history system_prompt user_prompt simple_mode st in
  let c :=
    loop_body call_vllm subprocess_run system_prompt user_prompt reflexc
      simple_mode iteration st in
  let run := run_reflexc reflexc (subprocess_run iteration previous) in
  current_code (state_of c) = Some previous
  /\ trace (state_of c)
     = trace st ++ [ CallVllm iteration messages;
                     WriteRfxFile iteration previous;
                     RunReflexc iteration previous ]
  /\ verifier_runs iteration (trace (state_of c))
     = verifier_runs iteration (trace st) ++ [ previous ]
  /\ (run.1 = true -> c = Return 0 (state_of c))
  /\ (run.1 = false ->
      c = NextIteration (state_of c)
      /\ compiler_output (state_of c) = run.2
      /\ errors (state_of c) = parse_errors run.2).
Proof.
  intros Hprev Hreply Hne Hnone messages c run.
  assert (Hc : c = if run.1
                   then Return 0 (LoopState (Some previous) (errors st) run.2
                                    (messages ++ [ Turn "assistant" response ])
                                    (trace st ++ [ CallVllm iteration messages;
                                                   WriteRfxFile iteration previous;
                                                   RunReflexc iteration previous ]))
                   else NextIteration
                          (LoopState (Some previous) (parse_errors run.2) run.2
                             (messages ++ [ Turn "assistant" response ])
                             (trace st ++ [ CallVllm iteration messages;
                                            WriteRfxFile iteration previous;
                                            RunReflexc iteration previous ]))).
  { subst c run messages. unfold loop_body.
    rewrite Hreply, Hne, Hnone, Hprev. cbn [negb].
    destruct (run_reflexc reflexc (subprocess_run iteration previous))
      as [[] output]; simpl; by rewrite <- app_assoc. }
  assert (Hruns : verifier_runs iteration
                    [ CallVllm iteration messages;
                      WriteRfxFile iteration previous;
                      RunReflexc iteration previous ] = [ previous ])
    by (unfold verifier_runs; simpl; by rewrite Z.eqb_refl).
  rewrite Hc.
  destruct (run.1); simpl; rewrite verifier_runs_app, Hruns;
    repeat split; try done; discriminate.
Qed.

Lemma failed_extraction_reuses_code_witness :
  verifier_runs 2
    (trace (state_of
              (loop_body (reply_once (Some "I cannot help.")) always_rejects
                 "system" "task" "reflexc" false 2
                 (LoopState (Some "reflex a {}") [] EmptyString [] []))))
  = [ "reflex a {}" ].
Proof.
  refine (proj1 (proj2 (proj2
    (failed_extraction_reuses_code (reply_once (Some "I cannot help."))
       always_rejects "system" "task" "reflexc" false 2
       (LoopState (Some "reflex a {}") [] EmptyString [] [])
       "reflex a {}" "I cannot help." _ _ _ _)))).
  - reflexivity.
  - reflexivity.
  - reflexivity.
  - vm_compute; reflexivity.
Defined.

(** Against C2 as worded: in this session the second reply holds no code,
    the code of the first iteration is kept, and the compiler is run on it
    at the second iteration all the same. *)
Lemma failed_extraction_still_compiles :
  let r :=
    agent_loop (reply_once (Some "I cannot help.")) always_rejects
      ready_session 2 false in
  extracted_code "I cannot help." = None
  /\ verifier_runs 1 (trace (final_state r)) = [ "reflex a {}" ]
  /\ verifier_runs 2 (trace (final_state r)) = [ "reflex a {}" ]
  /\ current_code (final_state r) = Some "reflex a {}".
Proof. repeat split; vm_compute; reflexivity. Qed.

(** C5 (as the code has it).  When the model gives no reply, or an empty
    one, the pass ends there: the current code, the errors and the compiler
    output stay as they are, no assistant turn is added, nothing is written
    or compiled on this iteration, and the loop moves to the next
    iteration. *)
Theorem empty_reply_moves_on
    (call_vllm : Z -> list turn -> option string)
    (subprocess_run : Z -> string -> process_result)
    (system_prompt user_prompt reflexc : string) (simple_mode : bool)
    (iteration : Z) (st : loop_state) :
  let messages := build_history system_prompt user_prompt simple_mode st in
  call_vllm iteration messages = None
  \/ call_vllm iteration messages = Some EmptyString ->
  loop_body call_vllm subprocess_run system_prompt user_prompt reflexc
    simple_mode iteration st
  = NextIteration
      (LoopState (current_code st) (errors st) (compiler_output st) messages
         (trace st ++ [ CallVllm iteration messages ]))
  /\ verifier_runs iteration
       (trace (state_of
                 (loop_body call_vllm subprocess_run system_prompt user_prompt
                    reflexc simple_mode iteration st)))
     = verifier_runs iteration (trace st).
Proof.
  intros messages Hreply.
  assert (Hbody :
            loop_body call_vllm subprocess_run system_prompt user_prompt
              reflexc simple_mode iteration st
            = NextIteration
                (LoopState (current_code st) (errors st) (compiler_output st)
                   messages (trace st ++ [ CallVllm iteration messages ]))).
  { subst messages. unfold loop_body.
    destruct Hreply as [-> | ->]; reflexivity. }
  split; [exact Hbody|].
  rewrite Hbody. simpl. rewrite verifier_runs_app. simpl.
  apply app_nil_r.
Qed.

Lemma empty_reply_moves_on_witness :
  verifier_runs 2
    (trace (state_of
              (loop_body (reply_once None) always_rejects
                 "system" "task" "reflexc" false 2
                 (LoopState (Some "reflex a {}") [] EmptyString [] []))))
  = [].
Proof.
  refine (proj2 (empty_reply_moves_on (reply_once None) always_rejects
                   "system" "task" "reflexc" false 2
                   (LoopState (Some "reflex a {}") [] EmptyString [] []) _)).
  left. reflexivity.
Defined.

(** Against C5 as worded: in this session the model gives no reply at the
    second iteration, there is code from the first, and the compiler is not
    run at the second iteration. *)
Lemma empty_reply_skips_compile :
  let r := agent_loop (reply_once None) always_rejects ready_session 2 false in
  verifier_runs 1 (trace (final_state r)) = [ "reflex a {}" ]
  /\ current_code (final_state r) = Some "reflex a {}"
  /\ verifier_runs 2 (trace (final_state r)) = [].
Proof. repeat split; vm_compute; reflexivity. Qed.

(** ** The compiler that is not there *)

(** The compiler is not found exactly when it is not at its expected place
    (or is not executable there) and [which reflexc] fails. *)
Lemma detect_reflexc_path_missing (p : platform) :
  detect_reflexc_path p = None <->
  exists_and_executable p (expected_reflexc_path p) = false
  /\ (which_reflexc p).1 ≠ 0%Z.
Proof.
  unfold detect_reflexc_path, expected_reflexc_path. cbv zeta.
  destruct (exists_and_executable p _).
  - split; [discriminate|by intros [? _]].
  - destruct (which_reflexc p) as [returncode stdout]. cbn [fst].
    destruct (Z.eqb_spec returncode 0); split; try done.
    by intros [_ ?].
Qed.

Lemma agent_loop_without_reflexc
    (call_vllm : Z -> list turn -> option string)
    (subprocess_run : Z -> string -> process_result)
    (env : session) (max_iterations : Z) (simple_mode : bool) :
  detect_reflexc_path (host_platform env) = None ->
  agent_loop call_vllm subprocess_run env max_iterations simple_mode = fatal.
Proof.
  intros Hdetect. unfold agent_loop. rewrite Hdetect.
  destruct (if simple_mode then _ else _); [|done].
  destruct (option_map PyStr.strip (prompt_file env)); [|done].
  by destruct (vllm_health env).
Qed.

(** C3 (as the code has it).  When the compiler is not at the place expected
    for the machine (or is not executable there) and [which reflexc] fails,
    no compiler is detected and the session ends at once with result 1,
    before the loop, and the model is never asked; and this is the only way
    no compiler is detected.  Once the loop runs, a compiler that cannot be
    found when it is invoked is an ordinary failed compile: [run_reflexc]
    reports failure with the text "Error: reflexc not found at" and the
    path, and the pass ends like any failed pass, with the next iteration to
    follow. *)
Theorem missing_compiler
    (call_vllm : Z -> list turn -> option string)
    (subprocess_run : Z -> string -> process_result)
    (env : session) (max_iterations : Z) (simple_mode : bool) :
  exists_and_executable (host_platform env)
    (expected_reflexc_path (host_platform env)) = false ->
  (which_reflexc (host_platform env)).1 ≠ 0%Z ->
  let r := agent_loop call_vllm subprocess_run env max_iterations simple_mode in
  exit_code r = 1%Z
  /\ outcome_of r = FatalError
  /\ trace (final_state r) = []
  /\ oracle_calls (trace (final_state r)) = 0%nat
  /\ detect_reflexc_path (host_platform env) = None
  /\ (forall p : platform,
        detect_reflexc_path p = None ->
        exists_and_executable p (expected_reflexc_path p) = false
        /\ (which_reflexc p).1 ≠ 0%Z)
  /\ (forall reflexc,
        run_reflexc reflexc FileNotFoundError
        = (false, "Error: reflexc not found at " +:+ reflexc))
  /\ (forall system_prompt user_prompt reflexc iteration st,
        (forall code, subprocess_run iteration code = FileNotFoundError) ->
        exists st',
          loop_body call_vllm subprocess_run system_prompt user_prompt
            reflexc simple_mode iteration st = NextIteration st').
Proof.
  intros Hpath Hwhich r. subst r.
  assert (Hdetect : detect_reflexc_path (host_platform env) = None)
    by (by apply detect_reflexc_path_missing).
  rewrite agent_loop_without_reflexc by exact Hdetect.
  do 4 (split; [reflexivity|]). split; [exact Hdetect|].
  split; [intros p; apply detect_reflexc_path_missing|].
  split; [reflexivity|].
  intros system_prompt user_prompt reflexc iteration st Hgone.
  unfold loop_body.
  destruct (call_vllm iteration _) as [response|]; [|eauto].
  destruct (PyStr.truthy response); cbn [negb]; [|eauto].
  destruct (match extracted_code response with
            | Some code => Some code
            | None => current_code st
            end) as [code|]; [|eauto].
  rewrite Hgone. simpl. eauto.
Qed.

Lemma missing_compiler_witness :
  exists_and_executable machine_with_tools_only "/usr/bin/which" = true
  /\ outcome_of
       (agent_loop (reply_once None) always_rejects session_with_tools_only 5
          false)
     = FatalError.
Proof.
  split; [reflexivity|].
  refine (proj1 (proj2
    (missing_compiler (reply_once None) always_rejects
       session_with_tools_only 5 false _ _))).
  - reflexivity.
  - simpl. discriminate.
Defined.

(** Against C3 as worded: in this session the compiler was found at the
    start and is gone whenever it is run; the loop does not stop at the
    first failed run but asks the model again and runs out of iterations. *)
Lemma compiler_gone_is_retried :
  let r :=
    agent_loop (reply_once (Some (fenced "reflex b {}"))) binary_gone
      ready_session 2 false in
  outcome_of r = ExhaustedIterations
  /\ oracle_calls (trace (final_state r)) = 2%nat
  /\ verifier_runs 1 (trace (final_state r)) = [ "reflex a {}" ]
  /\ verifier_runs 2 (trace (final_state r)) = [ "reflex b {}" ]
  /\ compiler_output (final_state r)
     = "Error: reflexc not found at /home/thinkcircuits/Reflexible/reflexible-platforms/tools/reflexc/bin/reflexc".
Proof. repeat split; vm_compute; reflexivity. Qed.

(** * Further properties *)

(** ** The error parser, line by line *)

Lemma parse_lines_flush (lines : list string) :
  parse_lines lines = flush (fold_left parse_line lines ([], None)).
Proof.
  unfold parse_lines, flush.
  by destruct (fold_left parse_line lines ([], None)) as [errors [e|]].
Qed.

Lemma parse_line_heads (st : parse_state) (line : string) :
  error_head <$> flush (parse_line st line)
  = (error_head <$> flush st)
    ++ match line_head line with Some h => [h] | None => [] end.
Proof.
  destruct st as [errors current]. unfold parse_line, line_head, flush.
  destruct (Re.rmatch error_pattern line) as [m|]; cbn [fst snd].
  - destruct current as [e|]; rewrite !fmap_app; reflexivity.
  - rewrite app_nil_r. destruct current as [e|]; [|reflexivity].
    destruct (PyStr.startswith "Suggestion:" (PyStr.strip line)).
    + destruct (PyStr.after_first "Suggestion:" line); cbn [fst snd];
        by rewrite ?fmap_app.
    + destruct (PyStr.truthy (PyStr.strip line)
                && negb (PyStr.startswith " " line)); cbn [fst snd];
        by rewrite ?fmap_app.
Qed.

Lemma fold_parse_line_heads (lines : list string) (st : parse_state) :
  error_head <$> flush (fold_left parse_line lines st)
  = (error_head <$> flush st) ++ omap line_head lines.
Proof.
  revert st; induction lines as [|line lines IH]; intros st;
    cbn [fold_left omap list_omap].
  - by rewrite app_nil_r.
  - rewrite IH, parse_line_heads, <- app_assoc. f_equal.
    by destruct (line_head line).
Qed.

Lemma parse_errors_heads (compiler_output : string) :
  error_head <$> parse_errors compiler_output
  = omap line_head (PyStr.split_nl (PyStr.strip compiler_output)).
Proof.
  unfold parse_errors.
  by rewrite parse_lines_flush, fold_parse_line_heads.
Qed.

(** X1.  The parser yields one error for each line that matches the error
    pattern, in the order of the lines, and no other; the file, line, column
    and type of each are those of its line, whatever follows it. *)
Theorem parse_errors_one_per_matching_line (compiler_output : string) :
  let lines := PyStr.split_nl (PyStr.strip compiler_output) in
  error_head <$> parse_errors compiler_output = omap line_head lines
  /\ length (parse_errors compiler_output)
     = length (filter (fun l => is_Some (Re.rmatch error_pattern l)) lines).
Proof.
  intros lines.
  assert (Hheads : error_head <$> parse_errors compiler_output
                   = omap line_head lines)
    by apply parse_errors_heads.
  split; [exact Hheads|].
  rewrite <- (length_fmap error_head), Hheads.
  clear Hheads. induction lines as [|l lines IH]; [reflexivity|].
  cbn [omap list_omap]. rewrite filter_cons. unfold line_head at 1.
  destruct (Re.rmatch error_pattern l) as [m|].
  - rewrite decide_True by eauto. simpl. by rewrite IH.
  - rewrite decide_False by (by intros [? ?]). exact IH.
Qed.

Lemma parse_line_no_error_yet (line : string) :
  Re.rmatch error_pattern line = None ->
  parse_line ([], None) line = ([], None).
Proof. intros Hno. unfold parse_line. by rewrite Hno. Qed.

(** X2.  Whatever precedes the first error line is ignored: lines that do
    not match the error pattern, put before the others, change nothing, and
    an output without a matching line yields no error. *)
Theorem parse_lines_ignores_preamble (preamble rest : list string) :
  Forall (fun l => Re.rmatch error_pattern l = None) preamble ->
  parse_lines (preamble ++ rest) = parse_lines rest
  /\ parse_lines preamble = [].
Proof.
  intros Hpre.
  assert (Hfold : fold_left parse_line preamble ([], None) = ([], None)).
  { induction Hpre as [|l ls Hl _ IH]; [reflexivity|].
    cbn [fold_left]. by rewrite parse_line_no_error_yet. }
  split.
  - unfold parse_lines. by rewrite fold_left_app, Hfold.
  - unfold parse_lines. by rewrite Hfold.
Qed.

Lemma parse_lines_ignores_preamble_witness :
  parse_lines ([ "Compiling out.rfx"; "" ] ++ [ "f.x:1:2: error: bad" ])
  = parse_lines [ "f.x:1:2: error: bad" ].
Proof.
  refine (proj1 (parse_lines_ignores_preamble [ "Compiling out.rfx"; "" ]
                   [ "f.x:1:2: error: bad" ] _)).
  repeat constructor.
Defined.

(** ** Suggestion lines *)

Lemma startswith_rstrip (p t : string) :
  PyStr.startswith p (PyStr.rstrip t) = true -> PyStr.startswith p t = true.
Proof.
  revert p; induction t as [|c t IH]; intros p; [done|].
  destruct p as [|a p]; [done|]. cbn [PyStr.rstrip].
  destruct (PyStr.rstrip t) as [|c' r] eqn:Hr.
  - destruct (PyStr.isspace c); [discriminate|].
    cbn [PyStr.startswith]. intros H.
    apply andb_true_iff in H as [-> H]. by destruct p.
  - cbn [PyStr.startswith]. intros H.
    apply andb_true_iff in H as [-> H]. by rewrite IH.
Qed.

Lemma find_lstrip (p s : string) :
  PyStr.startswith p (PyStr.lstrip s) = true ->
  exists i, PyStr.find p s = Some i.
Proof.
  induction s as [|c s IH]; cbn [PyStr.lstrip PyStr.find].
  - intros ->. by exists 0%nat.
  - destruct (PyStr.isspace c).
    + intros H. destruct (IH H) as [i ->].
      destruct (PyStr.startswith p (String c s)); simpl; eauto.
    + intros ->. by exists 0%nat.
Qed.

(** The guard on a suggestion line makes the split safe: a line whose
    stripped text starts with the marker contains the marker. *)
Lemma suggestion_split_defined (line : string) :
  PyStr.startswith "Suggestion:" (PyStr.strip line) = true ->
  exists rest, PyStr.after_first "Suggestion:" line = Some rest.
Proof.
  intros H. apply startswith_rstrip, find_lstrip in H as [i Hi].
  unfold PyStr.after_first. rewrite Hi. eauto.
Qed.

Lemma find_after_spaces (w p rest : string) (a : ascii) :
  all_chars PyStr.isspace w = true ->
  PyStr.isspace a = false ->
  PyStr.find (String a p) (w +:+ String a p +:+ rest)
  = Some (String.length w).
Proof.
  intros Hw Ha. induction w as [|c w IH].
  - change (EmptyString +:+ String a p +:+ rest)
      with (String a p +:+ rest).
    destruct (String a p +:+ rest) eqn:Heq; [discriminate|].
    cbn [PyStr.find]. by rewrite <- Heq, startswith_self.
  - simpl in Hw. apply andb_true_iff in Hw as [Hc Hw].
    change (String c w +:+ String a p +:+ rest)
      with (String c (w +:+ String a p +:+ rest)).
    cbn [PyStr.find PyStr.startswith].
    destruct (Ascii.eqb_spec a c) as [<-|_]; [congruence|].
    cbn [andb]. by rewrite (IH Hw).
Qed.

Lemma str_drop_add (n k : nat) (s : string) :
  PyStr.drop (n + k) s = PyStr.drop k (PyStr.drop n s).
Proof.
  revert s; induction n as [|n IH]; intros s; [done|].
  destruct s as [|c s]; simpl; [by destruct k|apply IH].
Qed.

(** X3.  A line whose stripped text starts with "Suggestion:" and that is
    no error line always splits at the marker, and it sets the suggestion of
    the open error to the stripped text after the first marker, replacing
    any earlier suggestion and leaving the other fields alone; without an
    open error it is ignored.  For a line made of white space, the marker
    and a text, the suggestion is that text, stripped. *)
Theorem suggestion_line_sets_suggestion (errors : list Err.t) (e : Err.t)
    (line : string) :
  Re.rmatch error_pattern line = None ->
  PyStr.startswith "Suggestion:" (PyStr.strip line) = true ->
  exists rest,
    PyStr.after_first "Suggestion:" line = Some rest
    /\ parse_line (errors, Some e) line
       = (errors, Some (with_suggestion e (PyStr.strip rest)))
    /\ parse_line (errors, None) line = (errors, None)
    /\ (forall w text,
          line = w +:+ "Suggestion:" +:+ text ->
          all_chars PyStr.isspace w = true -> rest = text).
Proof.
  intros Hno Hsug.
  destruct (suggestion_split_defined line Hsug) as [rest Hrest].
  exists rest. split; [exact Hrest|]. split; [|split].
  - unfold parse_line. by rewrite Hno, Hsug, Hrest.
  - unfold parse_line. by rewrite Hno.
  - intros w text -> Hw. unfold PyStr.after_first in Hrest.
    rewrite (find_after_spaces w "uggestion:" text "S" Hw eq_refl) in Hrest.
    injection Hrest as <-.
    rewrite str_drop_add, drop_app_length.
    exact (drop_app_length "Suggestion:" text).
Qed.

Lemma suggestion_line_sets_suggestion_witness :
  parse_line ([], Some (Err.Make "f.x" 1 2 "error" "bad" (Some "old")))
    "   Suggestion: add ;  "
  = ([], Some (Err.Make "f.x" 1 2 "error" "bad" (Some "add ;"))).
Proof.
  destruct (suggestion_line_sets_suggestion []
              (Err.Make "f.x" 1 2 "error" "bad" (Some "old"))
              "   Suggestion: add ;  ") as (rest & Hrest & Hline & _).
  - vm_compute; reflexivity.
  - vm_compute; reflexivity.
  - rewrite Hline. vm_compute in Hrest. injection Hrest as <-.
    vm_compute. reflexivity.
Defined.

(** ** The matcher: what a match leaves in the groups *)

Section Frame.

Implicit Types (k : Re.cont) (s : string) (caps : Re.groups)
  (m : Re.match_obj).

Lemma frame_refl (r : Re.re) caps : frame r caps caps.
Proof. by intros i _. Qed.

Lemma frame_rounds (r : Re.re) caps caps' caps'' :
  frame r caps caps' -> frame r caps' caps'' -> frame r caps caps''.
Proof. intros H1 H2 i Hi. by rewrite H2, H1. Qed.

(** The invariant of the two loops of a quantifier, for a body that keeps
    to its groups. *)
Definition keeps_frame (r : Re.re) : Prop :=
  forall pos s caps k m,
    Re.exec r pos s caps k = Some m ->
    exists pos' s' caps',
      k pos' s' caps' = Some m /\ frame r caps caps'.

Lemma greedy_rounds_frame (r : Re.re) k (fuel pos : nat) s caps m :
  keeps_frame r ->
  Re.greedy_rounds (Re.exec r) k fuel pos s caps = Some m ->
  exists pos' s' caps', k pos' s' caps' = Some m /\ frame r caps caps'.
Proof.
  intros Hr. revert pos s caps; induction fuel as [|fuel IH];
    intros pos s caps; cbn [Re.greedy_rounds].
  - intros H. exists pos, s, caps. split; [done|apply frame_refl].
  - destruct (Re.exec r pos s caps _) as [m'|] eqn:Hbody.
    + intros [= ->].
      apply Hr in Hbody as (pos1 & s1 & caps1 & Hk & Hf1).
      destruct (pos <? pos1)%nat; [|discriminate].
      apply IH in Hk as (pos2 & s2 & caps2 & Hk & Hf2).
      exists pos2, s2, caps2. split; [done|by eapply frame_rounds].
    + intros H. exists pos, s, caps. split; [done|apply frame_refl].
Qed.

Lemma lazy_rounds_frame (r : Re.re) k (fuel pos : nat) s caps m :
  keeps_frame r ->
  Re.lazy_rounds (Re.exec r) k fuel pos s caps = Some m ->
  exists pos' s' caps', k pos' s' caps' = Some m /\ frame r caps caps'.
Proof.
  intros Hr. revert pos s caps; induction fuel as [|fuel IH];
    intros pos s caps; cbn [Re.lazy_rounds];
    (destruct (k pos s caps) as [m'|] eqn:Hk;
     [intros [= ->]; exists pos, s, caps; split; [done|apply frame_refl]|]).
  - discriminate.
  - intros Hbody.
    apply Hr in Hbody as (pos1 & s1 & caps1 & Hk1 & Hf1).
    destruct (pos <? pos1)%nat; [|discriminate].
    apply IH in Hk1 as (pos2 & s2 & caps2 & Hk2 & Hf2).
    exists pos2, s2, caps2. split; [done|by eapply frame_rounds].
Qed.

(** A match hands over to the continuation with groups changed only where
    the pattern has groups. *)
Lemma exec_frame (r : Re.re) : keeps_frame r.
Proof.
  induction r as [ |c| | |p|r1 IH1 r2 IH2|r IH|r IH|i r IH| | ];
    intros pos s caps k m; cbn [Re.exec].
  - intros H. exists pos, s, caps. split; [done|apply frame_refl].
  - destruct s as [|c' s']; [discriminate|].
    destruct (Ascii.eqb c c'); [|discriminate].
    intros H. exists (S pos), s', caps. split; [done|apply frame_refl].
  - destruct s as [|c' s']; [discriminate|].
    destruct (Ascii.eqb c' PyStr.nl_char); [discriminate|].
    intros H. exists (S pos), s', caps. split; [done|apply frame_refl].
  - destruct s as [|c' s']; [discriminate|].
    intros H. exists (S pos), s', caps. split; [done|apply frame_refl].
  - destruct s as [|c' s']; [discriminate|].
    destruct (p c'); [|discriminate].
    intros H. exists (S pos), s', caps. split; [done|apply frame_refl].
  - intros H. apply IH1 in H as (pos1 & s1 & caps1 & H & Hf1).
    apply IH2 in H as (pos2 & s2 & caps2 & H & Hf2).
    exists pos2, s2, caps2. split; [done|].
    intros i Hi. cbn [group_ids] in Hi.
    assert (Hi1 : i ∉ group_ids r1)
      by (intros ?; apply Hi, elem_of_app; auto).
    assert (Hi2 : i ∉ group_ids r2)
      by (intros ?; apply Hi, elem_of_app; auto).
    by rewrite Hf2, Hf1.
  - intros H. by apply greedy_rounds_frame in H.
  - intros H. by apply lazy_rounds_frame in H.
  - intros H. apply IH in H as (pos1 & s1 & caps1 & H & Hf1).
    eexists _, _, _. split; [exact H|].
    intros j Hj. cbn [group_ids] in Hj.
    assert (Hne : i ≠ j) by (intros ->; apply Hj; left).
    assert (Hj' : j ∉ group_ids r) by (intros ?; apply Hj; by right).
    unfold Re.groups in *. rewrite lookup_insert_ne by done.
    by apply Hf1.
  - destruct (pos =? 0)%nat; [|discriminate].
    intros H. exists pos, s, caps. split; [done|apply frame_refl].
  - destruct (_ || _); [|discriminate].
    intros H. exists pos, s, caps. split; [done|apply frame_refl].
Qed.

(** A greedy run over a class hands over after some characters of the
    class. *)
Lemma try_longest_consumed (p : ascii -> bool) k (pos : nat) s caps m :
  try_longest p k pos s caps = Some m ->
  exists n,
    (n <= String.length s)%nat
    /\ all_chars p (PyStr.take n s) = true
    /\ k (pos + n)%nat (PyStr.drop n s) caps = Some m.
Proof.
  revert pos; induction s as [|c s IH]; intros pos; cbn [try_longest].
  - intros H. exists 0%nat. by rewrite Nat.add_0_r.
  - assert (Hhere : k pos (String c s) caps = Some m ->
                    exists n,
                      (n <= String.length (String c s))%nat
                      /\ all_chars p (PyStr.take n (String c s)) = true
                      /\ k (pos + n)%nat (PyStr.drop n (String c s)) caps
                         = Some m).
    { intros H. exists 0%nat. rewrite Nat.add_0_r.
      split; [simpl; lia|done]. }
    destruct (p c) eqn:Hc; [|exact Hhere].
    destruct (try_longest p k (S pos) s caps) as [m'|] eqn:Hin;
      [|exact Hhere].
    intros [= ->]. apply IH in Hin as (n & Hn & Hall & Hk).
    exists (S n). cbn [PyStr.take PyStr.drop all_chars String.length].
    rewrite Hc, Hall, Nat.add_succ_r. split; [lia|done].
Qed.

Lemma str_length_take (n : nat) s :
  (n <= String.length s)%nat -> String.length (PyStr.take n s) = n.
Proof.
  revert n; induction s as [|c s IH]; intros n Hn.
  - simpl in Hn. by replace n with 0%nat by lia.
  - destruct n as [|n]; [done|]. cbn [PyStr.take String.length].
    rewrite IH; [done|]. simpl in Hn. lia.
Qed.

Lemma exec_plus_class (p : ascii -> bool) k (pos : nat) s caps :
  Re.exec (Re.Plus (Re.Cls p)) pos s caps k
  = match s with
    | String c s' => if p c then try_longest p k (S pos) s' caps else None
    | EmptyString => None
    end.
Proof.
  destruct s as [|c s]; [reflexivity|].
  change (Re.exec (Re.Plus (Re.Cls p)) pos (String c s) caps k)
    with (if p c
          then Re.greedy_rounds (Re.exec (Re.Cls p)) k
                 (S (String.length s)) (S pos) s caps
          else None).
  destruct (p c); [|done]. apply greedy_rounds_class. lia.
Qed.

(** A group around one or more characters of a class captures a non-empty
    run of such characters. *)
Lemma exec_group_plus_class (i : nat) (p : ascii -> bool) k (pos : nat)
    s caps m :
  Re.exec (Re.Group i (Re.Plus (Re.Cls p))) pos s caps k = Some m ->
  exists text s',
    text ≠ EmptyString
    /\ all_chars p text = true
    /\ k (pos + String.length text)%nat s' (<[i := text]> caps) = Some m.
Proof.
  change (Re.exec (Re.Group i (Re.Plus (Re.Cls p))) pos s caps k)
    with (Re.exec (Re.Plus (Re.Cls p)) pos s caps
            (fun pos' s' caps' =>
               k pos' s' (<[i := PyStr.take (pos' - pos) s]> caps'))).
  rewrite exec_plus_class. destruct s as [|c s]; [discriminate|].
  destruct (p c) eqn:Hc; [|discriminate].
  intros H. apply try_longest_consumed in H as (n & Hn & Hall & Hk).
  exists (String c (PyStr.take n s)), (PyStr.drop n s).
  split; [discriminate|]. split; [cbn [all_chars]; by rewrite Hc, Hall|].
  replace (S pos + n - pos)%nat with (S n) in Hk by lia.
  cbn [PyStr.take String.length] in Hk |- *.
  rewrite str_length_take by done.
  by replace (pos + S n)%nat with (S pos + n)%nat by lia.
Qed.

End Frame.

(** ** Line and column numbers *)

Lemma exec_seq (r1 r2 : Re.re) (pos : nat) (s : string) (caps : Re.groups)
    (k : Re.cont) :
  Re.exec (Re.Seq r1 r2) pos s caps k
  = Re.exec r1 pos s caps (fun pos' s' caps' => Re.exec r2 pos' s' caps' k).
Proof. reflexivity. Qed.

Lemma exec_chr (c : ascii) (pos : nat) (s : string) (caps : Re.groups)
    (k : Re.cont) (m : Re.match_obj) :
  Re.exec (Re.Chr c) pos s caps k = Some m ->
  exists s', s = String c s' /\ k (S pos) s' caps = Some m.
Proof.
  cbn [Re.exec]. destruct s as [|c' s']; [discriminate|].
  destruct (Ascii.eqb_spec c c') as [<-|]; [|discriminate]. eauto.
Qed.

Lemma digit_val_range (c : ascii) :
  PyStr.isdigit c = true -> (0 <= PyStr.digit_val c <= 9)%Z.
Proof.
  unfold PyStr.isdigit, PyStr.digit_val. intros H.
  apply andb_true_iff in H as [H1 H2].
  apply N.leb_le in H1, H2. lia.
Qed.

Lemma int_acc_nonneg (t : string) (acc : Z) :
  all_chars PyStr.isdigit t = true -> (0 <= acc)%Z ->
  (0 <= PyStr.int_acc acc t)%Z.
Proof.
  revert acc; induction t as [|c t IH]; intros acc Hall Hacc; [done|].
  cbn [all_chars] in Hall. apply andb_true_iff in Hall as [Hc Hall].
  cbn [PyStr.int_acc]. apply IH; [done|].
  pose proof (digit_val_range c Hc). lia.
Qed.

(** In a match of the error pattern, the second and the third group are
    non-empty runs of decimal digits. *)
Lemma error_pattern_digits (line : string) (m : Re.match_obj) :
  Re.rmatch error_pattern line = Some m ->
  (Re.group m 2 ≠ EmptyString /\ all_chars PyStr.isdigit (Re.group m 2) = true)
  /\ (Re.group m 3 ≠ EmptyString
      /\ all_chars PyStr.isdigit (Re.group m 3) = true).
Proof.
  unfold Re.rmatch, Re.match_at.
  change error_pattern
    with (Re.Seq Re.Bol
            (Re.Seq (Re.Group 1 (Re.Plus Re.Dot))
               (Re.Seq (Re.Chr ":")
                  (Re.Seq (Re.Group 2 (Re.Plus (Re.Cls PyStr.isdigit)))
                     (Re.Seq (Re.Chr ":")
                        (Re.Seq (Re.Group 3 (Re.Plus (Re.Cls PyStr.isdigit)))
                           (Re.Seq (Re.Chr ":") error_pattern_rest))))))).
  rewrite exec_seq. intros H.
  apply exec_frame in H as (pos0 & s0 & caps0 & H & _).
  rewrite exec_seq in H.
  apply exec_frame in H as (pos1 & s1 & caps1 & H & _).
  rewrite exec_seq in H. apply exec_chr in H as (s2 & -> & H).
  rewrite exec_seq in H.
  apply exec_group_plus_class in H as (line_text & s3 & Hl1 & Hl2 & H).
  rewrite exec_seq in H. apply exec_chr in H as (s4 & -> & H).
  rewrite exec_seq in H.
  apply exec_group_plus_class in H as (column_text & s5 & Hc1 & Hc2 & H).
  rewrite exec_seq in H. apply exec_chr in H as (s6 & -> & H).
  apply exec_frame in H as (pos7 & s7 & caps7 & H & Hframe).
  injection H as <-. unfold Re.group. cbn [Re.m_groups].
  unfold frame, Re.groups in *.
  rewrite !Hframe by (cbn; rewrite !elem_of_cons, elem_of_nil; lia).
  rewrite lookup_insert_ne by lia. rewrite !lookup_insert_eq.
  cbn [default]. auto.
Qed.

(** X4.  Every error the parser yields stems from a line that matches the
    error pattern, and its line and column are the values of two non-empty
    runs of decimal digits of that line: they are never negative. *)
Theorem parsed_line_and_column (compiler_output : string) (e : Err.t) :
  e ∈ parse_errors compiler_output ->
  exists l m,
    l ∈ PyStr.split_nl (PyStr.strip compiler_output)
    /\ Re.rmatch error_pattern l = Some m
    /\ Err.line e = PyStr.int (Re.group m 2)
    /\ Err.column e = PyStr.int (Re.group m 3)
    /\ Re.group m 2 ≠ EmptyString /\ Re.group m 3 ≠ EmptyString
    /\ all_chars PyStr.isdigit (Re.group m 2) = true
    /\ all_chars PyStr.isdigit (Re.group m 3) = true
    /\ (0 <= Err.line e)%Z /\ (0 <= Err.column e)%Z.
Proof.
  intros He.
  apply (list_elem_of_fmap_2 error_head) in He.
  rewrite parse_errors_heads in He.
  apply list_elem_of_omap in He as (l & Hl & Hhead).
  unfold line_head in Hhead.
  destruct (Re.rmatch error_pattern l) as [m|] eqn:Hm; [|discriminate].
  injection Hhead as _ Hline Hcol _.
  destruct (error_pattern_digits l m Hm) as [[Hl1 Hl2] [Hc1 Hc2]].
  exists l, m. rewrite <- Hline, <- Hcol.
  repeat split; try done; by apply int_acc_nonneg.
Qed.

Lemma parsed_line_and_column_witness :
  exists l m,
    l ∈ PyStr.split_nl (PyStr.strip "f.x:12:3: error: bad")
    /\ Re.rmatch error_pattern l = Some m
    /\ Err.line (Err.Make "f.x" 12 3 "error" "bad" None)
       = PyStr.int (Re.group m 2).
Proof.
  destruct (parsed_line_and_column "f.x:12:3: error: bad"
              (Err.Make "f.x" 12 3 "error" "bad" None))
    as (l & m & H1 & H2 & H3 & _).
  - vm_compute. left.
  - exists l, m. auto.
Defined.

(** ** The positional scan *)

Lemma balance_cons (c : ascii) (s : string) :
  balance (String c s)
  = ((if Ascii.eqb c "{" then 1 else if Ascii.eqb c "}" then -1 else 0)
     + balance s)%Z.
Proof.
  unfold balance. cbn [count_char].
  destruct (Ascii.eqb_spec c "{") as [->|]; [simpl; lia|].
  destruct (Ascii.eqb c "}"); simpl; lia.
Qed.

(** Where the scan stops: either nowhere, and [end] keeps its value, or
    after a closing brace that brings the count to zero once a brace was
    opened. *)
Lemma scan_braces_stops (s : string) (i : nat) (brace_count : Z)
    (in_code : bool) (end_ : nat) :
  scan_braces s i brace_count in_code end_ = end_
  \/ exists n,
       scan_braces s i brace_count in_code end_ = (i + S n)%nat
       /\ PyStr.take (S n) s = PyStr.take n s +:+ "}"
       /\ (brace_count + balance (PyStr.take (S n) s) = 0)%Z
       /\ (in_code = true
           \/ (0 < count_char "{" (PyStr.take (S n) s))%nat).
Proof.
  revert i brace_count in_code; induction s as [|c s IH];
    intros i brace_count in_code; [by left|].
  assert (Hcons : forall n,
             PyStr.take (S n) s = PyStr.take n s +:+ "}" ->
             PyStr.take (S (S n)) (String c s)
             = PyStr.take (S n) (String c s) +:+ "}").
  { intros n Ht.
    change (String c (PyStr.take (S n) s)
            = String c (PyStr.take n s +:+ "}")).
    by rewrite Ht. }
  assert (Hbal : forall n,
             balance (PyStr.take (S (S n)) (String c s))
             = ((if Ascii.eqb c "{" then 1
                 else if Ascii.eqb c "}" then -1 else 0)
                + balance (PyStr.take (S n) s))%Z)
    by (intros n; apply balance_cons).
  assert (Hcount : forall n,
             (count_char "{" (PyStr.take (S n) s)
              <= count_char "{" (PyStr.take (S (S n)) (String c s)))%nat).
  { intros n.
    change (PyStr.take (S (S n)) (String c s))
      with (String c (PyStr.take (S n) s)).
    cbn [count_char]. lia. }
  cbn [scan_braces].
  destruct (Ascii.eqb_spec c "{") as [->|Hopen].
  - destruct (IH (S i) (brace_count + 1)%Z true)
      as [->|(n & -> & Ht & Hb & _)]; [by left|right].
    exists (S n). split; [lia|]. split; [by apply Hcons|].
    rewrite Hbal. split; [lia|]. right.
    change (PyStr.take (S (S n)) (String "{" s))
      with (String "{"%char (PyStr.take (S n) s)).
    cbn [count_char]. rewrite Ascii.eqb_refl. lia.
  - destruct (Ascii.eqb_spec c "}") as [->|Hclose].
    + destruct (in_code && (brace_count - 1 =? 0)%Z) eqn:Hstop.
      * right. exists 0%nat. apply andb_true_iff in Hstop as [-> Hz].
        apply Z.eqb_eq in Hz. split; [lia|].
        split; [done|]. split; [|by left].
        change (PyStr.take 1 (String "}" s)) with "}".
        change (balance "}") with (-1)%Z. lia.
      * destruct (IH (S i) (brace_count - 1)%Z in_code)
          as [->|(n & -> & Ht & Hb & Hin)]; [by left|right].
        exists (S n). split; [lia|]. split; [by apply Hcons|].
        rewrite Hbal. split; [lia|].
        destruct Hin as [->|Hin]; [by left|right].
        pose proof (Hcount n). lia.
    + destruct (IH (S i) brace_count in_code)
        as [->|(n & -> & Ht & Hb & Hin)]; [by left|right].
      exists (S n). split; [lia|]. split; [by apply Hcons|].
      rewrite Hbal.
      destruct (Ascii.eqb_spec c "{"); [done|].
      destruct (Ascii.eqb_spec c "}"); [done|].
      split; [lia|].
      destruct Hin as [->|Hin]; [by left|right].
      pose proof (Hcount n). lia.
Qed.

Lemma append_assoc (a b c : string) : (a +:+ b) +:+ c = a +:+ b +:+ c.
Proof.
  induction a as [|x a IH]; [done|].
  change (String x ((a +:+ b) +:+ c) = String x (a +:+ b +:+ c)).
  by rewrite IH.
Qed.

Lemma rstrip_app_nonspace (p : string) (c : ascii) (t : string) :
  PyStr.isspace c = false ->
  PyStr.rstrip (p +:+ String c t) = p +:+ String c (PyStr.rstrip t).
Proof.
  intros Hc. induction p as [|a p IH].
  - change (EmptyString +:+ String c t) with (String c t).
    cbn [PyStr.rstrip]. rewrite Hc. by destruct (PyStr.rstrip t).
  - change (String a p +:+ String c t) with (String a (p +:+ String c t)).
    cbn [PyStr.rstrip]. rewrite IH. by destruct p.
Qed.

Lemma startswith_split (p s : string) :
  PyStr.startswith p s = true ->
  s = p +:+ PyStr.drop (String.length p) s.
Proof.
  revert s; induction p as [|a p IH]; intros s; [done|].
  destruct s as [|b s]; [discriminate|]. cbn [PyStr.startswith].
  intros H. apply andb_true_iff in H as [Hab H].
  apply Ascii.eqb_eq in Hab as ->.
  change (String b s = String b (p +:+ PyStr.drop (String.length p) s)).
  f_equal. by apply IH.
Qed.

Lemma find_startswith (p s : string) (i : nat) :
  PyStr.find p s = Some i -> PyStr.startswith p (PyStr.drop i s) = true.
Proof.
  revert i; induction s as [|c s IH]; intros i; cbn [PyStr.find].
  - destruct (PyStr.startswith p EmptyString) eqn:H; [|discriminate].
    by intros [= <-].
  - destruct (PyStr.startswith p (String c s)) eqn:H.
    + by intros [= <-].
    + destruct (PyStr.find p s) as [j|]; [|discriminate].
      intros [= <-]. by apply IH.
Qed.

Lemma str_take_drop (n : nat) (s : string) :
  PyStr.take n s +:+ PyStr.drop n s = s.
Proof.
  revert s; induction n as [|n IH]; intros s; [done|].
  destruct s as [|c s]; [done|].
  change (String c (PyStr.take n s +:+ PyStr.drop n s) = String c s).
  by rewrite IH.
Qed.

(** X5.  What the positional scan yields is a piece of the reply, as it
    stands there: it begins at the first "reflex " of the reply, with that
    keyword, and ends with a closing brace; it has at least one opening
    brace and as many closing braces as opening ones. *)
Theorem positional_extract_shape (response code : string) :
  extract_positional response = Some code ->
  exists start middle post,
    PyStr.find "reflex " response = Some start
    /\ code = "reflex " +:+ middle +:+ "}"
    /\ PyStr.drop start response = code +:+ post
    /\ count_char "{" code = count_char "}" code
    /\ (0 < count_char "{" code)%nat.
Proof.
  unfold extract_positional.
  destruct (PyStr.contains "reflex " response); [|discriminate].
  destruct (PyStr.find "reflex " response) as [start|] eqn:Hfind;
    [|discriminate].
  pose proof (find_startswith _ _ _ Hfind) as Hkey.
  apply startswith_split in Hkey.
  set (rest := PyStr.drop (String.length "reflex ")
                 (PyStr.drop start response)) in Hkey.
  rewrite Hkey.
  change (scan_braces ("reflex " +:+ rest) start 0 false start)
    with (scan_braces rest (7 + start) 0 false start).
  destruct (scan_braces_stops rest (7 + start) 0 false start)
    as [->|(n & -> & Htake & Hbal & Hopen)].
  - rewrite Nat.ltb_irrefl. discriminate.
  - replace (start <? 7 + start + S n)%nat with true
      by (symmetry; apply Nat.ltb_lt; lia).
    replace (7 + start + S n - start)%nat with (7 + S n)%nat by lia.
    change (PyStr.take (7 + S n) ("reflex " +:+ rest))
      with ("reflex " +:+ PyStr.take (S n) rest).
    rewrite Htake.
    assert (Hstrip : PyStr.strip ("reflex " +:+ PyStr.take n rest +:+ "}")
                     = "reflex " +:+ PyStr.take n rest +:+ "}").
    { unfold PyStr.strip.
      change (PyStr.lstrip ("reflex " +:+ PyStr.take n rest +:+ "}"))
        with ("reflex " +:+ PyStr.take n rest +:+ "}").
      pose proof (rstrip_app_nonspace ("reflex " +:+ PyStr.take n rest)
                    "}" EmptyString eq_refl) as Hr.
      rewrite append_assoc in Hr. exact Hr. }
    rewrite Hstrip. intros [= <-].
    exists start, (PyStr.take n rest), (PyStr.drop (S n) rest).
    split; [done|]. split; [done|].
    destruct Hopen as [Hopen|Hopen]; [discriminate|].
    unfold balance in Hbal. rewrite Htake in Hbal, Hopen.
    split; [|split].
    + rewrite <- Htake, append_assoc, str_take_drop. exact Hkey.
    + change (count_char "{" ("reflex " +:+ PyStr.take n rest +:+ "}"))
        with (count_char "{" (PyStr.take n rest +:+ "}")).
      change (count_char "}" ("reflex " +:+ PyStr.take n rest +:+ "}"))
        with (count_char "}" (PyStr.take n rest +:+ "}")).
      lia.
    + exact Hopen.
Qed.

Lemma positional_extract_shape_witness :
  exists start middle post,
    PyStr.find "reflex " "so: reflex a { b } ok" = Some start
    /\ "reflex a { b }" = "reflex " +:+ middle +:+ "}"
    /\ PyStr.drop start "so: reflex a { b } ok" = "reflex a { b }" +:+ post
    /\ count_char "{" "reflex a { b }" = count_char "}" "reflex a { b }"
    /\ (0 < count_char "{" "reflex a { b }")%nat.
Proof.
  apply (positional_extract_shape "so: reflex a { b } ok" "reflex a { b }").
  vm_compute. reflexivity.
Defined.

Lemma contains_char_cons (c a : ascii) (s : string) :
  PyStr.contains (String c EmptyString) (String a s) = false ->
  Ascii.eqb c a = false
  /\ PyStr.contains (String c EmptyString) s = false.
Proof.
  change (PyStr.contains (String c EmptyString) (String a s))
    with ((Ascii.eqb c a && true)
          || PyStr.contains (String c EmptyString) s).
  intros H. apply orb_false_iff in H as [H1 H2].
  by rewrite andb_true_r in H1.
Qed.

Lemma scan_braces_never_closed (s : string) (i : nat) (brace_count : Z)
    (in_code : bool) (end_ : nat) :
  PyStr.contains "}" s = false ->
  scan_braces s i brace_count in_code end_ = end_.
Proof.
  revert i brace_count in_code; induction s as [|c s IH];
    intros i brace_count in_code Hno; [done|].
  apply contains_char_cons in Hno as [Hc Hno]. cbn [scan_braces].
  rewrite (Ascii.eqb_sym c "}"), Hc.
  destruct (Ascii.eqb c "{"); by apply IH.
Qed.

Lemma scan_braces_never_opened (s : string) (i : nat) (brace_count : Z)
    (end_ : nat) :
  PyStr.contains "{" s = false ->
  scan_braces s i brace_count false end_ = end_.
Proof.
  revert i brace_count; induction s as [|c s IH];
    intros i brace_count Hno; [done|].
  apply contains_char_cons in Hno as [Hc Hno]. cbn [scan_braces].
  rewrite (Ascii.eqb_sym c "{"), Hc. cbn [andb].
  destruct (Ascii.eqb c "}"); by apply IH.
Qed.

Lemma find_none_contains (p s : string) :
  PyStr.contains p s = false -> PyStr.find p s = None.
Proof.
  induction s as [|c s IH]; cbn [PyStr.contains PyStr.find]; intros H;
    apply orb_false_iff in H as [-> H]; [done|].
  by rewrite IH.
Qed.

(** X6.  No candidate is made up.  In a reply without a fence the answer is
    the positional scan's, and the scan yields nothing when the reply has no
    "reflex " keyword, or no opening brace after the first keyword, or no
    closing brace after it. *)
Theorem nothing_extracted_without_program (response : string) :
  PyStr.contains "```" response = false ->
  PyStr.contains "reflex " response = false
  \/ (exists start,
        PyStr.find "reflex " response = Some start
        /\ (PyStr.contains "{" (PyStr.drop start response) = false
            \/ PyStr.contains "}" (PyStr.drop start response) = false)) ->
  extract_code_from_response (Some response) = None.
Proof.
  intros Hfence Hscan.
  assert (Htag : extract_tagged response = None).
  { unfold extract_tagged, Re.search.
    change tagged_fence_pattern
      with (Re.Seq (Re.Lit "```reflexscript")
              (Re.Seq (Re.Star Re.ws) fence_body)).
    rewrite fence_search_none; [done|].
    destruct (PyStr.contains "```reflexscript" response) eqn:H; [|done].
    apply (contains_app "```" "reflexscript") in H. congruence. }
  assert (Hgen : extract_generic response = None).
  { unfold extract_generic, Re.search.
    change generic_fence_pattern
      with (Re.Seq (Re.Lit "```") (Re.Seq (Re.Star Re.ws) fence_body)).
    by rewrite fence_search_none. }
  assert (Hpos : extract_positional response = None).
  { unfold extract_positional.
    destruct Hscan as [Hkey|(start & Hfind & Hbrace)].
    - by rewrite Hkey.
    - rewrite Hfind.
      destruct (PyStr.contains "reflex " response); [|done].
      destruct Hbrace as [Hopen|Hclose].
      + rewrite scan_braces_never_opened by done.
        by rewrite Nat.ltb_irrefl.
      + rewrite scan_braces_never_closed by done.
        by rewrite Nat.ltb_irrefl. }
  destruct response as [|c response]; [reflexivity|].
  rewrite extract_code_nonempty by reflexivity.
  by rewrite Htag, Hgen, Hpos.
Qed.

Lemma nothing_extracted_without_program_witness :
  extract_code_from_response (Some "Sorry: reflex a { never closes") = None.
Proof.
  apply nothing_extracted_without_program.
  - vm_compute; reflexivity.
  - right. exists 7%nat. split; [vm_compute; reflexivity|].
    right. vm_compute; reflexivity.
Defined.

(** ** Extracted code is stripped *)

Lemma rstrip_idempotent (s : string) :
  PyStr.rstrip (PyStr.rstrip s) = PyStr.rstrip s.
Proof.
  induction s as [|c s IH]; [done|]. cbn [PyStr.rstrip].
  destruct (PyStr.rstrip s) as [|c' r] eqn:Hr.
  - destruct (PyStr.isspace c) eqn:Hc; [done|].
    cbn [PyStr.rstrip]. by rewrite Hc.
  - cbn [PyStr.rstrip] in IH |- *. by rewrite IH.
Qed.

Lemma rstrip_keeps_head (c : ascii) (s : string) :
  PyStr.isspace c = false ->
  PyStr.rstrip (String c s) = String c (PyStr.rstrip s).
Proof.
  intros Hc. cbn [PyStr.rstrip]. rewrite Hc.
  by destruct (PyStr.rstrip s).
Qed.

Lemma lstrip_head (s : string) :
  PyStr.lstrip s = EmptyString
  \/ exists c t, PyStr.lstrip s = String c t /\ PyStr.isspace c = false.
Proof.
  induction s as [|c s IH]; [by left|]. cbn [PyStr.lstrip].
  destruct (PyStr.isspace c) eqn:Hc; [exact IH|right; eauto].
Qed.

Lemma strip_idempotent (s : string) :
  PyStr.strip (PyStr.strip s) = PyStr.strip s.
Proof.
  unfold PyStr.strip.
  destruct (lstrip_head s) as [->|(c & t & -> & Hc)]; [done|].
  rewrite (rstrip_keeps_head c t Hc). cbn [PyStr.lstrip]. rewrite Hc.
  rewrite <- (rstrip_keeps_head c t Hc). apply rstrip_idempotent.
Qed.

(** X7.  Code that is extracted, by whichever strategy, has no white space
    at either end: stripping it again changes nothing. *)
Theorem extracted_code_is_stripped (response : option string) (code : string) :
  extract_code_from_response response = Some code ->
  PyStr.strip code = code.
Proof.
  unfold extract_code_from_response.
  destruct response as [response|]; [|discriminate].
  destruct (PyStr.truthy response); [|discriminate]. cbn [negb].
  unfold extract_tagged, extract_generic, extract_positional.
  destruct (Re.search tagged_fence_pattern response) as [m|].
  { intros [= <-]. apply strip_idempotent. }
  destruct (Re.search generic_fence_pattern response) as [m|].
  { cbv zeta. destruct (PyStr.contains "reflex " (PyStr.strip (Re.group m 1))).
    - intros [= <-]. apply strip_idempotent.
    - destruct (PyStr.contains "reflex " response); [|discriminate].
      destruct (PyStr.find "reflex " response) as [start|]; [|discriminate].
      destruct (_ <? _)%nat; [|discriminate].
      intros [= <-]. apply strip_idempotent. }
  destruct (PyStr.contains "reflex " response); [|discriminate].
  destruct (PyStr.find "reflex " response) as [start|]; [|discriminate].
  destruct (_ <? _)%nat; [|discriminate].
  intros [= <-]. apply strip_idempotent.
Qed.

Lemma extracted_code_is_stripped_witness :
  PyStr.strip "reflex a { x }" = "reflex a { x }".
Proof.
  apply (extracted_code_is_stripped (Some reply_with_both)).
  vm_compute. reflexivity.
Defined.

(** ** The loop, pass by pass *)

Lemma run_reflexc_success (reflexc : string) (result : process_result) :
  (run_reflexc reflexc result).1 = compiles_cleanly result.
Proof. by destruct result. Qed.

Section Passes.

Variable call_vllm : Z -> list turn -> option string.
Variable subprocess_run : Z -> string -> process_result.
Variables system_prompt user_prompt reflexc : string.
Variable simple_mode : bool.

Abbreviation body' :=
  (loop_body call_vllm subprocess_run system_prompt user_prompt reflexc
     simple_mode).
Abbreviation history' := (build_history system_prompt user_prompt simple_mode).
Abbreviation loop' :=
  (for_loop call_vllm subprocess_run system_prompt user_prompt reflexc
     simple_mode).
Abbreviation steady := (between_passes subprocess_run system_prompt user_prompt).

(** The ways through the body.  Without a reply, or without any code, the
    pass ends after the request and the state keeps its code, errors and
    compiler output; a reply without code is kept in the history only to be
    dropped when the next pass starts afresh.  Otherwise the code (new, or
    the old one again) is written and compiled, and the pass returns 0 or
    goes on, as the compile is clean or not. *)
Lemma loop_body_cases (iteration : Z) (st : loop_state) :
  let messages := history' st in
  (exists hist,
      body' iteration st
      = NextIteration
          (LoopState (current_code st) (errors st) (compiler_output st) hist
             (trace st ++ [ CallVllm iteration messages ]))
      /\ (hist = messages
          \/ (current_code st = None
              /\ exists response,
                   call_vllm iteration messages = Some response
                   /\ extracted_code response = None
                   /\ hist = messages ++ [ Turn "assistant" response ])))
  \/ (exists response code errs output,
        call_vllm iteration messages = Some response
        /\ (extracted_code response = Some code
            \/ (extracted_code response = None
                /\ current_code st = Some code))
        /\ let st' :=
             LoopState (Some code) errs output
               (messages ++ [ Turn "assistant" response ])
               (trace st ++ [ CallVllm iteration messages;
                              WriteRfxFile iteration code;
                              RunReflexc iteration code ]) in
           (compiles_cleanly (subprocess_run iteration code) = true
            /\ body' iteration st = Return 0 st')
           \/ (compiles_cleanly (subprocess_run iteration code) = false
               /\ output = (run_reflexc reflexc
                              (subprocess_run iteration code)).2
               /\ errs = parse_errors output
               /\ body' iteration st = NextIteration st')).
Proof.
  intros messages. subst messages. unfold loop_body.
  destruct (call_vllm iteration (history' st)) as [response|] eqn:Hreply;
    [|left; eexists; split; [reflexivity|by left]].
  destruct (PyStr.truthy response); cbn [negb];
    [|left; eexists; split; [reflexivity|by left]].
  destruct (extracted_code response) as [code|] eqn:Hcode.
  - right.
    pose proof (run_reflexc_success reflexc (subprocess_run iteration code))
      as Hrun.
    destruct (run_reflexc reflexc (subprocess_run iteration code))
      as [success output] eqn:Hrr.
    cbn [fst] in Hrun.
    exists response, code,
      (if success then errors st else parse_errors output), output.
    split; [reflexivity|]. split; [by left|].
    cbv zeta. rewrite <- Hrun, <- !app_assoc, Hrr.
    destruct success; [left|right]; repeat split; reflexivity.
  - destruct (current_code st) as [code|] eqn:Hcur.
    + right.
      pose proof (run_reflexc_success reflexc (subprocess_run iteration code))
        as Hrun.
      destruct (run_reflexc reflexc (subprocess_run iteration code))
        as [success output] eqn:Hrr.
      cbn [fst] in Hrun.
      exists response, code,
        (if success then errors st else parse_errors output), output.
      split; [reflexivity|]. split; [right; by split|].
      cbv zeta. rewrite <- Hrun, <- !app_assoc, Hrr.
      destruct success; [left|right]; repeat split; reflexivity.
    + left. eexists. split; [reflexivity|]. right. split; [done|]. eauto.
Qed.

Lemma file_content_app (tr1 tr2 : list event) :
  file_content (tr1 ++ tr2)
  = match file_content tr2 with
    | Some code => Some code
    | None => file_content tr1
    end.
Proof.
  unfold file_content. rewrite flat_map_app.
  destruct (flat_map _ tr2) as [|c l] using rev_ind.
  - by rewrite app_nil_r.
  - by rewrite app_assoc, !last_snoc.
Qed.

Lemma requests_app (tr1 tr2 : list event) :
  requests (tr1 ++ tr2) = requests tr1 ++ requests tr2.
Proof. apply flat_map_app. Qed.

(** Every conversation sent starts with the two prompts and ends with a
    user turn. *)
Lemma history_shape (st : loop_state) :
  steady st ->
  (exists rest,
      history' st
      = Turn "system" system_prompt :: Turn "user" user_prompt :: rest)
  /\ exists init content, history' st = init ++ [ Turn "user" content ].
Proof.
  intros (_ & _ & Hconv). unfold build_history.
  destruct (current_code st) as [code|].
  - destruct Hconv as [rest ->]; [done|]. split.
    + eexists. rewrite <- !app_comm_cons. reflexivity.
    + eauto.
  - split; [by exists []|].
    by exists [ Turn "system" system_prompt ], user_prompt.
Qed.

(** What one pass does to a state between passes. *)
Lemma loop_body_steady (iteration : Z) (st : loop_state) :
  steady st ->
  match body' iteration st with
  | NextIteration st' =>
      steady st'
      /\ (exists evs,
            pass_events iteration evs /\ trace st' = trace st ++ evs
            /\ requests evs = [ history' st ])
      /\ history' st `prefix_of` history' st'
  | Return code st' =>
      code = 0%Z
      /\ exists c,
           trace st'
           = trace st ++ [ CallVllm iteration (history' st);
                           WriteRfxFile iteration c; RunReflexc iteration c ]
           /\ compiles_cleanly (subprocess_run iteration c) = true
           /\ current_code st' = Some c
  end.
Proof.
  intros Hst. pose proof Hst as (Hruns & Hfile & Hconv).
  destruct (history_shape st Hst) as [[rest Hrest] _].
  destruct (loop_body_cases iteration st)
    as [(hist & -> & Hhist)
       |(response & code & errs & output & Hreply & Hcode & Hres)].
  - split; [|split].
    + split; [|split]; cbn [trace current_code conversation_history].
      * intros j c Hin. apply elem_of_app in Hin as [Hin|Hin]; [eauto|].
        apply list_elem_of_singleton in Hin. discriminate.
      * by rewrite file_content_app.
      * intros Hcur. destruct Hhist as [->|[Hnone _]]; [eauto|done].
    + eexists. split; [apply pass_asked|]. split; reflexivity.
    + unfold build_history at 2. cbn [current_code conversation_history].
      destruct (current_code st) as [c|] eqn:Hcur.
      * destruct Hhist as [->|[Hnone _]]; [|done]. by apply prefix_app_r.
      * unfold build_history. by rewrite Hcur.
  - cbv zeta in Hres.
    destruct Hres as [[Hclean ->]|(Hclean & _ & _ & ->)].
    + split; [done|]. exists code. by cbn [trace current_code].
    + split; [|split].
      * split; [|split]; cbn [trace current_code conversation_history].
        -- intros j c Hin. apply elem_of_app in Hin as [Hin|Hin]; [eauto|].
           rewrite !elem_of_cons, elem_of_nil in Hin.
           destruct Hin as [Hin|[Hin|[Hin|[]]]]; try discriminate.
           by injection Hin as -> ->.
        -- by rewrite file_content_app.
        -- intros _. rewrite Hrest. eexists.
           rewrite <- !app_comm_cons. reflexivity.
      * eexists. split; [apply (pass_compiled _ (history' st) code)|].
        split; reflexivity.
      * unfold build_history at 2. cbn [current_code conversation_history].
        rewrite <- app_assoc. by apply prefix_app_r.
Qed.

(** The loop from a state between passes: the trace grows by the passes of
    the iterations gone through, and it ends between passes, when the
    iterations are used up, or at the first clean compile. *)
Lemma for_loop_steady (iterations : list Z) (st : loop_state) :
  steady st ->
  let r := loop' iterations st in
  exists gone tail,
    gone `prefix_of` iterations
    /\ passes gone tail
    /\ trace (final_state r) = trace st ++ tail
    /\ match outcome_of r with
       | ExhaustedIterations => gone = iterations /\ steady (final_state r)
       | Success =>
           exists tr j c,
             trace (final_state r)
             = tr ++ [ WriteRfxFile j c; RunReflexc j c ]
             /\ compiles_cleanly (subprocess_run j c) = true
             /\ current_code (final_state r) = Some c
             /\ (forall j' c', RunReflexc j' c' ∈ tr ->
                   compiles_cleanly (subprocess_run j' c') = false)
       | FatalError => False
       end.
Proof.
  revert st; induction iterations as [|iteration rest IH]; intros st Hst.
  - exists [], []. cbn. rewrite app_nil_r.
    split; [done|]. split; [constructor|]. done.
  - cbn [for_loop]. pose proof (loop_body_steady iteration st Hst) as Hbody.
    destruct (body' iteration st) as [st'|code st'].
    + destruct Hbody as (Hst' & (evs & Hevs & Htrace & _) & _).
      destruct (IH st' Hst') as (gone & tail & Hgone & Hpasses & Htr & Hout).
      exists (iteration :: gone), (evs ++ tail). cbv zeta in *.
      split; [by apply prefix_cons|].
      split; [by constructor|].
      split; [by rewrite Htr, Htrace, app_assoc|].
      destruct (outcome_of (loop' rest st')); [done| |done].
      destruct Hout as [-> Hfin]. done.
    + destruct Hbody as (-> & c & Htrace & Hclean & Hcur).
      exists [ iteration ],
        [ CallVllm iteration (history' st); WriteRfxFile iteration c;
          RunReflexc iteration c ].
      cbv zeta. unfold final_state, outcome_of. cbn [fst snd].
      split; [by apply prefix_cons, prefix_nil|].
      split.
      { rewrite <- (app_nil_r [ CallVllm _ _; _; _ ]).
        constructor; [apply pass_compiled|constructor]. }
      split; [done|].
      exists (trace st ++ [ CallVllm iteration (history' st) ]), iteration, c.
      split; [by rewrite Htrace, <- app_assoc|].
      split; [done|]. split; [done|].
      intros j' c' Hin. apply elem_of_app in Hin as [Hin|Hin].
      * by apply Hst.
      * apply list_elem_of_singleton in Hin. discriminate.
Qed.

(** The conversations the loop sends, from a state between passes. *)
Lemma for_loop_requests (iterations : list Z) (st : loop_state) :
  steady st ->
  exists reqs,
    requests (trace (final_state (loop' iterations st)))
    = requests (trace st) ++ reqs
    /\ (reqs = [] \/ exists more, reqs = history' st :: more)
    /\ grows reqs
    /\ Forall (fun messages =>
                 (exists rest,
                     messages
                     = Turn "system" system_prompt
                       :: Turn "user" user_prompt :: rest)
                 /\ exists init content,
                      messages = init ++ [ Turn "user" content ]) reqs.
Proof.
  revert st; induction iterations as [|iteration rest IH]; intros st Hst.
  - exists []. cbn. rewrite app_nil_r. repeat split; auto; constructor.
  - cbn [for_loop]. pose proof (loop_body_steady iteration st Hst) as Hbody.
    pose proof (history_shape st Hst) as Hshape.
    destruct (body' iteration st) as [st'|code st'].
    + destruct Hbody as (Hst' & (evs & Hevs & Htrace & Hone) & Hprefix).
      destruct (IH st' Hst') as (reqs & Hreqs & Hhead & Hgrows & Hall).
      exists (history' st :: reqs).
      rewrite Hreqs, Htrace, requests_app, Hone, <- app_assoc.
      split; [done|]. split; [right; eauto|].
      split; [|by constructor].
      destruct Hhead as [->|[more ->]]; [constructor|by constructor].
    + destruct Hbody as (_ & c & Htrace & _ & _).
      exists [ history' st ]. unfold final_state. cbn [snd].
      rewrite Htrace, requests_app.
      split; [done|]. split; [right; eauto|].
      split; [constructor|]. constructor; [exact Hshape|constructor].
Qed.

End Passes.

(** ** Whole sessions *)

(** A session either fails before the loop or runs the loop from the
    initial state with its two prompts. *)
Lemma agent_loop_cases
    (call_vllm : Z -> list turn -> option string)
    (subprocess_run : Z -> string -> process_result)
    (env : session) (max_iterations : Z) (simple_mode : bool) :
  agent_loop call_vllm subprocess_run env max_iterations simple_mode = fatal
  \/ exists system_prompt user_prompt reflexc,
       session_system_prompt env simple_mode = Some system_prompt
       /\ option_map PyStr.strip (prompt_file env) = Some user_prompt
       /\ agent_loop call_vllm subprocess_run env max_iterations simple_mode
          = for_loop call_vllm subprocess_run system_prompt user_prompt
              reflexc simple_mode (range 1 (max_iterations + 1))
              initial_state.
Proof.
  unfold agent_loop, session_system_prompt.
  destruct (if simple_mode then _ else _) as [system_prompt|]; [|by left].
  destruct (option_map PyStr.strip (prompt_file env)) as [user_prompt|];
    [|by left].
  destruct (vllm_health env); [|by left]. cbn [negb].
  destruct (detect_reflexc_path (host_platform env)) as [reflexc|];
    [|by left].
  destruct (PyStr.truthy reflexc); [|by left]. cbn [negb].
  right. by exists system_prompt, user_prompt, reflexc.
Qed.

Lemma initial_state_steady
    (subprocess_run : Z -> string -> process_result)
    (system_prompt user_prompt : string) :
  between_passes subprocess_run system_prompt user_prompt initial_state.
Proof.
  split; [|split].
  - intros j c Hin. by apply elem_of_nil in Hin.
  - reflexivity.
  - intros H. by destruct H.
Qed.

Lemma range_prefix (lo hi : Z) (l : list Z) :
  l `prefix_of` range lo hi ->
  l = range lo (lo + Z.of_nat (length l))
  /\ (length l <= Z.to_nat (hi - lo))%nat.
Proof.
  intros [rest Hl].
  assert (Hlen : (length l <= Z.to_nat (hi - lo))%nat).
  { rewrite <- (range_length lo hi), Hl, length_app. lia. }
  split; [|exact Hlen].
  assert (Htake : l = take (length l) (range lo hi))
    by (by rewrite Hl, (take_app_length' l rest (length l) eq_refl)).
  rewrite Htake at 1. unfold range.
  rewrite <- fmap_take, take_seq.
  replace (lo + Z.of_nat (length l) - lo)%Z with (Z.of_nat (length l)) by lia.
  rewrite Nat2Z.id. f_equal. f_equal. lia.
Qed.

(** X8.  The outside calls of a session come in passes, one for each of the
    iterations 1, 2, ..., k in this order, with k at most the budget: a pass
    is one request to the model, alone or followed by the write and the
    compiler run of one and the same program.  When the iterations are used
    up, k is the budget; when the session fails before the loop, k is 0. *)
Theorem session_trace_in_passes
    (call_vllm : Z -> list turn -> option string)
    (subprocess_run : Z -> string -> process_result)
    (env : session) (max_iterations : Z) (simple_mode : bool) :
  let r := agent_loop call_vllm subprocess_run env max_iterations simple_mode in
  exists k : nat,
    (Z.of_nat k <= Z.max 0 max_iterations)%Z
    /\ passes (range 1 (1 + Z.of_nat k)) (trace (final_state r))
    /\ (outcome_of r = ExhaustedIterations ->
        Z.of_nat k = Z.max 0 max_iterations)
    /\ (outcome_of r = FatalError -> k = 0%nat).
Proof.
  intros r. subst r.
  destruct (agent_loop_cases call_vllm subprocess_run env max_iterations
              simple_mode) as [->|(sp & up & reflexc & _ & _ & ->)].
  - exists 0%nat. split; [lia|]. split; [constructor|]. done.
  - destruct (for_loop_steady call_vllm subprocess_run sp up reflexc
                simple_mode (range 1 (max_iterations + 1)) initial_state
                (initial_state_steady _ _ _))
      as (gone & tail & Hgone & Hpasses & Htrace & Hout).
    cbv zeta in Htrace, Hout. cbn [trace initial_state app] in Htrace.
    apply range_prefix in Hgone as [Hgone Hlen].
    exists (length gone). rewrite Htrace, <- Hgone.
    split; [lia|]. split; [exact Hpasses|]. split.
    + intros Hex. rewrite Hex in Hout. destruct Hout as [-> _].
      rewrite range_length. lia.
    + intros Hf. by rewrite Hf in Hout.
Qed.

(** X9.  A session returns 0 exactly when it ends at a clean compile, and
    that compile is the first clean one: the trace then ends with the write
    and the run of the current code, and every compiler run before it
    failed.  A session that ends otherwise had no clean compile at all. *)
Theorem success_is_the_first_clean_compile
    (call_vllm : Z -> list turn -> option string)
    (subprocess_run : Z -> string -> process_result)
    (env : session) (max_iterations : Z) (simple_mode : bool) :
  let r := agent_loop call_vllm subprocess_run env max_iterations simple_mode in
  (exit_code r = 0%Z <-> outcome_of r = Success)
  /\ (outcome_of r = Success ->
      exists tr j c,
        trace (final_state r) = tr ++ [ WriteRfxFile j c; RunReflexc j c ]
        /\ compiles_cleanly (subprocess_run j c) = true
        /\ current_code (final_state r) = Some c
        /\ forall j' c', RunReflexc j' c' ∈ tr ->
             compiles_cleanly (subprocess_run j' c') = false)
  /\ (outcome_of r ≠ Success ->
      forall j c, RunReflexc j c ∈ trace (final_state r) ->
        compiles_cleanly (subprocess_run j c) = false).
Proof.
  intros r. subst r.
  destruct (agent_loop_cases call_vllm subprocess_run env max_iterations
              simple_mode) as [->|(sp & up & reflexc & _ & _ & ->)].
  - split; [split; discriminate|]. split; [discriminate|].
    intros _ j c Hin. by apply elem_of_nil in Hin.
  - pose proof (for_loop_calls call_vllm subprocess_run sp up reflexc
                  simple_mode (range 1 (max_iterations + 1)) initial_state)
      as (_ & _ & Hexit).
    destruct (for_loop_steady call_vllm subprocess_run sp up reflexc
                simple_mode (range 1 (max_iterations + 1)) initial_state
                (initial_state_steady _ _ _))
      as (gone & tail & _ & _ & _ & Hout).
    cbv zeta in Hexit, Hout.
    destruct (outcome_of _); [| |done].
    + destruct Hexit as [Hexit _].
      split; [by split|]. split; [by intros _|]. by intros H.
    + destruct Hexit as [Hexit _]. destruct Hout as (_ & Hruns & _ & _).
      split; [split; [rewrite Hexit|]; discriminate|].
      split; [discriminate|]. by intros _.
Qed.

(** X10.  When a session ends, however it ends, the output file holds the
    current code: the program written last is the one the loop holds, and
    when nothing was written the loop holds none. *)
Theorem output_file_is_current_code
    (call_vllm : Z -> list turn -> option string)
    (subprocess_run : Z -> string -> process_result)
    (env : session) (max_iterations : Z) (simple_mode : bool) :
  let r := agent_loop call_vllm subprocess_run env max_iterations simple_mode in
  file_content (trace (final_state r)) = current_code (final_state r).
Proof.
  intros r. subst r.
  destruct (agent_loop_cases call_vllm subprocess_run env max_iterations
              simple_mode) as [->|(sp & up & reflexc & _ & _ & ->)];
    [reflexivity|].
  destruct (for_loop_steady call_vllm subprocess_run sp up reflexc
              simple_mode (range 1 (max_iterations + 1)) initial_state
              (initial_state_steady _ _ _))
    as (gone & tail & _ & _ & _ & Hout).
  cbv zeta in Hout. destruct (outcome_of _); [| |done].
  - destruct Hout as (tr & j & c & -> & _ & -> & _).
    by rewrite file_content_app.
  - by destruct Hout as (_ & _ & Hfile & _).
Qed.

(** X11.  The conversations a session sends to the model only grow: the
    first is the system prompt and the user prompt, each later one starts
    with the one before it, and every one starts with these two prompts and
    ends with a user turn. *)
Theorem conversation_only_grows
    (call_vllm : Z -> list turn -> option string)
    (subprocess_run : Z -> string -> process_result)
    (env : session) (max_iterations : Z) (simple_mode : bool)
    (system_prompt user_prompt : string) :
  session_system_prompt env simple_mode = Some system_prompt ->
  option_map PyStr.strip (prompt_file env) = Some user_prompt ->
  let r := agent_loop call_vllm subprocess_run env max_iterations simple_mode in
  let reqs := requests (trace (final_state r)) in
  grows reqs
  /\ (reqs = []
      \/ exists more,
           reqs = [ Turn "system" system_prompt; Turn "user" user_prompt ]
                  :: more)
  /\ Forall (fun messages =>
               (exists rest,
                   messages
                   = Turn "system" system_prompt
                     :: Turn "user" user_prompt :: rest)
               /\ exists init content,
                    messages = init ++ [ Turn "user" content ]) reqs.
Proof.
  intros Hsp Hup r reqs. subst reqs r.
  destruct (agent_loop_cases call_vllm subprocess_run env max_iterations
              simple_mode) as [->|(sp & up & reflexc & Hsp' & Hup' & ->)].
  - cbn. split; [constructor|]. split; [by left|constructor].
  - assert (sp = system_prompt) as -> by congruence.
    assert (up = user_prompt) as -> by congruence.
    destruct (for_loop_requests call_vllm subprocess_run system_prompt
                user_prompt reflexc simple_mode
                (range 1 (max_iterations + 1)) initial_state
                (initial_state_steady _ _ _))
      as (reqs & -> & Hhead & Hgrows & Hall).
    cbn [requests trace initial_state flat_map app].
    split; [exact Hgrows|]. split; [exact Hhead|exact Hall].
Qed.

Lemma conversation_only_grows_witness :
  grows
    (requests
       (trace (final_state
                 (agent_loop (reply_once None) always_rejects ready_session 3
                    false)))).
Proof.
  refine (proj1 (conversation_only_grows (reply_once None) always_rejects
                   ready_session 3 false "system" "task" _ _)).
  - reflexivity.
  - reflexivity.
Defined.

(** ** A model that never gives code *)

Lemma for_loop_without_code
    (call_vllm : Z -> list turn -> option string)
    (subprocess_run : Z -> string -> process_result)
    (system_prompt user_prompt reflexc : string) (simple_mode : bool)
    (iterations : list Z) (st : loop_state) :
  (forall iteration messages response,
      call_vllm iteration messages = Some response ->
      extracted_code response = None) ->
  current_code st = None ->
  let r :=
    for_loop call_vllm subprocess_run system_prompt user_prompt reflexc
      simple_mode iterations st in
  outcome_of r = ExhaustedIterations
  /\ current_code (final_state r) = None
  /\ trace (final_state r)
     = trace st
       ++ map (fun iteration =>
                 CallVllm iteration
                   [ Turn "system" system_prompt; Turn "user" user_prompt ])
            iterations.
Proof.
  intros Hnever. revert st; induction iterations as [|iteration rest IH];
    intros st Hcur.
  - cbn. by rewrite app_nil_r.
  - cbn [for_loop map].
    assert (Hhist : build_history system_prompt user_prompt simple_mode st
                    = [ Turn "system" system_prompt; Turn "user" user_prompt ])
      by (unfold build_history; by rewrite Hcur).
    destruct (loop_body_cases call_vllm subprocess_run system_prompt
                user_prompt reflexc simple_mode iteration st)
      as [(hist & -> & _)
         |(response & code & errs & output & Hreply & Hcode & _)].
    + specialize (IH (LoopState (current_code st) (errors st)
                        (compiler_output st) hist
                        (trace st ++ [ CallVllm iteration
                                         (build_history system_prompt
                                            user_prompt simple_mode st) ]))
                     Hcur).
      cbv zeta in IH |- *. destruct IH as (Hout & Hcode & Htrace).
      split; [exact Hout|]. split; [exact Hcode|].
      rewrite Htrace. cbn [trace]. by rewrite Hhist, <- app_assoc.
    + exfalso. apply Hnever in Hreply.
      destruct Hcode as [Hcode|[_ Hcode]]; congruence.
Qed.

(** X12.  When no reply of the model ever holds code, the session writes
    and compiles nothing and never succeeds, and the replies are not fed
    back: every request is the bare conversation of the system prompt and
    the user prompt, once for each iteration of the budget. *)
Theorem session_without_code
    (call_vllm : Z -> list turn -> option string)
    (subprocess_run : Z -> string -> process_result)
    (env : session) (max_iterations : Z) (simple_mode : bool) :
  (forall iteration messages response,
      call_vllm iteration messages = Some response ->
      extracted_code response = None) ->
  let r := agent_loop call_vllm subprocess_run env max_iterations simple_mode in
  outcome_of r ≠ Success
  /\ current_code (final_state r) = None
  /\ (trace (final_state r) = []
      \/ exists system_prompt user_prompt,
           session_system_prompt env simple_mode = Some system_prompt
           /\ option_map PyStr.strip (prompt_file env) = Some user_prompt
           /\ trace (final_state r)
              = map (fun iteration =>
                       CallVllm iteration
                         [ Turn "system" system_prompt;
                           Turn "user" user_prompt ])
                  (range 1 (max_iterations + 1))).
Proof.
  intros Hnever r. subst r.
  destruct (agent_loop_cases call_vllm subprocess_run env max_iterations
              simple_mode) as [->|(sp & up & reflexc & Hsp & Hup & ->)].
  - split; [discriminate|]. split; [reflexivity|by left].
  - destruct (for_loop_without_code call_vllm subprocess_run sp up reflexc
                simple_mode (range 1 (max_iterations + 1)) initial_state
                Hnever eq_refl) as (Hout & Hcode & Htrace).
    split; [by rewrite Hout|]. split; [exact Hcode|].
    right. exists sp, up. by rewrite Htrace.
Qed.

Lemma session_without_code_witness :
  current_code
    (final_state
       (agent_loop no_code_model always_rejects ready_session 3 false))
  = None.
Proof.
  refine (proj1 (proj2 (session_without_code no_code_model always_rejects
                          ready_session 3 false _))).
  intros iteration messages response [= <-]. vm_compute. reflexivity.
Defined.

(** ** Feedback in simple mode *)

(** X13.  In simple mode an error is shown with its line number and
    message first; the code line shown with it is the line of the code with
    that number, counted from 1, stripped; and when the number is not that
    of a line of the code, no code line is shown. *)
Theorem simple_error_code_line (lines : list string) (e : Err.t) :
  (exists more,
      simple_error_lines lines e
      = ("  Line " +:+ PyStr.of_Z (Err.line e) +:+ ": " +:+ Err.message e)
        :: more
      /\ (length more <= 2)%nat)
  /\ ((0 < Err.line e <= Z.of_nat (length lines))%Z ->
      exists l,
        lines !! Z.to_nat (Err.line e - 1) = Some l
        /\ "    CODE: " +:+ PyStr.strip l ∈ simple_error_lines lines e)
  /\ (~ (0 < Err.line e <= Z.of_nat (length lines))%Z ->
      forall entry, entry ∈ simple_error_lines lines e ->
        PyStr.startswith "    CODE: " entry = false).
Proof.
  unfold simple_error_lines. cbv zeta.
  destruct ((0 <? Err.line e)%Z && (Err.line e <=? Z.of_nat (length lines))%Z)
    eqn:Hguard.
  - apply andb_true_iff in Hguard as [H1 H2].
    apply Z.ltb_lt in H1. apply Z.leb_le in H2.
    split; [|split].
    + eexists. split; [reflexivity|].
      destruct (truthy_suggestion e); simpl; lia.
    + intros _.
      destruct (lookup_lt_is_Some_2 lines (Z.to_nat (Err.line e - 1)))
        as [l Hl]; [lia|].
      exists l. split; [exact Hl|].
      rewrite nth_lookup, Hl. cbn [default].
      rewrite !elem_of_app. right. right. by left.
    + intros Hout. lia.
  - assert (Hout : ~ (0 < Err.line e <= Z.of_nat (length lines))%Z).
    { intros [H1 H2]. apply Z.ltb_lt in H1. apply Z.leb_le in H2.
      by rewrite H1, H2 in Hguard. }
    split; [|split].
    + eexists. split; [reflexivity|].
      destruct (truthy_suggestion e); simpl; lia.
    + intros Hin. done.
    + intros _ entry Hin. rewrite app_nil_r in Hin.
      apply elem_of_app in Hin as [Hin|Hin].
      * apply list_elem_of_singleton in Hin as ->. reflexivity.
      * destruct (truthy_suggestion e); [|by apply elem_of_nil in Hin].
        apply list_elem_of_singleton in Hin as ->. reflexivity.
Qed.

Lemma simple_error_code_line_witness :
  exists l,
    [ "reflex a {"; "  x = 1;"; "}" ] !! Z.to_nat (2 - 1) = Some l
    /\ "    CODE: " +:+ PyStr.strip l
       ∈ simple_error_lines [ "reflex a {"; "  x = 1;"; "}" ]
           (Err.Make "out.rfx" 2 3 "error" "bad" None).
Proof.
  refine (proj1 (proj2 (simple_error_code_line
                          [ "reflex a {"; "  x = 1;"; "}" ]
                          (Err.Make "out.rfx" 2 3 "error" "bad" None))) _).
  simpl. lia.
Defined.

(** ** The size of the full report *)

Lemma section_length (A : Type) (header more : string)
    (row : nat -> A -> string) (l : list A) :
  (length (if truthy_list l
           then [ header ] ++ imap row (take 10 l)
                ++ (if (10 <? length l)%nat then [ more ] else [])
           else [])
   <= 12)%nat.
Proof.
  destruct (truthy_list l); [|cbn [length]; lia].
  rewrite !length_app, length_imap, length_take.
  destruct (10 <? length l)%nat; cbn [length]; lia.
Qed.

(** X14.  The itemised part of the full report stays small whatever the
    compiler prints: the four category sections take at most 48 entries, at
    most 12 each (a header, ten numbered lines and a count of the rest), the
    fixing suggestions at most 15 and the summary at most 3; and the fixing
    suggestions are left out exactly when there is no syntax, type or linker
    error, warnings notwithstanding. *)
Theorem full_report_is_bounded (b : buckets) :
  let total_errors :=
    (length (syntax_errors b) + length (type_errors b)
     + length (linker_errors b))%nat in
  (length (category_sections b) <= 48)%nat
  /\ (length (fixing_suggestions b total_errors) <= 15)%nat
  /\ (length (summary b total_errors) <= 3)%nat
  /\ (fixing_suggestions b total_errors = [] <->
      syntax_errors b = [] /\ type_errors b = [] /\ linker_errors b = []).
Proof.
  intros total_errors. split; [|split; [|split]].
  - unfold category_sections. cbv zeta. rewrite 3!length_app.
    repeat match goal with
           | |- context [length (if truthy_list ?l then [ ?h ] ++ imap ?r _ ++ (if _ then [ ?m ] else []) else [])] =>
               let H := fresh in
               pose proof (section_length string h m r l) as H;
               revert H;
               generalize (length (if truthy_list l then [ h ] ++ imap r (take 10 l) ++ (if (10 <? length l)%nat then [ m ] else []) else []))
           end.
    intros. lia.
  - unfold fixing_suggestions. destruct (0 <? total_errors)%nat; [|simpl; lia].
    destruct (truthy_list (syntax_errors b)), (truthy_list (type_errors b));
      simpl; lia.
  - unfold summary. cbv zeta.
    destruct (truthy_list (_ ++ _)); [|simpl; lia].
    destruct (30 <? total_errors)%nat; simpl; lia.
  - unfold fixing_suggestions. subst total_errors.
    destruct (syntax_errors b) as [|s1 l1], (type_errors b) as [|t1 l2],
      (linker_errors b) as [|k1 l3]; simpl; split; try done;
      intros H; try discriminate; by destruct H as (? & ? & ?).
Qed.

(** ** Diagnostics go with the current code *)

Lemma last_run_app (tr1 tr2 : list event) :
  last_run (tr1 ++ tr2)
  = match last_run tr2 with
    | Some run => Some run
    | None => last_run tr1
    end.
Proof.
  unfold last_run. rewrite flat_map_app.
  destruct (flat_map _ tr2) as [|c l] using rev_ind.
  - by rewrite app_nil_r.
  - by rewrite app_assoc, !last_snoc.
Qed.

Lemma for_loop_diagnosed
    (call_vllm : Z -> list turn -> option string)
    (subprocess_run : Z -> string -> process_result)
    (system_prompt user_prompt reflexc : string) (simple_mode : bool)
    (iterations : list Z) (st : loop_state) :
  diagnosed subprocess_run reflexc st ->
  let r :=
    for_loop call_vllm subprocess_run system_prompt user_prompt reflexc
      simple_mode iterations st in
  outcome_of r = ExhaustedIterations ->
  diagnosed subprocess_run reflexc (final_state r).
Proof.
  revert st; induction iterations as [|iteration rest IH]; intros st Hst;
    [by intros r _|].
  cbn [for_loop].
  destruct (loop_body_cases call_vllm subprocess_run system_prompt
              user_prompt reflexc simple_mode iteration st)
    as [(hist & -> & _)
       |(response & code & errs & output & _ & _ & Hres)].
  - apply IH. destruct Hst as [Herrs Hrun]. split; [exact Herrs|].
    cbn [trace current_code compiler_output]. by rewrite last_run_app.
  - cbv zeta in Hres. destruct Hres as [[_ ->]|(_ & Hout & Herrs & ->)].
    + cbv zeta. unfold outcome_of. cbn [fst snd]. discriminate.
    + apply IH. split; [exact Herrs|].
      cbn [trace current_code compiler_output]. by rewrite last_run_app.
Qed.

(** X15.  When a session runs out of iterations, the diagnostics it holds
    are those of its current code: the compiler output is that of the last
    compiler run, which was made on the current code, and the errors are the
    ones parsed from that output.  If the compiler never ran, there is no
    code, no output and no error. *)
Theorem exhausted_session_is_diagnosed
    (call_vllm : Z -> list turn -> option string)
    (subprocess_run : Z -> string -> process_result)
    (env : session) (max_iterations : Z) (simple_mode : bool) :
  let r := agent_loop call_vllm subprocess_run env max_iterations simple_mode in
  outcome_of r = ExhaustedIterations ->
  exists reflexc,
    detect_reflexc_path (host_platform env) = Some reflexc
    /\ diagnosed subprocess_run reflexc (final_state r).
Proof.
  intros r. subst r. unfold agent_loop.
  destruct (if simple_mode then _ else _) as [system_prompt|]; [|discriminate].
  destruct (option_map PyStr.strip (prompt_file env)) as [user_prompt|];
    [|discriminate].
  destruct (vllm_health env); [|discriminate]. cbn [negb].
  destruct (detect_reflexc_path (host_platform env)) as [reflexc|];
    [|discriminate].
  destruct (PyStr.truthy reflexc); [|discriminate]. cbn [negb].
  intros Hout. exists reflexc. split; [reflexivity|].
  apply for_loop_diagnosed; [|exact Hout].
  split; [reflexivity|]. by split.
Qed.

Lemma exhausted_session_is_diagnosed_witness :
  exists reflexc,
    detect_reflexc_path (host_platform ready_session) = Some reflexc
    /\ diagnosed always_rejects reflexc
         (final_state
            (agent_loop (reply_once None) always_rejects ready_session 2
               false)).
Proof.
  apply (exhausted_session_is_diagnosed (reply_once None) always_rejects
           ready_session 2 false).
  vm_compute. reflexivity.
Defined.
